(** * FOCUS report downloader: a shallow embedding of
      [list_FOCUS_pagination_V0-4.go] and the properties of its
      date extractor, lister, per-job download, worker pool and
      summary report.

    Conventions.  Go's [int] and [int64] are modelled as [Z]; the only
    place where the 64-bit width is observable in this program is
    [strconv.Atoi], whose range check is written out.  Go strings are
    byte strings and are modelled by [string].  Library functions the
    program calls ([strings.Split], [strconv.Atoi], [time.Date],
    [Time.Format], [path.Base], ...) are modelled next to the program
    functions that use them, in modules named after their packages. *)

From Stdlib Require Import ZArith Lia List Bool Ascii String Sorting.Permutation.
From stdpp Require Import base list strings gmap sorting.

Local Open Scope string_scope.
Local Open Scope Z_scope.

(** Outcome of a fallible call: Go's [(value, error)] pair, where the
    value is meaningful only when the error is [nil]. *)
Inductive result (A E : Type) : Type :=
| Ok (a : A)
| Err (e : E).
Arguments Ok {A E} a.
Arguments Err {A E} e.

Definition is_ok {A E} (r : result A E) : bool :=
  match r with Ok _ => true | Err _ => false end.

(** ** Package [strings] *)
Module strings.

(** [strings.Split(s, sep)] for a one-byte separator: the pieces of
    [s] between the occurrences of the separator, always at least
    one piece. *)
Fixpoint Split (s : string) (sep : ascii) : list string :=
  match s with
  | EmptyString => [EmptyString]
  | String c rest =>
      if Ascii.eqb c sep then EmptyString :: Split rest sep
      else match Split rest sep with
           | piece :: pieces => String c piece :: pieces
           | [] => [String c EmptyString]
           end
  end.

Fixpoint HasPrefix (s prefix : string) : bool :=
  match prefix, s with
  | EmptyString, _ => true
  | String p prefix', String c s' => Ascii.eqb c p && HasPrefix s' prefix'
  | String _ _, EmptyString => false
  end.

(** [strings.Contains(s, substr)]. *)
Fixpoint Contains (s substr : string) : bool :=
  HasPrefix s substr ||
  match s with
  | EmptyString => false
  | String _ s' => Contains s' substr
  end.

End strings.

(** ** Package [strconv] *)
Module strconv.

Inductive NumError := ErrSyntax | ErrRange.

Definition digitVal (c : ascii) : option Z :=
  let n := Z.of_nat (nat_of_ascii c) in
  if (48 <=? n) && (n <=? 57) then Some (n - 48) else None.

Definition maxUint64 : Z := 2 ^ 64 - 1.

(** The digit loop of [ParseUint(s, 10, 64)]: any byte that is not a
    decimal digit is a syntax error, a value that leaves the
    unsigned 64-bit range is a range error. *)
Fixpoint parseDigits (s : string) (n : Z) : result Z NumError :=
  match s with
  | EmptyString => Ok n
  | String c rest =>
      match digitVal c with
      | None => Err ErrSyntax
      | Some d =>
          if n >=? maxUint64 / 10 + 1 then Err ErrRange
          else
            let n1 := n * 10 + d in
            if n1 >? maxUint64 then Err ErrRange
            else parseDigits rest n1
      end
  end.

Definition ParseUint (s : string) : result Z NumError :=
  match s with
  | EmptyString => Err ErrSyntax
  | _ => parseDigits s 0
  end.

(** [strconv.Atoi] on a platform with 64-bit [int]: an optional sign,
    at least one decimal digit, and a value in the signed 64-bit
    range.  (The fast path Go takes for short strings computes the
    same result.) *)
Definition Atoi (s : string) : result Z NumError :=
  match s with
  | EmptyString => Err ErrSyntax
  | String c rest =>
      let neg := Ascii.eqb c "-" in
      let body := if Ascii.eqb c "+" || neg then rest else s in
      match ParseUint body with
      | Err e => Err e
      | Ok un =>
          if negb neg && (un >=? 2 ^ 63) then Err ErrRange
          else if neg && (un >? 2 ^ 63) then Err ErrRange
          else Ok (if neg then - un else un)
      end
  end.

Definition FormatBool (b : bool) : string := if b then "true" else "false".

End strconv.

(** ** Package [path] *)
Module path.

(** Strip trailing slashes, working on the reversed byte list. *)
Fixpoint dropSlashes (rev : list ascii) : list ascii :=
  match rev with
  | c :: rest => if Ascii.eqb c "/" then dropSlashes rest else rev
  | [] => []
  end.

(** The bytes before the first slash (of the reversed path this is
    the last element, reversed). *)
Fixpoint untilSlash (l : list ascii) : list ascii :=
  match l with
  | c :: rest => if Ascii.eqb c "/" then [] else c :: untilSlash rest
  | [] => []
  end.

(** [path.Base]: the last element of the path; ["."] for the empty
    path and ["/"] for a path of slashes only. *)
Definition Base (p : string) : string :=
  match p with
  | EmptyString => "."
  | _ =>
      let last := rev (untilSlash (dropSlashes (rev (list_ascii_of_string p)))) in
      match last with
      | [] => "/"
      | _ => string_of_list_ascii last
      end
  end.

End path.

(** ** Package [fmt]: the verb [%d] *)
Module fmt.

(** Decimal digits of a non-negative number, most significant
    first.  Twenty digits cover the unsigned 64-bit range. *)
Fixpoint digits (fuel : nat) (u : Z) (acc : string) : string :=
  match fuel with
  | O => acc
  | S fuel' =>
      let acc' := String (ascii_of_nat (Z.to_nat (48 + u mod 10))) acc in
      if u <? 10 then acc' else digits fuel' (u / 10) acc'
  end.

Definition utoa (u : Z) : string := digits 20 u EmptyString.

(** [fmt.Sprintf("%d", x)]. *)
Definition Sprintd (x : Z) : string :=
  if x <? 0 then String "-" (utoa (- x)) else utoa x.

End fmt.

(** ** Package [time]

    A [Time] is an instant (seconds since the Unix epoch and
    nanoseconds within the second) together with the location it is
    displayed in.

    Two things are simpler here than in Go.  Calendar arithmetic is
    on [Z], where Go's is on 64-bit words and wraps around: the two
    agree as long as the counts of seconds fit ([fits64] below),
    which they do for every calendar date of a year within a billion
    years of year 0, and not for every year an [int] can hold.  And a
    location is one fixed offset east of UTC, where Go's [Local] can
    change its offset with the date (daylight saving): the two agree
    for UTC, which is the location of every date read from an object
    name, and for a local zone only between two changes of its
    offset. *)
Module time.

Record Location := mkLocation { zoneOffset : Z }.
Definition UTC : Location := mkLocation 0.

Record Time := mkTime { unixSec : Z; nsec : Z; loc : Location }.

Definition secondsPerDay : Z := 86400.
Definition daysPer400Years : Z := 365 * 400 + 97.
Definition daysPer100Years : Z := 365 * 100 + 24.
Definition daysPer4Years : Z := 365 * 4 + 1.

Definition absoluteZeroYear : Z := -292277022399.
Definition absoluteToInternal : Z := -9223371966579724800.
Definition unixToInternal : Z :=
  (1969 * 365 + 1969 / 4 - 1969 / 100 + 1969 / 400) * secondsPerDay.
Definition internalToUnix : Z := - unixToInternal.
Definition internalToAbsolute : Z := - absoluteToInternal.

(** [norm(hi, lo, base)]: move the overflow of [lo] into [hi].  Go's
    [/] truncates, hence [Z.quot]. *)
Definition norm (hi lo base : Z) : Z * Z :=
  let '(hi, lo) :=
    if lo <? 0 then
      let n := Z.quot (- lo - 1) base + 1 in (hi - n, lo + n * base)
    else (hi, lo) in
  if lo >=? base then
    let n := Z.quot lo base in (hi + n, lo - n * base)
  else (hi, lo).

Definition isLeap (year : Z) : bool :=
  (Z.rem year 4 =? 0) && (negb (Z.rem year 100 =? 0) || (Z.rem year 400 =? 0)).

(** [daysBefore[m]]: days in a non-leap year before month [m+1]. *)
Definition daysBeforeTable : list Z :=
  [0; 31; 59; 90; 120; 151; 181; 212; 243; 273; 304; 334; 365].
Definition daysBefore (m : Z) : Z := nth (Z.to_nat m) daysBeforeTable 0.

Definition daysSinceEpoch (year : Z) : Z :=
  let y := year - absoluteZeroYear in
  let n := y / 400 in
  let y := y - 400 * n in
  let d := daysPer400Years * n in
  let n := y / 100 in
  let y := y - 100 * n in
  let d := d + daysPer100Years * n in
  let n := y / 4 in
  let y := y - 4 * n in
  let d := d + daysPer4Years * n in
  d + 365 * y.

(** [time.Date(year, month, day, hour, min, sec, nsec, loc)]. *)
Definition Date (year month day hour min sec nsec : Z) (l : Location) : Time :=
  let m := month - 1 in
  let '(year, m) := norm year m 12 in
  let month := m + 1 in
  let '(sec, nsec) := norm sec nsec 1000000000 in
  let '(min, sec) := norm min sec 60 in
  let '(hour, min) := norm hour min 60 in
  let '(day, hour) := norm day hour 24 in
  let d := daysSinceEpoch year in
  let d := d + daysBefore (month - 1) in
  let d := if isLeap year && (3 <=? month) then d + 1 else d in
  let d := d + (day - 1) in
  let abs := d * secondsPerDay + (hour * 3600 + min * 60 + sec) in
  let unix := abs + (absoluteToInternal + internalToUnix) in
  mkTime (unix - zoneOffset l) nsec l.

(** [t.abs()]: seconds since the absolute epoch, in [t]'s location. *)
Definition abs (t : Time) : Z :=
  unixSec t + zoneOffset (loc t) + (unixToInternal + internalToAbsolute).

(** [absDate(abs, false)]: the year and the day within the year. *)
Definition absYearDay (a : Z) : Z * Z :=
  let d := a / secondsPerDay in
  let n := d / daysPer400Years in
  let y := 400 * n in
  let d := d - daysPer400Years * n in
  let n := d / daysPer100Years in
  let n := n - Z.shiftr n 2 in
  let y := y + 100 * n in
  let d := d - daysPer100Years * n in
  let n := d / daysPer4Years in
  let y := y + 4 * n in
  let d := d - daysPer4Years * n in
  let n := d / 365 in
  let n := n - Z.shiftr n 2 in
  let y := y + n in
  let d := d - 365 * n in
  (y + absoluteZeroYear, d).

(** [absDate(abs, true)]: year, month and day of an absolute time. *)
Definition absDate (a : Z) : Z * Z * Z :=
  let '(year, day) := absYearDay a in
  if isLeap year && (day =? 31 + 29 - 1) then (year, 2, 29)
  else
    let day := if isLeap year && (day >? 31 + 29 - 1) then day - 1 else day in
    let month := day / 31 in
    let stop := daysBefore (month + 1) in
    let '(month, start) :=
      if day >=? stop then (month + 1, stop) else (month, daysBefore month) in
    (year, month + 1, day - start + 1).

(** [t.Date()], [t.Year()] and [t.Clock()]. *)
Definition dateOf (t : Time) : Z * Z * Z := absDate (abs t).
Definition Year (t : Time) : Z := fst (fst (dateOf t)).
Definition clockOf (t : Time) : Z * Z * Z :=
  let s := abs t mod secondsPerDay in
  (s / 3600, (s mod 3600) / 60, s mod 60).

(** [t.AddDate(years, months, days)]. *)
Definition AddDate (t : Time) (years months days : Z) : Time :=
  let '(year, month, day) := dateOf t in
  let '(hour, min, sec) := clockOf t in
  Date (year + years) (month + months) (day + days) hour min sec (nsec t) (loc t).

(** [t.After(u)]: comparison of instants. *)
Definition After (t u : Time) : bool :=
  (unixSec t >? unixSec u) || ((unixSec t =? unixSec u) && (nsec t >? nsec u)).

(** [appendInt(b, x, width)]: sign, zero padding up to [width],
    decimal digits. *)
Definition appendInt (x : Z) (width : nat) : string :=
  let u := fmt.utoa (Z.abs x) in
  let pad := string_of_list_ascii (repeat "0"%char (width - String.length u)) in
  (if x <? 0 then "-" else "") ++ pad ++ u.

(** [t.Format("2006-01-02")]. *)
Definition FormatISO (t : Time) : string :=
  let '(year, month, day) := dateOf t in
  appendInt year 4 ++ "-" ++ appendInt month 2 ++ "-" ++ appendInt day 2.

(** [t.Format(time.RFC3339)], layout ["2006-01-02T15:04:05Z07:00"]. *)
Definition FormatRFC3339 (t : Time) : string :=
  let '(year, month, day) := dateOf t in
  let '(hour, min, sec) := clockOf t in
  let zone := Z.quot (zoneOffset (loc t)) 60 in
  appendInt year 4 ++ "-" ++ appendInt month 2 ++ "-" ++ appendInt day 2 ++ "T" ++
  appendInt hour 2 ++ ":" ++ appendInt min 2 ++ ":" ++ appendInt sec 2 ++
  (if zoneOffset (loc t) =? 0 then "Z"
   else (if zone <? 0 then "-" else "+") ++
        appendInt (Z.quot (Z.abs zone) 60) 2 ++ ":" ++
        appendInt (Z.rem (Z.abs zone) 60) 2).

(** [t.Format("20060102")]. *)
Definition FormatCompact (t : Time) : string :=
  let '(year, month, day) := dateOf t in
  appendInt year 4 ++ appendInt month 2 ++ appendInt day 2.

(** The Gregorian calendar, stated independently of the code above:
    the reference the date arithmetic is checked against. *)
Definition leapYear (year : Z) : bool :=
  (year mod 4 =? 0) && (negb (year mod 100 =? 0) || (year mod 400 =? 0)).

Definition daysIn (year month : Z) : Z :=
  if month =? 2 then (if leapYear year then 29 else 28)
  else if (month =? 4) || (month =? 6) || (month =? 9) || (month =? 11) then 30
  else 31.

Definition validDate (year month day : Z) : Prop :=
  1 <= month <= 12 /\ 1 <= day <= daysIn year month.

(** Years far from the ends of what a [Time] can hold, and times
    whose counts of seconds fit the words Go keeps them in: the
    seconds since year 1 an [int64], the seconds since the absolute
    epoch a [uint64].  Within these the arithmetic of the code does
    not wrap around and is the arithmetic on [Z] above. *)
Definition plainYear (year : Z) : Prop := -1000000000 <= year <= 1000000000.

Definition fits64 (t : Time) : Prop :=
  - 2 ^ 63 <= unixSec t + unixToInternal < 2 ^ 63 /\
  0 <= abs t < 2 ^ 64.

End time.

(** * The program *)

(** ** Date extractor *)

Inductive DateError :=
| InvalidFormat (name : string)          (* fewer than four segments *)
| NotANumber (segment : string) (e : strconv.NumError).

(** [parts[len(parts)-k]]. *)
Definition fromEnd (parts : list string) (k : nat) : string :=
  nth (length parts - k) parts EmptyString.

Definition parseDateFromName (name : string) : result time.Time DateError :=
  let parts := strings.Split name "/" in
  if (length parts <? 4)%nat then Err (InvalidFormat name)
  else
    match strconv.Atoi (fromEnd parts 4) with
    | Err e => Err (NotANumber (fromEnd parts 4) e)
    | Ok year =>
        match strconv.Atoi (fromEnd parts 3) with
        | Err e => Err (NotANumber (fromEnd parts 3) e)
        | Ok month =>
            match strconv.Atoi (fromEnd parts 2) with
            | Err e => Err (NotANumber (fromEnd parts 2) e)
            | Ok day => Ok (time.Date year month day 0 0 0 0 time.UTC)
            end
        end
    end.

Definition formatDateForFilename (date : time.Time) : string :=
  time.FormatCompact date.

(** ** The outside world

    The program talks to the object storage service, the local file
    system, the clock and the log.  A [World] holds the local files
    and the history of every interaction so far; what the service,
    the clock and a failing system call answer is given by an [Env],
    whose answers may depend on the whole history.  Standard output
    (the progress lines of [fmt.Printf]) is not modelled. *)

Record ObjectSummary := mkObjectSummary {
  Name : option string;
  Size : option Z
}.

Record ListObjectsResponse := mkListObjects {
  Objects : list ObjectSummary;
  NextStartWith : option string
}.

(** The body of an object as [io.Copy] sees it: the bytes that reach
    the local file, and the error that ended the copy, if any. *)
Record Stream := mkStream {
  body : string;
  failure : option string
}.

Inductive LogLine :=
| LogSkipInvalidDate (name : string)
| LogSizeWarning (name err : string)
| LogDownloaded (name : string) (bytes : Z) (filePath : string)
| LogDownloadFailed (name err : string)
| LogWorkersLimited.

(** What a file holds.  A file written with [io.Copy] or just made by
    [os.Create] has known bytes.  A file written through a
    [csv.Writer] has not: the writer keeps the records in a buffer
    and hands them to the file when the buffer is full and at
    [Flush], and the program never asks whether that worked, so what
    has reached the file is not determined by what the program sees. *)
Inductive FileData :=
| Bytes (content : string)
| Csv.

Inductive Event :=
| EvNow (t : time.Time)
| EvNewClient (err : option string)
| EvTenancyOCID (r : result string string)
| EvMkdirAll (dir : string) (err : option string)
| EvListObjects (ns bucket : string) (start : option string)
    (r : result ListObjectsResponse string)
| EvHeadObject (ns bucket obj : string) (r : result (option Z) string)
| EvGetObject (ns bucket obj : string) (r : result Stream string)
| EvStat (filePath : string) (found : bool)
| EvCreate (filePath : string) (err : option string)
| EvCopy (filePath : string) (written : Z) (err : option string)
| EvWriteRecord (filePath : string) (record : list string) (err : option string)
| EvLog (line : LogLine).

Record Env := mkEnv {
  env_now : list Event -> time.Time;
  env_newClient : list Event -> option string;
  env_tenancy : list Event -> result string string;
  env_mkdirAll : list Event -> string -> option string;
  env_list : list Event -> string -> string -> option string ->
             result ListObjectsResponse string;
  env_head : list Event -> string -> string -> string -> result (option Z) string;
  env_get : list Event -> string -> string -> string -> result Stream string;
  env_create : list Event -> string -> option string;
  env_writeRecord : list Event -> string -> list string -> option string
}.

Record World := mkWorld {
  files : gmap string FileData;
  history : list Event
}.

Definition record (e : Event) (w : World) : World :=
  mkWorld (files w) (history w ++ [e]).

Definition store (filePath : string) (d : FileData) (w : World) : World :=
  mkWorld (<[filePath := d]> (files w)) (history w).

(** Computations that act on the world. *)
Definition IO (A : Type) : Type := World -> A * World.

#[global] Instance IO_ret : MRet IO := fun A a w => (a, w).
#[global] Instance IO_bind : MBind IO :=
  fun A B f m w => let '(a, w') := m w in f a w'.

Section Primitives.
Variable env : Env.

Definition Now : IO time.Time := fun w =>
  let t := env_now env (history w) in (t, record (EvNow t) w).

Definition Log (line : LogLine) : IO unit := fun w =>
  (tt, record (EvLog line) w).

Definition ListObjects (ns bucket : string) (start : option string)
  : IO (result ListObjectsResponse string) := fun w =>
  let r := env_list env (history w) ns bucket start in
  (r, record (EvListObjects ns bucket start r) w).

Definition HeadObject (ns bucket obj : string)
  : IO (result (option Z) string) := fun w =>
  let r := env_head env (history w) ns bucket obj in
  (r, record (EvHeadObject ns bucket obj r) w).

Definition GetObject (ns bucket obj : string)
  : IO (result Stream string) := fun w =>
  let r := env_get env (history w) ns bucket obj in
  (r, record (EvGetObject ns bucket obj r) w).

(** [os.Stat(path)] succeeds exactly when the file exists. *)
Definition Stat (filePath : string) : IO bool := fun w =>
  let found := bool_decide (is_Some (files w !! filePath)) in
  (found, record (EvStat filePath found) w).

(** [os.Create(path)]: on success the file exists and is empty. *)
Definition Create (filePath : string) : IO (option string) := fun w =>
  let err := env_create env (history w) filePath in
  (err, record (EvCreate filePath err)
          (match err with
           | None => store filePath (Bytes "") w
           | Some _ => w
           end)).

(** [io.Copy(outFile, resp.Content)]: the bytes copied are in the
    file whether or not the copy ended with an error. *)
Definition Copy (filePath : string) (s : Stream) : IO (Z * option string) := fun w =>
  let written := Z.of_nat (String.length (body s)) in
  ((written, failure s),
   record (EvCopy filePath written (failure s)) (store filePath (Bytes (body s)) w)).

Definition MkdirAll (dir : string) : IO (option string) := fun w =>
  let err := env_mkdirAll env (history w) dir in
  (err, record (EvMkdirAll dir err) w).

Definition NewClient : IO (option string) := fun w =>
  let err := env_newClient env (history w) in
  (err, record (EvNewClient err) w).

Definition TenancyOCID : IO (result string string) := fun w =>
  let r := env_tenancy env (history w) in
  (r, record (EvTenancyOCID r) w).

(** [csv.Writer.Write(record)] on a writer made by [csv.NewWriter]
    over the file opened at [filePath].  The record goes to the
    writer's buffer; the error, if any, is that of handing a full
    buffer to the file.  A [nil] error does not say that the record
    is in the file. *)
Definition WriteRecord (filePath : string) (rec : list string)
  : IO (option string) := fun w =>
  let err := env_writeRecord env (history w) filePath rec in
  (err, record (EvWriteRecord filePath rec err) (store filePath Csv w)).

(** [csv.Writer.Flush()], which the program defers: it returns
    nothing, and [writer.Error()] is never called. *)
Definition Flush (filePath : string) : IO unit := fun w =>
  (tt, store filePath Csv w).

End Primitives.

(** ** Program types *)

Record Config := mkConfig {
  MaxWorkers : Z;
  Days : Z;
  DownloadFolder : string;
  ReportFile : string
}.

Record OperationResult := mkOperationResult {
  FileName : string;
  FileSize : Z;
  ReportDate : string;
  Status : string;
  Downloaded : bool;
  Error : string;
  LastAttempt : time.Time
}.

Record Job := mkJob {
  ObjectName : string;
  Namespace : string;
  BucketName : string
}.

(** [Result{Job, Result, Error}]; the error is [nil] or carries its
    message. *)
Record Result := mkResult {
  Result_Job : Job;
  Result_Result : OperationResult;
  Result_Error : option string
}.

Definition withFileName (r : OperationResult) (v : string) : OperationResult :=
  mkOperationResult v (FileSize r) (ReportDate r) (Status r) (Downloaded r)
    (Error r) (LastAttempt r).
Definition withFileSize (r : OperationResult) (v : Z) : OperationResult :=
  mkOperationResult (FileName r) v (ReportDate r) (Status r) (Downloaded r)
    (Error r) (LastAttempt r).
Definition withReportDate (r : OperationResult) (v : string) : OperationResult :=
  mkOperationResult (FileName r) (FileSize r) v (Status r) (Downloaded r)
    (Error r) (LastAttempt r).
Definition withStatus (r : OperationResult) (v : string) : OperationResult :=
  mkOperationResult (FileName r) (FileSize r) (ReportDate r) v (Downloaded r)
    (Error r) (LastAttempt r).
Definition withDownloaded (r : OperationResult) (v : bool) : OperationResult :=
  mkOperationResult (FileName r) (FileSize r) (ReportDate r) (Status r) v
    (Error r) (LastAttempt r).
Definition withError (r : OperationResult) (v : string) : OperationResult :=
  mkOperationResult (FileName r) (FileSize r) (ReportDate r) (Status r)
    (Downloaded r) v (LastAttempt r).

(** [result.Status = "Failed"; result.Error = err.Error(); return result, err] *)
Definition failed (r : OperationResult) (err : string)
  : OperationResult * option string :=
  (withError (withStatus r "Failed") err, Some err).

Section Program.
Variable env : Env.
(** [filepath.Join(folder, name)], a pure function of its arguments. *)
Variable Join : string -> string -> string.

(** ** Metadata resolver *)
Definition getObjectSize (namespace bucketName objectName : string)
  : IO (result Z string) :=
  resp ← HeadObject env namespace bucketName objectName;
  match resp with
  | Err err =>
      mret (Err ("failed to get object metadata for " ++ objectName ++ ": " ++ err))
  | Ok None =>
      mret (Err ("content length not available for " ++ objectName))
  | Ok (Some contentLength) => mret (Ok contentLength)
  end.

(** ** Lister *)

(** The test on the name, as written. *)
Definition hasMarker (name : string) : bool :=
  strings.Contains name "FOCUS" || strings.Contains name "FOCUS_REPORT".

(** The loop over one page of the listing. *)
Fixpoint scanPage (cutoff : time.Time) (objs : list ObjectSummary)
    (allObjects : list ObjectSummary) : IO (list ObjectSummary) :=
  match objs with
  | [] => mret allObjects
  | obj :: rest =>
      match Name obj with
      | None => scanPage cutoff rest allObjects
      | Some name =>
          if hasMarker name then
            match parseDateFromName name with
            | Err _ =>
                _ ← Log (LogSkipInvalidDate name);
                scanPage cutoff rest allObjects
            | Ok objDate =>
                if time.After objDate cutoff
                then scanPage cutoff rest (allObjects ++ [obj])
                else scanPage cutoff rest allObjects
            end
          else scanPage cutoff rest allObjects
      end
  end.

(** The paging loop.  [None] means the loop was still running when
    the fuel ran out. *)
Fixpoint listPages (fuel : nat) (namespace bucketName : string)
    (cutoff : time.Time) (nextStart : option string)
    (allObjects : list ObjectSummary)
  : IO (option (result (list ObjectSummary) string)) :=
  match fuel with
  | O => mret None
  | S fuel' =>
      resp ← ListObjects env namespace bucketName nextStart;
      match resp with
      | Err err => mret (Some (Err ("error listing objects: " ++ err)))
      | Ok page =>
          allObjects ← scanPage cutoff (Objects page) allObjects;
          match NextStartWith page with
          | None => mret (Some (Ok allObjects))
          | Some token =>
              if String.eqb token "" then mret (Some (Ok allObjects))
              else listPages fuel' namespace bucketName cutoff (Some token) allObjects
          end
      end
  end.

Definition listAllFocusReports (fuel : nat) (namespace bucketName : string)
    (days : Z) : IO (option (result (list ObjectSummary) string)) :=
  now ← Now env;
  let cutoff := time.AddDate now 0 0 (- days) in
  listPages fuel namespace bucketName cutoff None [].

(** ** The per-job download *)
Definition downloadSingleFile (job : Job) (folder : string)
  : IO (OperationResult * option string) :=
  now ← Now env;
  let result :=
    mkOperationResult (path.Base (ObjectName job)) 0 "" "" false "" now in
  size ← getObjectSize (Namespace job) (BucketName job) (ObjectName job);
  result ← match size with
           | Err err =>
               _ ← Log (LogSizeWarning (ObjectName job) err);
               mret (withFileSize result 0)
           | Ok size => mret (withFileSize result size)
           end;
  let '(datePrefix, result) :=
    match parseDateFromName (ObjectName job) with
    | Ok date =>
        (formatDateForFilename date ++ "_",
         withReportDate result (time.FormatISO date))
    | Err _ => ("unknown_date_", withReportDate result "unknown")
    end in
  let prefixedFilename := datePrefix ++ path.Base (ObjectName job) in
  let filePath := Join folder prefixedFilename in
  let result := withFileName result prefixedFilename in
  found ← Stat filePath;
  if found : bool then
    mret (withDownloaded (withStatus result "Already exists") false, None)
  else
    resp ← GetObject env (Namespace job) (BucketName job) (ObjectName job);
    match resp with
    | Err err => mret (failed result err)
    | Ok content =>
        created ← Create env filePath;
        match created with
        | Some err => mret (failed result err)
        | None =>
            '(bytesCopied, copyErr) ← Copy filePath content;
            match copyErr with
            | Some err => mret (failed result err)
            | None =>
                let result := withFileSize result bytesCopied in
                let result := withStatus result "Success" in
                let result := withDownloaded result true in
                _ ← Log (LogDownloaded (ObjectName job) bytesCopied filePath);
                mret (result, None)
            end
        end
    end.

(** One iteration of the worker loop: the [Result] sent for a job. *)
Definition processJob (folder : string) (job : Job) : IO Result :=
  '(result, err) ← downloadSingleFile job folder;
  mret (mkResult job result err).

End Program.

(** ** The worker pool

    The pool runs [MaxWorkers] workers, the collector and the main
    goroutine concurrently.  Its executions are the interleavings of
    the steps below; a download is one step.  Both channels are
    buffered with capacity [2 * MaxWorkers]: a send needs room, a
    receive needs an element. *)

Inductive WorkerState :=
| Idle                       (* at [for job := range wp.jobs] *)
| Holding (job : Job)        (* received a job, download not yet run *)
| Sending (r : Result)       (* at [wp.results <- ...] *)
| Exited.                    (* left the loop, [wg.Done()] ran *)

Record Pool := mkPool {
  toSubmit : list Job;            (* main: jobs not yet passed to AddJob *)
  jobs : list Job;                (* channel [wp.jobs], oldest first *)
  jobsClosed : bool;
  workers : list WorkerState;
  results : list Result;          (* channel [wp.results], oldest first *)
  resultsClosed : bool;
  received : list Result;         (* taken by the collector, in arrival order *)
  collectorDone : bool;
  world : World
}.

(** The slice [downloadResults] the collector appends to. *)
Definition downloadResults (p : Pool) : list OperationResult :=
  Result_Result <$> received p.

Definition capacity (config : Config) : nat := Z.to_nat (MaxWorkers config * 2).

(** [NewWorkerPool] followed by [Start], with the jobs main is about
    to add. *)
Definition startPool (config : Config) (js : list Job) (w : World) : Pool :=
  mkPool js [] false (replicate (Z.to_nat (MaxWorkers config)) Idle)
         [] false [] false w.

Definition setWorker (p : Pool) (i : nat) (s : WorkerState) : Pool :=
  mkPool (toSubmit p) (jobs p) (jobsClosed p) (<[i := s]> (workers p))
         (results p) (resultsClosed p) (received p) (collectorDone p) (world p).

Section PoolSteps.
Variable env : Env.
Variable Join : string -> string -> string.
Variable config : Config.

Inductive step : Pool -> Pool -> Prop :=
(* main: [pool.AddJob(job)] *)
| step_addJob p job rest :
    toSubmit p = job :: rest ->
    jobsClosed p = false ->
    (length (jobs p) < capacity config)%nat ->
    step p (mkPool rest (jobs p ++ [job]) (jobsClosed p) (workers p)
              (results p) (resultsClosed p) (received p) (collectorDone p)
              (world p))
(* main: [close(wp.jobs)] in WaitForCompletion *)
| step_closeJobs p :
    toSubmit p = [] ->
    jobsClosed p = false ->
    step p (mkPool [] (jobs p) true (workers p)
              (results p) (resultsClosed p) (received p) (collectorDone p)
              (world p))
(* worker [i]: receive from [wp.jobs] *)
| step_receive p i job rest :
    workers p !! i = Some Idle ->
    jobs p = job :: rest ->
    step p (mkPool (toSubmit p) rest (jobsClosed p) (<[i := Holding job]> (workers p))
              (results p) (resultsClosed p) (received p) (collectorDone p)
              (world p))
(* worker [i]: [downloadSingleFile] *)
| step_download p i job r w' :
    workers p !! i = Some (Holding job) ->
    processJob env Join (DownloadFolder config) job (world p) = (r, w') ->
    step p (mkPool (toSubmit p) (jobs p) (jobsClosed p) (<[i := Sending r]> (workers p))
              (results p) (resultsClosed p) (received p) (collectorDone p)
              w')
(* worker [i]: send on [wp.results] *)
| step_send p i r :
    workers p !! i = Some (Sending r) ->
    (length (results p) < capacity config)%nat ->
    step p (mkPool (toSubmit p) (jobs p) (jobsClosed p) (<[i := Idle]> (workers p))
              (results p ++ [r]) (resultsClosed p) (received p) (collectorDone p)
              (world p))
(* worker [i]: the range loop ends, the channel is closed and drained *)
| step_exit p i :
    workers p !! i = Some Idle ->
    jobs p = [] ->
    jobsClosed p = true ->
    step p (setWorker p i Exited)
(* main: [wp.wg.Wait()] returned, [close(wp.results)] *)
| step_closeResults p :
    jobsClosed p = true ->
    Forall (fun s => s = Exited) (workers p) ->
    resultsClosed p = false ->
    step p (mkPool (toSubmit p) (jobs p) (jobsClosed p) (workers p)
              (results p) true (received p) (collectorDone p) (world p))
(* collector: one iteration of [for result := range pool.results] *)
| step_collect p r rest :
    results p = r :: rest ->
    step p (mkPool (toSubmit p) (jobs p) (jobsClosed p) (workers p)
              rest (resultsClosed p) (received p ++ [r]) (collectorDone p)
              (match Result_Error r with
               | Some err =>
                   record (EvLog (LogDownloadFailed (ObjectName (Result_Job r)) err))
                     (world p)
               | None => world p
               end))
(* collector: the range loop ends *)
| step_collectorDone p :
    results p = [] ->
    resultsClosed p = true ->
    collectorDone p = false ->
    step p (mkPool (toSubmit p) (jobs p) (jobsClosed p) (workers p)
              (results p) (resultsClosed p) (received p) true (world p)).

(** Executions: finite sequences of steps. *)
Inductive steps : Pool -> Pool -> Prop :=
| steps_refl p : steps p p
| steps_step p q r : steps p q -> step q r -> steps p r.

(** Jobs a worker has received and not yet answered on the result
    channel. *)
Definition inFlight (s : WorkerState) : list Job :=
  match s with
  | Holding job => [job]
  | Sending r => [Result_Job r]
  | Idle | Exited => []
  end.

End PoolSteps.

(** ** [writeOperationReport] and [main] *)

Inductive Exit :=
| Fatal (msg : string)      (* [log.Fatalf] *)
| Done.

(** The local type [Report] of [main]. *)
Record Report := mkReport {
  Report_Name : string;
  Report_Size : Z;
  Report_Date : time.Time
}.

Definition withMaxWorkers (config : Config) (n : Z) : Config :=
  mkConfig n (Days config) (DownloadFolder config) (ReportFile config).

Definition operationHeader : list string :=
  ["file_name"; "file_size"; "report_date"; "status"; "downloaded"; "error";
   "last_attempt"].

Definition operationRecord (result : OperationResult) : list string :=
  [FileName result; fmt.Sprintd (FileSize result); ReportDate result;
   Status result; strconv.FormatBool (Downloaded result); Error result;
   time.FormatRFC3339 (LastAttempt result)].

Definition summaryFile : string := "oci_focus_reports.csv".

Definition summaryHeader : list string :=
  ["bucket_name"; "object_name"; "size_bytes"; "report_date"; "tenancy_ocid"].

Definition summaryRecord (bucketName : string) (r : Report) : list string :=
  [bucketName; path.Base (Report_Name r); fmt.Sprintd (Report_Size r);
   time.FormatISO (Report_Date r); bucketName].

(** The [less] function given to [sort.Slice]. *)
Definition laterFirst (a b : Report) : bool :=
  time.After (Report_Date a) (Report_Date b).

(** The jobs [main] adds: one per listed object that has a name. *)
Definition jobsFor (namespace bucketName : string) (objects : list ObjectSummary)
  : list Job :=
  omap (fun obj => (fun name => mkJob name namespace bucketName) <$> Name obj) objects.

Section Main.
Variable env : Env.
Variable Join : string -> string -> string.
(** [sort.Slice] on a slice of reports.  Its result is taken as a
    parameter: Go promises a sorted rearrangement and leaves the
    order of equal elements open. *)
Variable sortSlice : (Report -> Report -> bool) -> list Report -> list Report.

(** Writes that stop at the first error: the loop over [results] of
    [writeOperationReport]. *)
Fixpoint writeRecords (filename : string) (records : list (list string))
  : IO (option string) :=
  match records with
  | [] => mret None
  | rec :: rest =>
      err ← WriteRecord env filename rec;
      match err with
      | Some e => mret (Some e)
      | None => writeRecords filename rest
      end
  end.

(** [defer writer.Flush()] runs on every return after the writer is
    made, whatever is returned; [defer file.Close()] is not
    modelled. *)
Definition writeOperationReport (results : list OperationResult)
    (filename : string) : IO (option string) :=
  err ← Create env filename;
  match err with
  | Some e => mret (Some e)
  | None =>
      err ← WriteRecord env filename operationHeader;
      ret ← match err with
            | Some e => mret (Some e)
            | None => writeRecords filename (operationRecord <$> results)
            end;
      _ ← Flush filename;
      mret ret
  end.

(** Writes whose error is not looked at. *)
Fixpoint writeAll (filename : string) (records : list (list string)) : IO unit :=
  match records with
  | [] => mret tt
  | rec :: rest => _ ← WriteRecord env filename rec; writeAll filename rest
  end.

(** The loop of [main] that builds [reports]. *)
Fixpoint collectReports (namespace bucketName : string)
    (objects : list ObjectSummary) (reports : list Report) : IO (list Report) :=
  match objects with
  | [] => mret reports
  | obj :: rest =>
      match Name obj with
      | None => collectReports namespace bucketName rest reports
      | Some name =>
          size ← getObjectSize env namespace bucketName name;
          size ← match size with
                 | Err err => _ ← Log (LogSizeWarning name err); mret 0
                 | Ok size => mret size
                 end;
          match parseDateFromName name with
          | Err _ => collectReports namespace bucketName rest reports
          | Ok date =>
              collectReports namespace bucketName rest
                (reports ++ [mkReport name size date])
          end
      end
  end.

(** The part of [main] after the downloads: the summary CSV. *)
Definition mainSummary (namespace bucketName : string)
    (objects : list ObjectSummary) : IO Exit :=
  reports ← collectReports namespace bucketName objects [];
  let reports := sortSlice laterFirst reports in
  err ← Create env summaryFile;
  match err with
  | Some e => mret (Fatal ("Error creating CSV file: " ++ e))
  | None =>
      _ ← WriteRecord env summaryFile summaryHeader;
      _ ← writeAll summaryFile (summaryRecord bucketName <$> reports);
      _ ← Flush summaryFile;
      mret Done
  end.

(** What [main] has in hand once the listing is done. *)
Record Listed := mkListed {
  listedConfig : Config;
  listedNamespace : string;
  listedBucketName : string;
  listedObjects : list ObjectSummary
}.

(** The part of [main] up to and including the listing.  [None]: the
    listing loop was still running when the fuel ran out. *)
Definition mainSetup (fuel : nat) (flags : Config)
  : IO (option (result Listed string)) :=
  let config := if MaxWorkers flags <? 1 then withMaxWorkers flags 1 else flags in
  config ← (if MaxWorkers config >? 16
            then _ ← Log LogWorkersLimited; mret (withMaxWorkers config 16)
            else mret config);
  err ← NewClient env;
  match err with
  | Some e => mret (Some (Err ("Error creating Object Storage client: " ++ e)))
  | None =>
      tenancy ← TenancyOCID env;
      match tenancy with
      | Err e => mret (Some (Err ("Failed to read tenancy OCID from config: " ++ e)))
      | Ok tenancyID =>
          let namespace := "bling" in
          let bucketName := tenancyID in
          made ← (if String.eqb (DownloadFolder config) "" then mret None
                  else MkdirAll env (DownloadFolder config));
          match made with
          | Some e =>
              mret (Some (Err ("Failed to create download folder " ++
                               DownloadFolder config ++ ": " ++ e)))
          | None =>
              objects ← listAllFocusReports env fuel namespace bucketName (Days config);
              match objects with
              | None => mret None
              | Some (Err e) =>
                  mret (Some (Err ("Failed to list FOCUS reports: " ++ e)))
              | Some (Ok objects) =>
                  mret (Some (Ok (mkListed config namespace bucketName objects)))
              end
          end
      end
  end.

(** The executions of [main]: the exit and the final world.  The two
    clock readings around the download phase ([startTime] and
    [time.Since]) only feed a progress line and are left out with
    it. *)
Inductive mainExec (fuel : nat) (flags : Config) (w0 : World) : Exit -> World -> Prop :=
| main_fatal_setup msg w1 :
    mainSetup fuel flags w0 = (Some (Err msg), w1) ->
    mainExec fuel flags w0 (Fatal msg) w1
| main_listing_only l w1 exit w2 :
    mainSetup fuel flags w0 = (Some (Ok l), w1) ->
    DownloadFolder (listedConfig l) = "" ->
    mainSummary (listedNamespace l) (listedBucketName l) (listedObjects l) w1
      = (exit, w2) ->
    mainExec fuel flags w0 exit w2
| main_download l w1 p err w2 exit w3 :
    mainSetup fuel flags w0 = (Some (Ok l), w1) ->
    DownloadFolder (listedConfig l) <> "" ->
    steps env Join (listedConfig l)
      (startPool (listedConfig l)
         (jobsFor (listedNamespace l) (listedBucketName l) (listedObjects l)) w1) p ->
    collectorDone p = true ->
    writeOperationReport (downloadResults p) (ReportFile (listedConfig l)) (world p)
      = (err, w2) ->
    (match err with
     | Some e => exit = Fatal ("Failed to write operation report: " ++ e) /\ w3 = w2
     | None =>
         mainSummary (listedNamespace l) (listedBucketName l) (listedObjects l) w2
           = (exit, w3)
     end) ->
    mainExec fuel flags w0 exit w3.

End Main.

(** * Auxiliary definitions for the statements and proofs *)

(** Day of the year of a calendar date, as [time.Date] adds it up; the
    leap flag stands for [isLeap year]. *)
Definition yearDayOf (leap : bool) (m d : Z) : Z :=
  time.daysBefore (m - 1) + (if leap && (3 <=? m) then 1 else 0) + (d - 1).

(** The month and day part of [absDate], for a given leap flag. *)
Definition monthDayOf (leap : bool) (day : Z) : Z * Z :=
  if leap && (day =? 31 + 29 - 1) then (2, 29)
  else
    let day := if leap && (day >? 31 + 29 - 1) then day - 1 else day in
    let month := day / 31 in
    let stop := time.daysBefore (month + 1) in
    let '(month, start) :=
      if day >=? stop then (month + 1, stop) else (month, time.daysBefore month) in
    (month + 1, day - start + 1).

Definition daysInLeap (leap : bool) (month : Z) : Z :=
  if month =? 2 then (if leap then 29 else 28)
  else if (month =? 4) || (month =? 6) || (month =? 9) || (month =? 11) then 30
  else 31.

(** Check, for one month and day, that [monthDayOf] undoes
    [yearDayOf] and that the day of the year is in range. *)
Definition monthDayCheck (leap : bool) (m d : Z) : bool :=
  if d <=? daysInLeap leap m then
    let yd := yearDayOf leap m d in
    let '(m', d') := monthDayOf leap yd in
    (m' =? m) && (d' =? d) && (0 <=? yd) && (yd <? 365 + (if leap then 1 else 0))
  else true.

Definition zrange (lo n : Z) : list Z :=
  map (fun i => lo + Z.of_nat i) (seq 0 (Z.to_nat n)).

(** Decimal integers, stated independently of [strconv.Atoi]: an
    optional sign followed by one or more digits, and the number they
    denote. *)
Fixpoint digitsValue (s : string) (acc : Z) : option Z :=
  match s with
  | EmptyString => Some acc
  | String c rest =>
      match strconv.digitVal c with
      | None => None
      | Some d => digitsValue rest (acc * 10 + d)
      end
  end.

Definition unsignedValue (s : string) : option Z :=
  match s with
  | EmptyString => None
  | _ => digitsValue s 0
  end.

Definition decimalValue (s : string) : option Z :=
  match s with
  | EmptyString => None
  | String c rest =>
      if Ascii.eqb c "-" then Z.opp <$> unsignedValue rest
      else if Ascii.eqb c "+" then unsignedValue rest
      else unsignedValue s
  end.

Definition isInt64 (n : Z) : Prop := - 2 ^ 63 <= n <= 2 ^ 63 - 1.

(** The events a computation added to the history. *)
Definition newEvents (w w' : World) : list Event :=
  drop (length (history w)) (history w').

(** The local file name [downloadSingleFile] computes for an object
    name (the value of [prefixedFilename]). *)
Definition prefixedFilenameOf (name : string) : string :=
  match parseDateFromName name with
  | Ok date => (formatDateForFilename date ++ "_") ++ path.Base name
  | Err _ => "unknown_date_" ++ path.Base name
  end.

(** Events that transfer an object body or write a local file. *)
Definition isTransfer (e : Event) : bool :=
  match e with
  | EvGetObject _ _ _ _ | EvCreate _ _ | EvCopy _ _ _ => true
  | _ => false
  end.

(** A file exists at a path. *)
Definition fileExists (w : World) (filePath : string) : Prop :=
  is_Some (files w !! filePath).

(** The report date [downloadSingleFile] records for an object name. *)
Definition reportDateOf (name : string) : string :=
  match parseDateFromName name with
  | Ok date => time.FormatISO date
  | Err _ => "unknown"
  end.

(** What [getObjectSize] makes of the answer to [HeadObject]. *)
Definition sizeOfHead (objectName : string) (r : result (option Z) string)
  : result Z string :=
  match r with
  | Err err => Err ("failed to get object metadata for " ++ objectName ++ ": " ++ err)
  | Ok None => Err ("content length not available for " ++ objectName)
  | Ok (Some contentLength) => Ok contentLength
  end.

(** The five ways through [downloadSingleFile] after the size and the
    file name are resolved. *)
Inductive Branch :=
| AlreadyExists
| FetchFailed (err : string)
| CreateFailed (content : Stream) (err : string)
| CopyFailed (content : Stream) (err : string)
| Succeeded (content : Stream).

Definition copied (content : Stream) : Z := Z.of_nat (String.length (body content)).

Definition branchEvents (job : Job) (filePath : string) (br : Branch) : list Event :=
  let get := EvGetObject (Namespace job) (BucketName job) (ObjectName job) in
  match br with
  | AlreadyExists => [EvStat filePath true]
  | FetchFailed err => [EvStat filePath false; get (Err err)]
  | CreateFailed content err =>
      [EvStat filePath false; get (Ok content); EvCreate filePath (Some err)]
  | CopyFailed content err =>
      [EvStat filePath false; get (Ok content); EvCreate filePath None;
       EvCopy filePath (copied content) (Some err)]
  | Succeeded content =>
      [EvStat filePath false; get (Ok content); EvCreate filePath None;
       EvCopy filePath (copied content) None;
       EvLog (LogDownloaded (ObjectName job) (copied content) filePath)]
  end.

Definition branchResult (base : OperationResult) (br : Branch)
  : OperationResult * option string :=
  match br with
  | AlreadyExists => (withDownloaded (withStatus base "Already exists") false, None)
  | FetchFailed err | CreateFailed _ err | CopyFailed _ err => failed base err
  | Succeeded content =>
      (withDownloaded (withStatus (withFileSize base (copied content)) "Success") true,
       None)
  end.

Definition branchFiles (filePath : string) (br : Branch)
    (fs : gmap string FileData) : gmap string FileData :=
  match br with
  | AlreadyExists | FetchFailed _ | CreateFailed _ _ => fs
  | CopyFailed content _ | Succeeded content => <[filePath := Bytes (body content)]> fs
  end.

(** What decides the branch: the file check, and the answers of the
    service and of the system to the calls made on the way, each
    asked with the history up to that call ([before] is the history
    up to and including the file check). *)
Definition branchTaken (env : Env) (job : Job) (filePath : string)
    (exists_ : Prop) (before : list Event) (br : Branch) : Prop :=
  let get := env_get env before (Namespace job) (BucketName job) (ObjectName job) in
  let afterGet content :=
    (before ++ [EvGetObject (Namespace job) (BucketName job) (ObjectName job)
                  (Ok content)])%list in
  match br with
  | AlreadyExists => exists_
  | FetchFailed err => ~ exists_ /\ get = Err err
  | CreateFailed content err =>
      ~ exists_ /\ get = Ok content /\
      env_create env (afterGet content) filePath = Some err
  | CopyFailed content err =>
      ~ exists_ /\ get = Ok content /\
      env_create env (afterGet content) filePath = None /\
      failure content = Some err
  | Succeeded content =>
      ~ exists_ /\ get = Ok content /\
      env_create env (afterGet content) filePath = None /\
      failure content = None
  end.

(** The events of the size resolution, given the answer to
    [HeadObject]. *)
Definition sizeEvents (job : Job) (r : result (option Z) string) : list Event :=
  EvHeadObject (Namespace job) (BucketName job) (ObjectName job) r ::
  match sizeOfHead (ObjectName job) r with
  | Err msg => [EvLog (LogSizeWarning (ObjectName job) msg)]
  | Ok _ => []
  end.

Definition sizeOr0 (objectName : string) (r : result (option Z) string) : Z :=
  match sizeOfHead objectName r with
  | Ok size => size
  | Err _ => 0
  end.

(** ** Sample surroundings, to run the program on *)

(** [filepath.Join] for a plain folder and a plain file name. *)
Definition joinSlash (folder name : string) : string := folder ++ "/" ++ name.

Definition report1 : ObjectSummary :=
  mkObjectSummary (Some "a/b/2025/09/25/FOCUS_REPORT1.csv") None.
Definition report2 : ObjectSummary :=
  mkObjectSummary (Some "a/b/2025/09/20/FOCUS_REPORT2.csv") None.
Definition weirdfile : ObjectSummary :=
  mkObjectSummary (Some "weirdfile.csv") None.

(** A bucket with the two reports of the scenario, of 12345 and 500
    bytes, listed in one page; the clock shows [now]; every call
    succeeds. *)
Definition sampleBody (size : Z) : string :=
  string_of_list_ascii (repeat "x"%char (Z.to_nat size)).

Definition scenarioEnv (now : time.Time) : Env :=
  mkEnv (fun _ => now)
        (fun _ => None)
        (fun _ => Ok "ocid1.tenancy.oc1..example")
        (fun _ _ => None)
        (fun _ _ _ _ => Ok (mkListObjects [report1; report2] None))
        (fun _ _ _ obj =>
           if String.eqb obj "a/b/2025/09/25/FOCUS_REPORT1.csv" then Ok (Some 12345)
           else if String.eqb obj "a/b/2025/09/20/FOCUS_REPORT2.csv" then Ok (Some 500)
           else Err "ObjectNotFound")
        (fun _ _ _ obj =>
           if String.eqb obj "a/b/2025/09/25/FOCUS_REPORT1.csv"
           then Ok (mkStream (sampleBody 12345) None)
           else Ok (mkStream (sampleBody 500) None))
        (fun _ _ => None)
        (fun _ _ _ => None).

(** The scenario on 30 September 2025 at 10:15:30 UTC. *)
Definition sampleNow : time.Time := time.Date 2025 9 30 10 15 30 0 time.UTC.
Definition sampleEnv : Env := scenarioEnv sampleNow.

(** The same bucket behind a service whose [GetObject] and
    [HeadObject] fail. *)
Definition offlineEnv : Env :=
  mkEnv (env_now sampleEnv) (env_newClient sampleEnv) (env_tenancy sampleEnv)
        (env_mkdirAll sampleEnv) (env_list sampleEnv)
        (fun _ _ _ _ => Err "timeout")
        (fun _ _ _ _ => Err "connection reset")
        (env_create sampleEnv) (env_writeRecord sampleEnv).

Definition emptyWorld : World := mkWorld ∅ [].

Definition sampleJob : Job :=
  mkJob "a/b/2025/09/25/FOCUS_REPORT1.csv" "bling" "ocid1.tenancy.oc1..example".

Definition sampleConfig : Config := mkConfig 4 7 "downloads" "download_report.csv".

(** Fixed-width decimal fields, written digit by digit. *)
Definition digitChar (n : Z) : ascii := ascii_of_nat (48 + Z.to_nat n).

Definition twoDigits (n : Z) : string :=
  String (digitChar (n / 10)) (String (digitChar (n mod 10)) EmptyString).

Definition fourDigits (n : Z) : string :=
  String (digitChar (n / 1000))
    (String (digitChar (n / 100 mod 10)) (twoDigits (n mod 100))).

(** ** The accounting of jobs in a pool *)

#[global] Instance Job_eq_dec : EqDecision Job.
Proof. solve_decision. Defined.

(** Jobs held by the workers, and results the workers are about to
    send. *)
Definition workerJobs (ws : list WorkerState) : list Job :=
  concat (inFlight <$> ws).

Definition heldResult (s : WorkerState) : list Result :=
  match s with
  | Sending r => [r]
  | _ => []
  end.

Definition heldResults (ws : list WorkerState) : list Result :=
  concat (heldResult <$> ws).

(** Every job the pool knows of, wherever it is: not yet submitted,
    queued, with a worker, or answered by a result that is in the
    result channel or with the collector. *)
Definition accounted (p : Pool) : list Job :=
  toSubmit p ++ jobs p ++ workerJobs (workers p) ++
  (Result_Job <$> results p) ++ (Result_Job <$> received p).

(** Every result produced so far. *)
Definition allResults (p : Pool) : list Result :=
  heldResults (workers p) ++ results p ++ received p.

(** What holds in every state of a pool that was started on the jobs
    [js]. *)
Record PoolInv (js : list Job) (n : nat) (p : Pool) : Prop := mkPoolInv {
  inv_accounted : accounted p ≡ₚ js;
  inv_workers : length (workers p) = n;
  inv_closed : jobsClosed p = true -> toSubmit p = [];
  inv_exited : forall i, workers p !! i = Some Exited ->
                         jobsClosed p = true /\ jobs p = [];
  inv_resultsClosed : resultsClosed p = true ->
                      jobsClosed p = true /\ Forall (fun s => s = Exited) (workers p);
  inv_done : collectorDone p = true -> resultsClosed p = true /\ results p = []
}.

(** A bound on the number of steps a pool can still take: every step
    moves a job one stage on, or closes a channel, or ends a
    goroutine. *)
Definition workerWeight (s : WorkerState) : nat :=
  match s with
  | Idle => 1
  | Holding _ => 4
  | Sending _ => 3
  | Exited => 0
  end.

Definition flagWeight (b : bool) : nat := if b then 0 else 1.

Definition stepsLeft (p : Pool) : nat :=
  (5 * length (toSubmit p) + 4 * length (jobs p) +
   sum_list_with workerWeight (workers p) + length (results p) +
   flagWeight (jobsClosed p) + flagWeight (resultsClosed p) +
   flagWeight (collectorDone p))%nat.

(** The three values of [Status]. *)
Definition isStatus (s : string) : Prop :=
  s = "Already exists" \/ s = "Failed" \/ s = "Success".

(** The local path of a job's file. *)
Definition targetPath (Join : string -> string -> string) (folder : string)
    (job : Job) : string :=
  Join folder (prefixedFilenameOf (ObjectName job)).

(** An event that fetches the body of the given object or writes the
    given file. *)
Definition transfersFor (objectName filePath : string) (e : Event) : Prop :=
  match e with
  | EvGetObject _ _ obj _ => obj = objectName
  | EvCreate p _ | EvCopy p _ _ => p = filePath
  | _ => False
  end.

(** ** The lister, in the words of its contract *)

(** An object is selected when it has a name, the name contains the
    marker, a date can be extracted from the name and that date is
    strictly after the cutoff. *)
Definition selected (cutoff : time.Time) (obj : ObjectSummary) : bool :=
  match Name obj with
  | None => false
  | Some name =>
      strings.Contains name "FOCUS" &&
      match parseDateFromName name with
      | Ok date => time.After date cutoff
      | Err _ => false
      end
  end.

(** The warning for an object that carries the marker and has no
    date. *)
Definition skipWarning (obj : ObjectSummary) : option Event :=
  match Name obj with
  | None => None
  | Some name =>
      if strings.Contains name "FOCUS" && negb (is_ok (parseDateFromName name))
      then Some (EvLog (LogSkipInvalidDate name))
      else None
  end.

(** The answers to [ListObjects] among some events, in order. *)
Definition listResponses (evs : list Event)
  : list (result ListObjectsResponse string) :=
  omap (fun e => match e with EvListObjects _ _ _ r => Some r | _ => None end) evs.

(** The log lines among some events, in order. *)
Definition logLines (evs : list Event) : list Event :=
  List.filter (fun e => match e with EvLog _ => true | _ => false end) evs.

(** The page carries a continuation token. *)
Definition hasNext (page : ListObjectsResponse) : bool :=
  match NextStartWith page with
  | Some token => negb (String.eqb token "")
  | None => false
  end.

Definition pageObjects (pages : list ListObjectsResponse) : list ObjectSummary :=
  concat (Objects <$> pages).

(** What the paging loop has done, by its outcome. *)
Definition listingOutcome (fuel : nat) (cutoff : time.Time)
    (acc : list ObjectSummary)
    (r : option (result (list ObjectSummary) string)) (evs : list Event) : Prop :=
  exists pages,
    logLines evs = omap skipWarning (pageObjects pages) /\
    match r with
    | Some (Ok objs) =>
        listResponses evs = Ok <$> pages /\
        objs = (acc ++ List.filter (selected cutoff) (pageObjects pages))%list /\
        (length pages <= fuel)%nat /\
        exists front final, pages = (front ++ [final])%list /\
                            forallb hasNext front = true /\ hasNext final = false
    | Some (Err msg) =>
        exists e, listResponses evs = ((Ok <$> pages) ++ [Err e])%list /\
                  msg = "error listing objects: " ++ e /\
                  forallb hasNext pages = true
    | None =>
        listResponses evs = Ok <$> pages /\ length pages = fuel /\
        forallb hasNext pages = true
    end.

(** Seconds since midnight of a clock reading. *)
Definition clockSeconds (h mi s : Z) : Z := h * 3600 + mi * 60 + s.

(** Check, for one day of the year, that [monthDayOf] gives a month
    and a day of the calendar. *)
Definition monthDayRangeCheck (leap : bool) (yd : Z) : bool :=
  let '(m, d) := monthDayOf leap yd in
  (1 <=? m) && (m <=? 12) && (1 <=? d) && (d <=? daysInLeap leap m).

(** ** The contract of [sort.Slice] *)

(** The [less] functions [sort.Slice] is meant for. *)
Definition strictWeakOrder {A} (less : A -> A -> bool) : Prop :=
  (forall a, less a a = false) /\
  (forall a b c, less a b = true -> less b c = true -> less a c = true) /\
  (forall a b c, less a b = false -> less b c = false -> less a c = false).

(** [a] may stand before [b]: [b] is not less than [a]. *)
Definition inOrder {A} (less : A -> A -> bool) (a b : A) : Prop := less b a = false.

#[global] Instance inOrder_dec {A} (less : A -> A -> bool) a b :
  Decision (inOrder less a b).
Proof. unfold inOrder. apply _. Defined.

(** What Go promises of [sort.Slice]: the slice is rearranged, and
    afterwards no element is less than one before it.  The order of
    equal elements is left open. *)
Definition sortsSlices
    (sortSlice : (Report -> Report -> bool) -> list Report -> list Report) : Prop :=
  forall less l,
    strictWeakOrder less ->
    sortSlice less l ≡ₚ l /\
    StronglySorted (inOrder less) (sortSlice less l).

(** One sort that keeps the promise. *)
Definition mergeSortSlice (less : Report -> Report -> bool) (l : list Report)
  : list Report :=
  merge_sort (inOrder less) l.

(** ** The summary, in the words of its contract *)

(** The row of an object, given the answer to [HeadObject]; none
    when the name has no date. *)
Definition datedReport (name : string) (head : result (option Z) string)
  : option Report :=
  match parseDateFromName name with
  | Ok date => Some (mkReport name (sizeOr0 name head) date)
  | Err _ => None
  end.

Definition datedReports (named : list (string * result (option Z) string))
  : list Report :=
  omap (fun nh => datedReport (fst nh) (snd nh)) named.

Definition headEvents (namespace bucketName : string)
    (named : list (string * result (option Z) string)) : list Event :=
  concat ((fun nh => sizeEvents (mkJob (fst nh) namespace bucketName) (snd nh))
          <$> named).

(** The records passed to [csv.Writer.Write] among some events, with
    the file they went to. *)
Definition recordsWritten (evs : list Event) : list (string * list string) :=
  omap (fun e => match e with
                 | EvWriteRecord p rec _ => Some (p, rec)
                 | _ => None
                 end) evs.

(** The messages [main] can end with through [log.Fatalf]. *)
Definition fatalMessage (msg : string) : Prop :=
  (exists e, msg = "Error creating Object Storage client: " ++ e) \/
  (exists e, msg = "Failed to read tenancy OCID from config: " ++ e) \/
  (exists folder e, msg = "Failed to create download folder " ++ folder ++ ": " ++ e) \/
  (exists e, msg = "Failed to list FOCUS reports: " ++ "error listing objects: " ++ e) \/
  (exists e, msg = "Failed to write operation report: " ++ e) \/
  (exists e, msg = "Error creating CSV file: " ++ e).

(** Plain settings for a run that lists and summarises only. *)
Definition listingOnly : Config := mkConfig 4 7 "" "download_report.csv".

(** A service whose [HeadObject] fails and whose [GetObject] answers. *)
Definition headlessEnv : Env :=
  mkEnv (env_now sampleEnv) (env_newClient sampleEnv) (env_tenancy sampleEnv)
        (env_mkdirAll sampleEnv) (env_list sampleEnv)
        (fun _ _ _ _ => Err "timeout")
        (env_get sampleEnv)
        (env_create sampleEnv) (env_writeRecord sampleEnv).

(** Strings that begin with a sign or a decimal digit. *)
Definition numeric (c : ascii) : bool :=
  Ascii.eqb c "-" || bool_decide (is_Some (strconv.digitVal c)).

Definition startsNumeric (s : string) : bool :=
  match s with
  | String c _ => numeric c
  | EmptyString => false
  end.

(** What [main] has listed with the sample service and settings. *)
Definition sampleListed : Listed :=
  mkListed sampleConfig "bling" "ocid1.tenancy.oc1..example" [report1].

(** * Further properties: definitions *)

(** The jobs of a pool in the order of their progress: answered and
    collected first, then answered and waiting in the result channel,
    then with the workers, then queued, then not yet submitted. *)
Definition pipeline (p : Pool) : list Job :=
  (Result_Job <$> received p) ++ (Result_Job <$> results p) ++
  workerJobs (workers p) ++ jobs p ++ toSubmit p.

(** One worker, and two jobs for it. *)
Definition oneWorker : Config := mkConfig 1 7 "downloads" "download_report.csv".

Definition sampleJob2 : Job :=
  mkJob "a/b/2025/09/20/FOCUS_REPORT2.csv" "bling" "ocid1.tenancy.oc1..example".

(** A service whose object bodies break off after 100 bytes. *)
Definition brokenEnv : Env :=
  mkEnv (env_now sampleEnv) (env_newClient sampleEnv) (env_tenancy sampleEnv)
        (env_mkdirAll sampleEnv) (env_list sampleEnv) (env_head sampleEnv)
        (fun _ _ _ _ => Ok (mkStream (sampleBody 100) (Some "unexpected EOF")))
        (env_create sampleEnv) (env_writeRecord sampleEnv).

(** A world in which the file of the sample job is already there,
    with some other content. *)
Definition downloadedWorld : World :=
  mkWorld {["downloads/20250925_FOCUS_REPORT1.csv" := Bytes "old"]} [].

(** A [csv.Writer.Write] that returned no error. *)
Definition written (filePath : string) (rec : list string) : Event :=
  EvWriteRecord filePath rec None.

(** A system on which no file can be created. *)
Definition readOnlyEnv : Env :=
  mkEnv (env_now sampleEnv) (env_newClient sampleEnv) (env_tenancy sampleEnv)
        (env_mkdirAll sampleEnv) (env_list sampleEnv) (env_head sampleEnv)
        (env_get sampleEnv)
        (fun _ _ => Some "read-only file system")
        (env_writeRecord sampleEnv).

Definition sampleResult : OperationResult :=
  mkOperationResult "20250925_FOCUS_REPORT1.csv" 12345 "2025-09-25" "Success" true ""
    sampleNow.

(** ** The lister, as a function of the answers of the service *)

(** The answers [ListObjects] gives to the paging loop that starts
    with the history [h] and the token [start]: each request is made
    with the history up to it, the loop goes on while a page carries
    a token, and stops at an error or when the fuel is used up. *)
Fixpoint answersOf (env : Env) (fuel : nat) (ns bucket : string)
    (start : option string) (h : list Event)
  : list (result ListObjectsResponse string) :=
  match fuel with
  | O => []
  | S fuel' =>
      let r := env_list env h ns bucket start in
      match r with
      | Err e => [Err e]
      | Ok page =>
          Ok page ::
          (if hasNext page
           then answersOf env fuel' ns bucket (NextStartWith page)
                  (h ++ EvListObjects ns bucket start r ::
                        omap skipWarning (Objects page))%list
           else [])
      end
  end.

(** The events of a paging loop that received these answers: each
    request carries the token of the page before it. *)
Fixpoint listingTrace (ns bucket : string) (start : option string)
    (answers : list (result ListObjectsResponse string)) : list Event :=
  match answers with
  | [] => []
  | Ok page :: rest =>
      EvListObjects ns bucket start (Ok page) ::
      (omap skipWarning (Objects page) ++
       listingTrace ns bucket (NextStartWith page) rest)%list
  | Err e :: rest =>
      EvListObjects ns bucket start (Err e) :: listingTrace ns bucket start rest
  end.

(** What the paging loop returns after these answers. *)
Fixpoint listingResult (cutoff : time.Time) (acc : list ObjectSummary)
    (answers : list (result ListObjectsResponse string))
  : option (result (list ObjectSummary) string) :=
  match answers with
  | [] => None
  | Err e :: _ => Some (Err ("error listing objects: " ++ e))
  | Ok page :: rest =>
      let acc' := (acc ++ List.filter (selected cutoff) (Objects page))%list in
      if hasNext page then listingResult cutoff acc' rest else Some (Ok acc')
  end.

(** Every answer but the last is a page with a token that is not
    empty. *)
Fixpoint wellPaged (answers : list (result ListObjectsResponse string)) : bool :=
  match answers with
  | [] => true
  | Ok page :: rest =>
      match rest with
      | [] => true
      | _ => hasNext page && wellPaged rest
      end
  | Err _ :: rest =>
      match rest with
      | [] => true
      | _ => false
      end
  end.

(** Check, for one day of the year, that [yearDayOf] undoes
    [monthDayOf]. *)
Definition yearDayCheck (leap : bool) (yd : Z) : bool :=
  let '(m, d) := monthDayOf leap yd in yearDayOf leap m d =? yd.

(** ** The setup of [main], step by step *)

(** The two corrections of the worker count, as [main] makes them. *)
Definition clampWorkers (flags : Config) : Config :=
  let config := if MaxWorkers flags <? 1 then withMaxWorkers flags 1 else flags in
  if MaxWorkers config >? 16 then withMaxWorkers config 16 else config.

Definition limitWarning (flags : Config) : list Event :=
  if MaxWorkers flags >? 16 then [EvLog LogWorkersLimited] else [].

(** What the setup makes of the outcome of the listing. *)
Definition listedOf (config : Config) (tenancy : string)
    (r : option (result (list ObjectSummary) string))
  : option (result Listed string) :=
  match r with
  | None => None
  | Some (Err e) => Some (Err ("Failed to list FOCUS reports: " ++ e))
  | Some (Ok objects) => Some (Ok (mkListed config "bling" tenancy objects))
  end.

(** The events of the setup before the listing, when nothing fails. *)
Definition setupEvents (flags : Config) (tenancy : string) : list Event :=
  (limitWarning flags ++
   [EvNewClient None; EvTenancyOCID (Ok tenancy)] ++
   (if String.eqb (DownloadFolder flags) "" then []
    else [EvMkdirAll (DownloadFolder flags) None]))%list.

(** The ways the setup can go. *)
Inductive SetupOutcome (env : Env) (fuel : nat) (flags : Config) (w0 : World)
  : option (result Listed string) -> World -> Prop :=
| setup_noClient e w1 :
    history w1 = (history w0 ++ limitWarning flags ++ [EvNewClient (Some e)])%list ->
    files w1 = files w0 ->
    SetupOutcome env fuel flags w0
      (Some (Err ("Error creating Object Storage client: " ++ e))) w1
| setup_noTenancy e w1 :
    history w1 = (history w0 ++ limitWarning flags ++
                  [EvNewClient None; EvTenancyOCID (Err e)])%list ->
    files w1 = files w0 ->
    SetupOutcome env fuel flags w0
      (Some (Err ("Failed to read tenancy OCID from config: " ++ e))) w1
| setup_noFolder tenancy e w1 :
    DownloadFolder flags <> "" ->
    history w1 = (history w0 ++ limitWarning flags ++
                  [EvNewClient None; EvTenancyOCID (Ok tenancy);
                   EvMkdirAll (DownloadFolder flags) (Some e)])%list ->
    files w1 = files w0 ->
    SetupOutcome env fuel flags w0
      (Some (Err ("Failed to create download folder " ++ DownloadFolder flags ++
                  ": " ++ e))) w1
| setup_listed tenancy :
    let wl := mkWorld (files w0) (history w0 ++ setupEvents flags tenancy) in
    SetupOutcome env fuel flags w0
      (listedOf (clampWorkers flags) tenancy
         (fst (listAllFocusReports env fuel "bling" tenancy (Days flags) wl)))
      (snd (listAllFocusReports env fuel "bling" tenancy (Days flags) wl)).

(** The interactions the setup of [main] can have. *)
Definition isSetupEvent (e : Event) : bool :=
  match e with
  | EvNewClient _ | EvTenancyOCID _ | EvMkdirAll _ _ | EvNow _
  | EvListObjects _ _ _ _ | EvLog (LogSkipInvalidDate _) => true
  | _ => false
  end.

(** The interactions of the summary phase with the local files. *)
Definition isSummaryWrite (e : Event) : bool :=
  match e with
  | EvCreate p _ | EvWriteRecord p _ _ => String.eqb p summaryFile
  | EvHeadObject _ _ _ _ | EvLog (LogSizeWarning _ _) => true
  | _ => false
  end.

(** The object names of the [HeadObject] requests among some events,
    in order. *)
Definition headRequests (evs : list Event) : list string :=
  omap (fun e => match e with EvHeadObject _ _ obj _ => Some obj | _ => None end) evs.

(** Forty workers requested, no download folder. *)
Definition greedyFlags : Config := mkConfig 40 7 "" "download_report.csv".

(** A machine without credentials: the client cannot be created. *)
Definition noCredentialsEnv : Env :=
  mkEnv (env_now sampleEnv) (fun _ => Some "did not find a proper configuration")
        (env_tenancy sampleEnv) (env_mkdirAll sampleEnv) (env_list sampleEnv)
        (env_head sampleEnv) (env_get sampleEnv) (env_create sampleEnv)
        (env_writeRecord sampleEnv).

(** What a run without download folder may do: no directory is made,
    nothing is fetched, checked or copied, and only the summary file
    is created and written. *)
Definition isListingOnlyEvent (e : Event) : bool :=
  match e with
  | EvMkdirAll _ _ | EvGetObject _ _ _ _ | EvStat _ _ | EvCopy _ _ _ => false
  | EvCreate p _ | EvWriteRecord p _ _ => String.eqb p summaryFile
  | _ => true
  end.

(** ** Object names built from a date *)

(** No byte of the string is a slash. *)
Definition noSlash (s : string) : bool :=
  forallb (fun c => negb (Ascii.eqb c "/")) (list_ascii_of_string s).

(** The name [dir/YYYY/MM/DD/file]. *)
Definition datedName (dir : string) (y m d : Z) (file : string) : string :=
  dir ++ "/" ++ fourDigits y ++ "/" ++ twoDigits m ++ "/" ++ twoDigits d ++ "/" ++ file.

(** Checks on the decimal fields, for one number. *)
Definition fourDigitsCheck (y : Z) : bool :=
  noSlash (fourDigits y) &&
  match strconv.Atoi (fourDigits y) with
  | Ok n => n =? y
  | Err _ => false
  end.

Definition twoDigitsCheck (n : Z) : bool :=
  noSlash (twoDigits n) &&
  match strconv.Atoi (twoDigits n) with
  | Ok k => k =? n
  | Err _ => false
  end.

(** ** Readings and lookbacks within range; a report of a far year *)

(** A reading of the clock of a machine whose local zone is UTC, in
    a plain year, with its nanoseconds within the second. *)
Definition utcReading (now : time.Time) : Prop :=
  time.loc now = time.UTC /\ time.plainYear (time.Year now) /\
  0 <= time.nsec now < 1000000000.

(** A lookback of at most a billion days, either way. *)
Definition plainDays (days : Z) : Prop := -1000000000 <= days <= 1000000000.

(** A bucket whose one report is filed under the year 12345, behind
    the sample service. *)
Definition farReport : ObjectSummary :=
  mkObjectSummary (Some "x/12345/01/02/FOCUS.csv") None.

Definition farEnv : Env :=
  mkEnv (env_now sampleEnv) (env_newClient sampleEnv) (env_tenancy sampleEnv)
        (env_mkdirAll sampleEnv)
        (fun _ _ _ _ => Ok (mkListObjects [farReport] None))
        (env_head sampleEnv) (env_get sampleEnv)
        (env_create sampleEnv) (env_writeRecord sampleEnv).

Definition farJob : Job :=
  mkJob "x/12345/01/02/FOCUS.csv" "bling" "ocid1.tenancy.oc1..example".

Definition farListed : Listed :=
  mkListed sampleConfig "bling" "ocid1.tenancy.oc1..example" [farReport].

(** The same with the year 5 before year 0. *)
Definition earlyJob : Job :=
  mkJob "x/-5/01/02/FOCUS.csv" "bling" "ocid1.tenancy.oc1..example".
(** * Properties *)

(** ** Sanity checks of the library models *)

Example Split_ex :
  strings.Split "a/b/2025/09/25/FOCUS_REPORT1.csv" "/"
  = ["a"; "b"; "2025"; "09"; "25"; "FOCUS_REPORT1.csv"].
Proof. reflexivity. Qed.

Example Split_trailing : strings.Split "a//b/" "/" = ["a"; ""; "b"; ""].
Proof. reflexivity. Qed.

Example Atoi_ex :
  strconv.Atoi "09" = Ok 9 /\ strconv.Atoi "-12" = Ok (-12) /\
  strconv.Atoi "+7" = Ok 7 /\ strconv.Atoi "" = Err strconv.ErrSyntax /\
  strconv.Atoi "-" = Err strconv.ErrSyntax /\
  strconv.Atoi "1_0" = Err strconv.ErrSyntax /\
  strconv.Atoi "9223372036854775807" = Ok 9223372036854775807 /\
  strconv.Atoi "9223372036854775808" = Err strconv.ErrRange /\
  strconv.Atoi "-9223372036854775808" = Ok (-9223372036854775808) /\
  strconv.Atoi "99999999999999999999" = Err strconv.ErrRange.
Proof. repeat split; reflexivity. Qed.

Example Base_ex :
  path.Base "a/b/2025/09/25/FOCUS_REPORT1.csv" = "FOCUS_REPORT1.csv" /\
  path.Base "weirdfile.csv" = "weirdfile.csv" /\
  path.Base "a/b/" = "b" /\ path.Base "///" = "/" /\ path.Base "" = ".".
Proof. repeat split; reflexivity. Qed.

Example Date_ex :
  time.dateOf (time.Date 2025 9 25 0 0 0 0 time.UTC) = (2025, 9, 25) /\
  time.unixSec (time.Date 1970 1 1 0 0 0 0 time.UTC) = 0 /\
  time.unixSec (time.Date 2025 9 30 0 0 0 0 time.UTC) = 1759190400 /\
  time.dateOf (time.Date 2025 2 30 0 0 0 0 time.UTC) = (2025, 3, 2) /\
  time.dateOf (time.Date 2024 2 29 0 0 0 0 time.UTC) = (2024, 2, 29) /\
  time.dateOf (time.Date 2024 12 31 0 0 0 0 time.UTC) = (2024, 12, 31) /\
  time.dateOf (time.Date 2025 13 0 0 0 0 0 time.UTC) = (2025, 12, 31) /\
  time.dateOf (time.Date 2025 0 1 0 0 0 0 time.UTC) = (2024, 12, 1).
Proof. repeat split; vm_compute; reflexivity. Qed.

Example parse_ex :
  (time.dateOf <$> (match parseDateFromName "a/b/2025/09/25/FOCUS_REPORT1.csv" with
                    | Ok t => Some t | Err _ => None end)) = Some (2025, 9, 25) /\
  parseDateFromName "weirdfile.csv" = Err (InvalidFormat "weirdfile.csv") /\
  parseDateFromName "a/20x5/09/25/f" = Err (NotANumber "20x5" strconv.ErrSyntax).
Proof. repeat split; vm_compute; reflexivity. Qed.

Example format_ex :
  formatDateForFilename (time.Date 2025 9 25 0 0 0 0 time.UTC) = "20250925" /\
  time.FormatISO (time.Date 2025 9 25 0 0 0 0 time.UTC) = "2025-09-25" /\
  time.FormatISO (time.Date 12345 1 2 0 0 0 0 time.UTC) = "12345-01-02" /\
  time.FormatISO (time.Date (-5) 1 2 0 0 0 0 time.UTC) = "-0005-01-02" /\
  fmt.Sprintd 12345 = "12345" /\ fmt.Sprintd 0 = "0" /\ fmt.Sprintd (-42) = "-42".
Proof. repeat split; vm_compute; reflexivity. Qed.

(** ** Calendar arithmetic of package [time] *)

Ltac lia_div := Z.to_euclidean_division_equations; lia.

Lemma rem_zero_iff_mod y k :
  0 < k -> (Z.rem y k =? 0) = (y mod k =? 0).
Proof.
  intros Hk.
  destruct (Z.eqb_spec (Z.rem y k) 0), (Z.eqb_spec (y mod k) 0);
    try reflexivity; exfalso; Z.to_euclidean_division_equations; nia.
Qed.

Lemma isLeap_leapYear y : time.isLeap y = time.leapYear y.
Proof.
  unfold time.isLeap, time.leapYear.
  rewrite !rem_zero_iff_mod by lia. reflexivity.
Qed.

Lemma norm_in_range hi lo base :
  0 <= lo < base -> time.norm hi lo base = (hi, lo).
Proof.
  intros H. unfold time.norm.
  destruct (Z.ltb_spec lo 0); [lia|].
  destruct (Z.geb_spec lo base); [lia|]. reflexivity.
Qed.

(** [norm] is division with remainder, also for negative [lo]. *)
Lemma norm_div_mod hi lo base :
  0 < base -> time.norm hi lo base = (hi + lo / base, lo mod base).
Proof.
  intros Hb. unfold time.norm.
  destruct (Z.ltb_spec lo 0) as [Hneg|Hpos].
  - rewrite Z.quot_div_nonneg by lia.
    set (q := (- lo - 1) / base).
    assert (Hq : base * q <= - lo - 1 < base * q + base).
    { pose proof (Z.mul_div_le (- lo - 1) base Hb).
      pose proof (Z.mul_succ_div_gt (- lo - 1) base Hb). fold q in H, H0. lia. }
    destruct (Z.geb_spec (lo + (q + 1) * base) base); [nia|].
    assert (Hdiv : lo / base = - (q + 1)).
    { symmetry. apply Z.div_unique with (r := lo + (q + 1) * base); [nia|lia]. }
    assert (Hmod : lo mod base = lo + (q + 1) * base).
    { symmetry. apply Z.mod_unique with (q := - (q + 1)); [nia|lia]. }
    rewrite Hdiv, Hmod. f_equal; lia.
  - destruct (Z.geb_spec lo base) as [Hge|Hlt].
    + rewrite Z.quot_div_nonneg by lia.
      f_equal. rewrite Z.mod_eq by lia. lia.
    + rewrite Z.div_small, Z.mod_small by lia. f_equal; lia.
Qed.

(** The year loop of [absDate] inverts [daysSinceEpoch]. *)
Lemma absYearDay_daysSinceEpoch y yd s :
  time.absoluteZeroYear <= y ->
  0 <= yd < 365 + (if time.leapYear y then 1 else 0) ->
  0 <= s < time.secondsPerDay ->
  time.absYearDay ((time.daysSinceEpoch y + yd) * time.secondsPerDay + s) = (y, yd).
Proof.
  intros Hy Hyd Hs.
  unfold time.absYearDay.
  assert (Hday : ((time.daysSinceEpoch y + yd) * time.secondsPerDay + s)
                 / time.secondsPerDay = time.daysSinceEpoch y + yd).
  { unfold time.secondsPerDay in *. lia_div. }
  rewrite Hday. clear Hday s Hs.
  unfold time.daysSinceEpoch, time.leapYear in *.
  set (Y := y - time.absoluteZeroYear).
  assert (HY : 0 <= Y) by (unfold Y; lia).
  set (a := Y / 400). set (r := Y - 400 * a).
  set (b := r / 100). set (r2 := r - 100 * b).
  set (c := r2 / 4). set (e := r2 - 4 * c).
  assert (Ha : 0 <= r < 400) by (unfold r, a; lia_div).
  assert (Hb : 0 <= r2 < 100 /\ 0 <= b <= 3) by (unfold r2, b; lia_div).
  assert (Hc : 0 <= e < 4 /\ 0 <= c <= 24) by (unfold e, c; lia_div).
  assert (Hmod4 : y mod 4 = (e + 1) mod 4).
  { replace y with ((e + 1) + (100 * a + 25 * b + c - 73069255600) * 4)
      by (unfold e, r2, r, Y, time.absoluteZeroYear; lia).
    apply Z.mod_add. lia. }
  assert (Hmod100 : y mod 100 = (r2 + 1) mod 100).
  { replace y with ((r2 + 1) + (4 * a + b - 2922770224) * 100)
      by (unfold r2, r, Y, time.absoluteZeroYear; lia).
    apply Z.mod_add. lia. }
  assert (Hmod400 : y mod 400 = (r + 1) mod 400).
  { replace y with ((r + 1) + (a - 730692556) * 400)
      by (unfold r, Y, time.absoluteZeroYear; lia).
    apply Z.mod_add. lia. }
  rewrite Hmod4, Hmod100, Hmod400 in Hyd.
  unfold time.daysPer400Years, time.daysPer100Years, time.daysPer4Years.
  change (365 * 400 + 97) with 146097.
  change (365 * 100 + 24) with 36524.
  change (365 * 4 + 1) with 1461.
  assert (Hlast : yd < 365 \/ (yd = 365 /\ e = 3 /\ (c <> 24 \/ b = 3))).
  { destruct (Z.eqb_spec ((e + 1) mod 4) 0) as [E4|E4]; simpl in Hyd; [|lia].
    assert (e = 3) by lia_div.
    destruct (Z.eqb_spec ((r2 + 1) mod 100) 0) as [E100|E100]; simpl in Hyd.
    - destruct (Z.eqb_spec ((r + 1) mod 400) 0) as [E400|E400]; simpl in Hyd; [|lia].
      assert (b = 3) by (unfold r2 in *; lia_div). lia.
    - assert (c <> 24) by (intro; apply E100; replace r2 with 99 by lia; reflexivity).
      lia. }
  set (D := 146097 * a + 36524 * b + 1461 * c + 365 * e + yd).
  assert (HD1 : D / 146097 = a) by (unfold D; lia_div).
  rewrite HD1.
  set (D1 := D - 146097 * a).
  assert (HD1v : D1 = 36524 * b + 1461 * c + 365 * e + yd) by (unfold D1, D; lia).
  rewrite !Z.shiftr_div_pow2 by lia. change (2 ^ 2) with 4.
  assert (Hn1 : D1 / 36524 - D1 / 36524 / 4 = b) by (rewrite HD1v; lia_div).
  rewrite Hn1.
  set (D2 := D1 - 36524 * b).
  assert (HD2v : D2 = 1461 * c + 365 * e + yd) by (unfold D2; lia).
  assert (Hn2 : D2 / 1461 = c) by (rewrite HD2v; lia_div).
  rewrite Hn2.
  set (D3 := D2 - 1461 * c).
  assert (HD3v : D3 = 365 * e + yd) by (unfold D3; lia).
  assert (Hn3 : D3 / 365 - D3 / 365 / 4 = e) by (rewrite HD3v; lia_div).
  rewrite Hn3.
  f_equal; unfold e, r2, r, Y in *; lia.
Qed.

Lemma forallb_zrange (P : Z -> bool) lo n z :
  forallb P (zrange lo n) = true -> lo <= z < lo + n -> P z = true.
Proof.
  intros Hall Hz. rewrite forallb_forall in Hall. apply Hall.
  unfold zrange. apply in_map_iff. exists (Z.to_nat (z - lo)). split; [lia|].
  apply in_seq. lia.
Qed.

(** All 12 x 31 x 2 month/day/leap combinations, by computation. *)
Lemma monthDayCheck_all leap m d :
  1 <= m <= 12 -> 1 <= d <= 31 -> monthDayCheck leap m d = true.
Proof.
  intros Hm Hd.
  assert (Hall : forallb (fun m => forallb (monthDayCheck leap m) (zrange 1 31))
                   (zrange 1 12) = true)
    by (destruct leap; vm_compute; reflexivity).
  apply (forallb_zrange _ 1 31); [|lia].
  apply (forallb_zrange (fun m => forallb (monthDayCheck leap m) (zrange 1 31)) 1 12);
    [exact Hall|lia].
Qed.

Lemma daysInLeap_le_31 leap m : daysInLeap leap m <= 31.
Proof.
  unfold daysInLeap.
  destruct (m =? 2); [destruct leap; lia|].
  destruct ((m =? 4) || (m =? 6) || (m =? 9) || (m =? 11)); lia.
Qed.

Lemma daysIn_daysInLeap y m : time.daysIn y m = daysInLeap (time.leapYear y) m.
Proof. reflexivity. Qed.

Lemma monthDayOf_yearDayOf leap m d :
  1 <= m <= 12 -> 1 <= d <= daysInLeap leap m ->
  monthDayOf leap (yearDayOf leap m d) = (m, d) /\
  0 <= yearDayOf leap m d < 365 + (if leap then 1 else 0).
Proof.
  intros Hm Hd. pose proof (daysInLeap_le_31 leap m).
  pose proof (monthDayCheck_all leap m d Hm ltac:(lia)) as Hc.
  unfold monthDayCheck in Hc.
  destruct (Z.leb_spec d (daysInLeap leap m)); [|lia].
  destruct (monthDayOf leap (yearDayOf leap m d)) as [m' d'].
  apply andb_prop in Hc as [Hc H4]. apply andb_prop in Hc as [Hc H3].
  apply andb_prop in Hc as [H1 H2].
  apply Z.eqb_eq in H1, H2. apply Z.leb_le in H3. apply Z.ltb_lt in H4.
  subst. split; [reflexivity|lia].
Qed.

Lemma absDate_monthDayOf a :
  time.absDate a =
  (fst (time.absYearDay a),
   fst (monthDayOf (time.isLeap (fst (time.absYearDay a))) (snd (time.absYearDay a))),
   snd (monthDayOf (time.isLeap (fst (time.absYearDay a))) (snd (time.absYearDay a)))).
Proof.
  unfold time.absDate, monthDayOf.
  destruct (time.absYearDay a) as [year day]. cbn [fst snd].
  destruct (time.isLeap year && (day =? 31 + 29 - 1)); [reflexivity|].
  match goal with |- context [if ?c then (_, _) else (_, _)] => destruct c end;
    reflexivity.
Qed.

(** The month and day part of [absDate] inverts the day of the year. *)
Lemma absDate_yearDay y m d s :
  time.absoluteZeroYear <= y ->
  time.validDate y m d ->
  0 <= s < time.secondsPerDay ->
  time.absDate ((time.daysSinceEpoch y + yearDayOf (time.isLeap y) m d)
                * time.secondsPerDay + s)
  = (y, m, d).
Proof.
  intros Hy [Hm Hd] Hs. rewrite daysIn_daysInLeap, <- isLeap_leapYear in Hd.
  destruct (monthDayOf_yearDayOf (time.isLeap y) m d Hm Hd) as [Hmd Hyd].
  rewrite absDate_monthDayOf, absYearDay_daysSinceEpoch; auto.
  - cbn [fst snd]. rewrite Hmd. reflexivity.
  - rewrite <- isLeap_leapYear. exact Hyd.
Qed.

(** [time.Date] of fields that need no normalising. *)
Lemma Date_in_range y m d h mi s ns l :
  1 <= m <= 12 -> 0 <= h < 24 -> 0 <= mi < 60 -> 0 <= s < 60 ->
  0 <= ns < 1000000000 ->
  time.Date y m d h mi s ns l
  = time.mkTime
      ((time.daysSinceEpoch y + yearDayOf (time.isLeap y) m d) * time.secondsPerDay
       + clockSeconds h mi s + (time.absoluteToInternal + time.internalToUnix)
       - time.zoneOffset l) ns l.
Proof.
  intros Hm Hh Hmi Hs Hns. unfold time.Date.
  rewrite (norm_in_range y (m - 1) 12) by lia.
  rewrite (norm_in_range s ns) by lia.
  rewrite (norm_in_range mi s) by lia.
  rewrite (norm_in_range h mi) by lia.
  rewrite (norm_in_range d h) by lia.
  replace (m - 1 + 1) with m by lia.
  f_equal. unfold yearDayOf, clockSeconds.
  destruct (time.isLeap y && (3 <=? m)); lia.
Qed.

(** [time.Date] of a calendar date is that date at midnight: the
    fields read back are the ones given. *)
Lemma Date_calendar y m d :
  time.absoluteZeroYear <= y ->
  time.validDate y m d ->
  time.dateOf (time.Date y m d 0 0 0 0 time.UTC) = (y, m, d).
Proof.
  intros Hy Hv. pose proof Hv as [Hm Hd].
  unfold time.Date, time.dateOf.
  rewrite (norm_in_range y (m - 1) 12) by lia.
  rewrite !(norm_in_range 0 0) by lia.
  rewrite (norm_in_range d 0 24) by lia.
  unfold time.abs. cbn [time.unixSec time.loc time.zoneOffset time.UTC].
  replace (m - 1 + 1) with m by lia.
  match goal with
  | |- time.absDate ?e = _ =>
      replace e with ((time.daysSinceEpoch y + yearDayOf (time.isLeap y) m d)
                      * time.secondsPerDay + 0)
  end.
  - apply absDate_yearDay; auto. unfold time.secondsPerDay; lia.
  - unfold yearDayOf, time.internalToUnix, time.internalToAbsolute.
    change time.unixToInternal with 62135596800.
    unfold time.absoluteToInternal, time.secondsPerDay.
    destruct (time.isLeap y && (3 <=? m)); lia.
Qed.

(** The count of days of a year since the absolute epoch. *)
Lemma daysSinceEpoch_bounds y :
  time.absoluteZeroYear <= y ->
  365 * (y - time.absoluteZeroYear) <= time.daysSinceEpoch y
  <= 366 * (y - time.absoluteZeroYear).
Proof.
  intros Hy. unfold time.daysSinceEpoch, time.daysPer400Years, time.daysPer100Years,
    time.daysPer4Years.
  cbv zeta. set (Y := y - time.absoluteZeroYear). assert (0 <= Y) by (unfold Y; lia).
  clearbody Y. lia_div.
Qed.

(** For a calendar date of a plain year the seconds [time.Date]
    computes fit their 64-bit words: nothing wraps around. *)
Lemma Date_fits64 y m d :
  time.plainYear y -> time.validDate y m d ->
  time.fits64 (time.Date y m d 0 0 0 0 time.UTC).
Proof.
  intros Hy [Hm Hd]. rewrite Date_in_range by lia.
  rewrite daysIn_daysInLeap, <- isLeap_leapYear in Hd.
  destruct (monthDayOf_yearDayOf (time.isLeap y) m d Hm Hd) as [_ Hyd].
  assert (Hyd' : 0 <= yearDayOf (time.isLeap y) m d < 366)
    by (destruct (time.isLeap y); lia).
  clear Hyd. unfold time.plainYear in Hy.
  destruct (daysSinceEpoch_bounds y) as [Hlo Hhi];
    [unfold time.absoluteZeroYear; lia|].
  unfold time.fits64, time.abs.
  cbn [time.unixSec time.loc time.zoneOffset time.UTC].
  unfold clockSeconds, time.secondsPerDay, time.absoluteToInternal, time.internalToUnix,
    time.internalToAbsolute, time.unixToInternal, time.absoluteToInternal,
    time.secondsPerDay, time.absoluteZeroYear in *.
  change (1969 / 4) with 492. change (1969 / 100) with 19. change (1969 / 400) with 4.
  change (2 ^ 63) with 9223372036854775808. change (2 ^ 64) with 18446744073709551616.
  lia.
Qed.

(** ** [strconv.Atoi] accepts exactly the decimal integers of the
       signed 64-bit range *)

Lemma digitVal_range c d : strconv.digitVal c = Some d -> 0 <= d <= 9.
Proof.
  unfold strconv.digitVal. intros H.
  destruct (Z.leb_spec 48 (Z.of_nat (nat_of_ascii c)));
    destruct (Z.leb_spec (Z.of_nat (nat_of_ascii c)) 57);
    cbn [andb] in H; inversion H; lia.
Qed.

Lemma digitsValue_ge s : forall acc n,
  0 <= acc -> digitsValue s acc = Some n -> acc <= n.
Proof.
  induction s as [|c rest IH]; intros acc n Hacc H; cbn [digitsValue] in H.
  - inversion H; lia.
  - destruct (strconv.digitVal c) as [d|] eqn:Hd; [|discriminate].
    apply digitVal_range in Hd. apply IH in H; lia.
Qed.

Lemma maxUint64_value : strconv.maxUint64 = 18446744073709551615.
Proof. reflexivity. Qed.

Lemma parseDigits_Ok s : forall acc n,
  0 <= acc ->
  strconv.parseDigits s acc = Ok n <->
  digitsValue s acc = Some n /\ (n <= strconv.maxUint64 \/ s = EmptyString).
Proof.
  induction s as [|c rest IH]; intros acc n Hacc;
    cbn [strconv.parseDigits digitsValue].
  - split; [intros H; inversion H; auto | intros [H _]; inversion H; auto].
  - destruct (strconv.digitVal c) as [d|] eqn:Hd.
    2:{ split; [discriminate | intros [H _]; discriminate]. }
    pose proof (digitVal_range _ _ Hd) as Hr.
    rewrite maxUint64_value.
    change (18446744073709551615 / 10 + 1) with 1844674407370955162.
    destruct (Z.geb_spec acc 1844674407370955162) as [Hge|Hlt].
    { split; [discriminate|]. intros [H [Hn|Hn]]; [|discriminate].
      apply digitsValue_ge in H; lia. }
    destruct (Z.gtb_spec (acc * 10 + d) 18446744073709551615) as [Hgt|Hle].
    { split; [discriminate|]. intros [H [Hn|Hn]]; [|discriminate].
      apply digitsValue_ge in H; lia. }
    rewrite IH by lia. rewrite maxUint64_value.
    split.
    + intros [H [Hn|Hn]]; split; auto. subst rest. inversion H. lia.
    + intros [H [Hn|Hn]]; [|discriminate]. auto.
Qed.

Lemma ParseUint_Ok s n :
  strconv.ParseUint s = Ok n <->
  unsignedValue s = Some n /\ n <= strconv.maxUint64.
Proof.
  destruct s as [|c rest]; cbn [strconv.ParseUint unsignedValue].
  - split; [discriminate | intros [H _]; discriminate].
  - rewrite parseDigits_Ok by lia.
    split; intros [H Hn]; split; auto. destruct Hn as [Hn|Hn]; [auto|discriminate].
Qed.

Lemma unsignedValue_nonneg s n : unsignedValue s = Some n -> 0 <= n.
Proof.
  destruct s; cbn [unsignedValue]; [discriminate|].
  intros H. apply digitsValue_ge in H; lia.
Qed.

(** Signs are not digits. *)
Lemma unsignedValue_sign c rest :
  (Ascii.eqb c "-" || Ascii.eqb c "+") = true -> unsignedValue (String c rest) = None.
Proof.
  intros H. cbn [unsignedValue digitsValue].
  destruct (Ascii.eqb_spec c "-") as [->|]; [reflexivity|].
  destruct (Ascii.eqb_spec c "+") as [->|]; [reflexivity|discriminate].
Qed.

Lemma signed_Ok (neg : bool) body n :
  match strconv.ParseUint body with
  | Err e => Err e
  | Ok un =>
      if negb neg && (un >=? 2 ^ 63) then Err strconv.ErrRange
      else if neg && (un >? 2 ^ 63) then Err strconv.ErrRange
      else Ok (if neg then - un else un)
  end = Ok n <->
  (if neg then Z.opp <$> unsignedValue body else unsignedValue body) = Some n /\
  isInt64 n.
Proof.
  unfold isInt64.
  destruct (strconv.ParseUint body) as [un|e] eqn:HP.
  - apply ParseUint_Ok in HP as [Hv Hmax]. rewrite Hv.
    pose proof (unsignedValue_nonneg _ _ Hv).
    destruct neg; cbn [negb andb fmap option_fmap option_map].
    + destruct (Z.gtb_spec un (2 ^ 63)).
      * split; [discriminate|]. intros [H1 H2]. inversion H1. lia.
      * split; intros H1; [inversion H1; split; [reflexivity|lia]|].
        destruct H1 as [H1 _]. inversion H1. reflexivity.
    + destruct (Z.geb_spec un (2 ^ 63)).
      * split; [discriminate|]. intros [H1 H2]. inversion H1. lia.
      * split; intros H1; [inversion H1; subst; split; [reflexivity|lia]|].
        destruct H1 as [H1 _]. inversion H1. reflexivity.
  - split; [discriminate|]. intros [H1 H2].
    destruct (unsignedValue body) as [v|] eqn:Hv; [|destruct neg; discriminate].
    pose proof (unsignedValue_nonneg _ _ Hv).
    assert (strconv.ParseUint body = Ok v) as HP'.
    { apply ParseUint_Ok. split; [exact Hv|]. rewrite maxUint64_value.
      destruct neg; cbn in H1; inversion H1; lia. }
    congruence.
Qed.

Lemma Atoi_Ok s n :
  strconv.Atoi s = Ok n <-> decimalValue s = Some n /\ isInt64 n.
Proof.
  destruct s as [|c rest]; cbn [strconv.Atoi decimalValue].
  { split; [discriminate | intros [H _]; discriminate]. }
  destruct (Ascii.eqb_spec c "-") as [->|Hminus].
  - rewrite Bool.orb_true_r. apply (signed_Ok true).
  - destruct (Ascii.eqb_spec c "+") as [->|Hplus]; cbn [orb];
      apply (signed_Ok false).
Qed.

(** A segment that is not a decimal integer makes [Atoi] fail. *)
Lemma Atoi_not_integer s :
  decimalValue s = None -> is_ok (strconv.Atoi s) = false.
Proof.
  intros H. destruct (strconv.Atoi s) as [n|e] eqn:HA; [|reflexivity].
  apply Atoi_Ok in HA as [HA _]. congruence.
Qed.

(** * The claims *)

(** ** C2: the date extractor *)

Lemma parseDateFromName_short name :
  (length (strings.Split name "/") < 4)%nat ->
  parseDateFromName name = Err (InvalidFormat name).
Proof.
  intros H. unfold parseDateFromName.
  destruct (Nat.ltb_spec (length (strings.Split name "/")) 4); [reflexivity|lia].
Qed.

Lemma parseDateFromName_Ok name t :
  parseDateFromName name = Ok t <->
  (4 <= length (strings.Split name "/"))%nat /\
  exists y m d,
    strconv.Atoi (fromEnd (strings.Split name "/") 4) = Ok y /\
    strconv.Atoi (fromEnd (strings.Split name "/") 3) = Ok m /\
    strconv.Atoi (fromEnd (strings.Split name "/") 2) = Ok d /\
    t = time.Date y m d 0 0 0 0 time.UTC.
Proof.
  unfold parseDateFromName.
  destruct (Nat.ltb_spec (length (strings.Split name "/")) 4) as [Hlt|Hge].
  { split; [discriminate | intros [H _]; lia]. }
  destruct (strconv.Atoi (fromEnd _ 4)) as [y|e1].
  2:{ split; [discriminate | intros (_ & y & m & d & H & _); discriminate]. }
  destruct (strconv.Atoi (fromEnd _ 3)) as [m|e2].
  2:{ split; [discriminate | intros (_ & y' & m & d & _ & H & _); discriminate]. }
  destruct (strconv.Atoi (fromEnd _ 2)) as [d|e3].
  2:{ split; [discriminate | intros (_ & y' & m' & d & _ & _ & H & _); discriminate]. }
  split.
  - intros H. inversion H. split; [assumption|]. exists y, m, d. auto.
  - intros (_ & y' & m' & d' & H1 & H2 & H3 & ->). congruence.
Qed.

(** C2, as amended.  A name with fewer than four slash-separated
    segments is rejected.  With four or more segments, if the
    4th-, 3rd- and 2nd-from-last segments are decimal integers of the
    signed 64-bit range, the extractor returns
    [time.Date(year, month, day)] at midnight UTC; that is exactly
    the calendar date year-month-day whenever the month is 1..12, the
    day exists in that month and the year is within a billion years
    of year 0, where the 64-bit seconds of [time.Date] do not wrap
    around (other months and days are normalised by [time.Date], and
    for years near the ends of the [int] range its arithmetic
    wraps).  If one of the three segments is not such an integer the
    extractor fails.  The extractor is a function of the name. *)
Theorem parseDateFromName_spec (name : string) :
  let parts := strings.Split name "/" in
  ((length parts < 4)%nat -> parseDateFromName name = Err (InvalidFormat name)) /\
  ((4 <= length parts)%nat ->
   (forall y m d,
      decimalValue (fromEnd parts 4) = Some y -> isInt64 y ->
      decimalValue (fromEnd parts 3) = Some m -> isInt64 m ->
      decimalValue (fromEnd parts 2) = Some d -> isInt64 d ->
      parseDateFromName name = Ok (time.Date y m d 0 0 0 0 time.UTC) /\
      (time.plainYear y -> time.validDate y m d ->
       time.fits64 (time.Date y m d 0 0 0 0 time.UTC) /\
       time.dateOf (time.Date y m d 0 0 0 0 time.UTC) = (y, m, d))) /\
   ((forall y, decimalValue (fromEnd parts 4) = Some y -> ~ isInt64 y) \/
    (forall m, decimalValue (fromEnd parts 3) = Some m -> ~ isInt64 m) \/
    (forall d, decimalValue (fromEnd parts 2) = Some d -> ~ isInt64 d) ->
    is_ok (parseDateFromName name) = false)).
Proof.
  intros parts. split; [apply parseDateFromName_short|].
  intros Hlen. split.
  - intros y m d Hy Hy' Hm Hm' Hd Hd'. split.
    + apply parseDateFromName_Ok. split; [assumption|].
      exists y, m, d. rewrite !Atoi_Ok. auto.
    + intros Hplain Hv. split; [apply Date_fits64; assumption|].
      apply Date_calendar; [|exact Hv].
      unfold time.plainYear in Hplain. unfold time.absoluteZeroYear. lia.
  - intros Hbad.
    destruct (parseDateFromName name) as [t|e] eqn:Hp; [|reflexivity].
    apply parseDateFromName_Ok in Hp as (_ & y & m & d & H1 & H2 & H3 & _).
    apply Atoi_Ok in H1 as [H1 H1'], H2 as [H2 H2'], H3 as [H3 H3'].
    fold parts in H1, H2, H3.
    destruct Hbad as [Hb|[Hb|Hb]]; exfalso;
      [exact (Hb _ H1 H1') | exact (Hb _ H2 H2') | exact (Hb _ H3 H3')].
Qed.

Lemma parseDateFromName_spec_witness :
  parseDateFromName "a/b/2025/09/25/FOCUS_REPORT1.csv"
    = Ok (time.Date 2025 9 25 0 0 0 0 time.UTC) /\
  time.dateOf (time.Date 2025 9 25 0 0 0 0 time.UTC) = (2025, 9, 25) /\
  parseDateFromName "weirdfile.csv" = Err (InvalidFormat "weirdfile.csv") /\
  is_ok (parseDateFromName "a/20x5/09/25/f.csv") = false.
Proof.
  pose proof (parseDateFromName_spec "a/b/2025/09/25/FOCUS_REPORT1.csv") as [_ H].
  destruct (H ltac:(cbn; lia)) as [H1 _].
  destruct (H1 2025 9 25) as [Hp Hd];
    try reflexivity; try (unfold isInt64; lia).
  split; [exact Hp|]. split.
  { refine (proj2 (Hd _ _)); [unfold time.plainYear; lia|].
    split; [lia|]. vm_compute. split; discriminate. }
  split.
  { apply (parseDateFromName_spec "weirdfile.csv"). cbn. lia. }
  pose proof (parseDateFromName_spec "a/20x5/09/25/f.csv") as [_ H'].
  destruct (H' ltac:(cbn; lia)) as [_ H2].
  apply H2. left. intros y Hy. vm_compute in Hy. discriminate.
Defined.

(** C2, as stated, fails: the name [a/2025/02/30/x.csv] has four
    segments with the integers 2025, 02 and 30 in the three positions;
    the extractor succeeds, and the date it returns is 2 March 2025,
    not a date with month 2 and day 30. *)
Lemma parseDateFromName_normalises :
  let name := "a/2025/02/30/x.csv" in
  let parts := strings.Split name "/" in
  (4 <= length parts)%nat /\
  decimalValue (fromEnd parts 4) = Some 2025 /\
  decimalValue (fromEnd parts 3) = Some 2 /\
  decimalValue (fromEnd parts 2) = Some 30 /\
  exists t, parseDateFromName name = Ok t /\
            time.dateOf t = (2025, 3, 2) /\
            time.dateOf t <> (2025, 2, 30).
Proof.
  cbv zeta. split; [cbn; lia|].
  split; [reflexivity|]. split; [reflexivity|]. split; [reflexivity|].
  exists (time.Date 2025 2 30 0 0 0 0 time.UTC).
  split; [reflexivity|].
  split; [vm_compute; reflexivity | vm_compute; discriminate].
Qed.

(** ** The per-job download, branch by branch *)

Local Open Scope list_scope.

Ltac norm_world :=
  unfold record, store, withDownloaded, withStatus, withFileName, withReportDate,
    withFileSize, withError, failed, branchResult, branchFiles, branchEvents, copied,
    withDownloaded, withStatus, withFileName, withReportDate, withFileSize, withError;
  cbn [files history FileName FileSize ReportDate Status Downloaded Error LastAttempt
       fst snd];
  rewrite <- ?app_assoc; cbn [app].

Lemma newEvents_app w w' evs :
  history w' = history w ++ evs -> newEvents w w' = evs.
Proof. intros H. unfold newEvents. rewrite H. apply drop_app_length. Qed.

(** Every run of [downloadSingleFile] takes the clock, resolves the
    size, checks the file and then follows exactly one of the five
    branches; the result, the events and the files are those of the
    branch. *)
Lemma downloadSingleFile_branches env Join job folder w :
  let now := env_now env (history w) in
  let head := env_head env (history w ++ [EvNow now])
                (Namespace job) (BucketName job) (ObjectName job) in
  let prefixedFilename := prefixedFilenameOf (ObjectName job) in
  let filePath := Join folder prefixedFilename in
  let base := mkOperationResult prefixedFilename (sizeOr0 (ObjectName job) head)
                (reportDateOf (ObjectName job)) "" false "" now in
  exists br,
    downloadSingleFile env Join job folder w
    = (branchResult base br,
       mkWorld (branchFiles filePath br (files w))
         (history w ++ EvNow now :: sizeEvents job head ++ branchEvents job filePath br)) /\
    branchTaken env job filePath (fileExists w filePath)
      (history w ++ EvNow now :: sizeEvents job head ++ [EvStat filePath false]) br.
Proof.
  intros now head prefixedFilename filePath base.
  unfold downloadSingleFile, getObjectSize, Now, HeadObject, Stat, GetObject,
    Create, Copy, Log, mbind, mret, IO_bind, IO_ret.
  cbn beta iota. fold now.
  change (history (record (EvNow now) w)) with (history w ++ [EvNow now]).
  fold head.
  unfold base, sizeOr0, sizeEvents, filePath, prefixedFilename, prefixedFilenameOf,
    reportDateOf, fileExists in *.
  destruct head as [[size|]|herr] eqn:Hhead; cbn [sizeOfHead];
    destruct (parseDateFromName (ObjectName job)) as [date|perr];
    match goal with
    | |- context [bool_decide ?P] => destruct (bool_decide_reflect P) as [Hex|Hex]
    end;
    try (exists AlreadyExists; norm_world; split; [reflexivity|exact Hex]);
    norm_world;
    match goal with
    | |- context [env_get ?e ?h ?a ?b ?c] =>
        destruct (env_get e h a b c) as [content|gerr] eqn:Hget
    end;
    try (exists (FetchFailed gerr); norm_world; split; [reflexivity|];
         unfold branchTaken; cbn [app]; auto);
    norm_world;
    match goal with
    | |- context [env_create ?e ?h ?p] =>
        destruct (env_create e h p) as [cerr|] eqn:Hcreate
    end;
    try (exists (CreateFailed content cerr); norm_world; split; [reflexivity|];
         unfold branchTaken; cbn [app]; rewrite <- ?app_assoc; cbn [app]; auto);
    destruct (failure content) as [ferr|] eqn:Hfail;
    match goal with
    | H : failure ?c = Some ?e |- _ => exists (CopyFailed c e)
    | H : failure ?c = None |- _ => exists (Succeeded c)
    end;
    norm_world; rewrite ?insert_insert_eq; (split; [reflexivity|]);
    unfold branchTaken; cbn [app]; rewrite <- ?app_assoc; cbn [app]; auto.
Qed.

Lemma branchTaken_exists env job filePath (ex : Prop) before br :
  branchTaken env job filePath ex before br -> (br = AlreadyExists <-> ex).
Proof.
  destruct br; cbn; intros H; split; intros H'; try discriminate; tauto.
Qed.

Lemma sizeEvents_not_transfer job head e :
  In e (sizeEvents job head) -> isTransfer e = false.
Proof.
  unfold sizeEvents. intros [<-|H]; [reflexivity|].
  destruct (sizeOfHead (ObjectName job) head); cbn in H; [tauto|].
  destruct H as [<-|[]]. reflexivity.
Qed.

Lemma transfer_in_branch now job head filePath br e :
  In e (EvNow now :: sizeEvents job head ++ branchEvents job filePath br) ->
  isTransfer e = true ->
  In e (branchEvents job filePath br).
Proof.
  intros [<-|H] Ht; [discriminate|].
  apply in_app_or in H as [H|H]; [|assumption].
  apply sizeEvents_not_transfer in H. congruence.
Qed.

(** The outcome of a download, named after its parts. *)
Lemma downloadSingleFile_outcome env Join job folder w :
  exists br,
    let now := env_now env (history w) in
    let head := env_head env (history w ++ [EvNow now])
                  (Namespace job) (BucketName job) (ObjectName job) in
    let filePath := Join folder (prefixedFilenameOf (ObjectName job)) in
    let base := mkOperationResult (prefixedFilenameOf (ObjectName job))
                  (sizeOr0 (ObjectName job) head)
                  (reportDateOf (ObjectName job)) "" false "" now in
    fst (downloadSingleFile env Join job folder w) = branchResult base br /\
    files (snd (downloadSingleFile env Join job folder w))
      = branchFiles filePath br (files w) /\
    newEvents w (snd (downloadSingleFile env Join job folder w))
      = EvNow now :: sizeEvents job head ++ branchEvents job filePath br /\
    (br = AlreadyExists <-> fileExists w filePath) /\
    branchTaken env job filePath (fileExists w filePath)
      (history w ++ EvNow now :: sizeEvents job head ++ [EvStat filePath false]) br.
Proof.
  destruct (downloadSingleFile_branches env Join job folder w) as (br & Heq & Hbr).
  exists br. cbv zeta. rewrite Heq. cbn [fst snd files].
  split; [reflexivity|]. split; [reflexivity|].
  split; [apply newEvents_app; reflexivity|].
  split; [eapply branchTaken_exists; exact Hbr|exact Hbr].
Qed.

Lemma processJob_eq env Join folder job w :
  processJob env Join folder job w
  = (mkResult job (fst (fst (downloadSingleFile env Join job folder w)))
       (snd (fst (downloadSingleFile env Join job folder w))),
     snd (downloadSingleFile env Join job folder w)).
Proof.
  unfold processJob, mbind, mret, IO_bind, IO_ret.
  destruct (downloadSingleFile env Join job folder w) as [[r e] w']. reflexivity.
Qed.

Ltac in_events H :=
  repeat (destruct H as [H|H]; [try discriminate H; try (inversion H; subst)|]);
  try contradiction.

(** ** C5: failures are captured per job, success records the bytes
       copied *)

(** C5.  Whatever the job and the state of the world: if the run of
    [downloadSingleFile] contains a failed [GetObject], a failed
    [os.Create] or a failed [io.Copy], the result has status [Failed]
    and carries the message of that error, and the error is returned
    with it; if the fetch, the creation and the copy all succeed, the
    result has status [Success], [Downloaded = true] and the number of
    bytes copied as its size, whatever the metadata said, and the
    local file holds those bytes.  In every case the worker that holds
    the job has a step that puts exactly this result in its send
    position and leaves the queue, the other workers and the results
    of other jobs as they are. *)
Theorem download_failure_captured env Join job folder w :
  let out := downloadSingleFile env Join job folder w in
  let result := fst (fst out) in
  let err := snd (fst out) in
  let evs := newEvents w (snd out) in
  let isFailed (e : string) :=
    Status result = "Failed" /\ Error result = e /\ err = Some e /\
    Downloaded result = false in
  (forall ns b o e, In (EvGetObject ns b o (Err e)) evs -> isFailed e) /\
  (forall p e, In (EvCreate p (Some e)) evs -> isFailed e) /\
  (forall p n e, In (EvCopy p n (Some e)) evs -> isFailed e) /\
  (forall ns b o content p p' n,
     In (EvGetObject ns b o (Ok content)) evs ->
     In (EvCreate p None) evs ->
     In (EvCopy p' n None) evs ->
     Status result = "Success" /\ Downloaded result = true /\
     FileSize result = n /\ n = Z.of_nat (String.length (body content)) /\
     err = None /\ Error result = "" /\
     files (snd out) !! p = Some (Bytes (body content))) /\
  (forall config p i,
     DownloadFolder config = folder -> world p = w ->
     workers p !! i = Some (Holding job) ->
     step env Join config p
       (mkPool (toSubmit p) (jobs p) (jobsClosed p)
          (<[i := Sending (mkResult job result err)]> (workers p))
          (results p) (resultsClosed p) (received p) (collectorDone p) (snd out))).
Proof.
  intros out result err evs isFailed.
  destruct (downloadSingleFile_outcome env Join job folder w)
    as (br & Hres & Hfiles & Hevs & Hex & Htaken).
  cbv zeta in Hres, Hfiles, Hevs. fold out in Hres, Hfiles, Hevs.
  fold evs in Hevs.
  assert (Hr : result = fst (branchResult
     (mkOperationResult (prefixedFilenameOf (ObjectName job))
        (sizeOr0 (ObjectName job)
           (env_head env (history w ++ [EvNow (env_now env (history w))])
              (Namespace job) (BucketName job) (ObjectName job)))
        (reportDateOf (ObjectName job)) "" false "" (env_now env (history w))) br)).
  { unfold result. rewrite Hres. reflexivity. }
  assert (He : err = snd (branchResult
     (mkOperationResult (prefixedFilenameOf (ObjectName job))
        (sizeOr0 (ObjectName job)
           (env_head env (history w ++ [EvNow (env_now env (history w))])
              (Namespace job) (BucketName job) (ObjectName job)))
        (reportDateOf (ObjectName job)) "" false "" (env_now env (history w))) br)).
  { unfold err. rewrite Hres. reflexivity. }
  assert (Hstep :
    processJob env Join folder job w
    = (mkResult job
         (fst (branchResult
            (mkOperationResult (prefixedFilenameOf (ObjectName job))
               (sizeOr0 (ObjectName job)
                  (env_head env (history w ++ [EvNow (env_now env (history w))])
                     (Namespace job) (BucketName job) (ObjectName job)))
               (reportDateOf (ObjectName job)) "" false "" (env_now env (history w)))
            br))
         (snd (branchResult
            (mkOperationResult (prefixedFilenameOf (ObjectName job))
               (sizeOr0 (ObjectName job)
                  (env_head env (history w ++ [EvNow (env_now env (history w))])
                     (Namespace job) (BucketName job) (ObjectName job)))
               (reportDateOf (ObjectName job)) "" false "" (env_now env (history w)))
            br)),
       snd out)).
  { rewrite processJob_eq, <- Hres. reflexivity. }
  clearbody result err evs out. subst isFailed. cbv beta.
  rewrite Hevs. clear Hevs evs.
  repeat split; intros.
  1-12: match goal with
        | H : In _ _ |- _ =>
            apply transfer_in_branch in H; [|reflexivity];
            destruct br; cbn in H; in_events H; subst; reflexivity
        end.
  1-7: repeat match goal with
        | H : In _ (_ :: _ ++ _) |- _ =>
            apply transfer_in_branch in H; [|reflexivity]
        end;
      destruct br;
      repeat match goal with
        | H : In _ (branchEvents _ _ _) |- _ => cbn in H; in_events H
        end; subst; try reflexivity.
  - rewrite Hfiles. cbn. apply lookup_insert_eq.
  - subst folder w. apply step_download with (job := job); [assumption|].
    rewrite Hr, He. apply Hstep.
Qed.

Example download_sample :
  let out := downloadSingleFile sampleEnv joinSlash sampleJob "downloads" emptyWorld in
  FileName (fst (fst out)) = "20250925_FOCUS_REPORT1.csv" /\
  ReportDate (fst (fst out)) = "2025-09-25" /\
  Status (fst (fst out)) = "Success" /\
  Downloaded (fst (fst out)) = true /\
  FileSize (fst (fst out)) = 12345 /\
  snd (fst out) = None.
Proof. vm_compute. repeat split; reflexivity. Qed.

Lemma download_failure_captured_witness :
  (let out := downloadSingleFile offlineEnv joinSlash sampleJob "downloads" emptyWorld in
   Status (fst (fst out)) = "Failed" /\
   Error (fst (fst out)) = "connection reset" /\
   snd (fst out) = Some "connection reset" /\
   Downloaded (fst (fst out)) = false) /\
  (let out := downloadSingleFile sampleEnv joinSlash sampleJob "downloads" emptyWorld in
   Status (fst (fst out)) = "Success" /\
   Downloaded (fst (fst out)) = true /\
   FileSize (fst (fst out)) = 12345).
Proof.
  split.
  - destruct (download_failure_captured offlineEnv joinSlash sampleJob "downloads"
                emptyWorld) as [H _].
    apply (H "bling" "ocid1.tenancy.oc1..example" "a/b/2025/09/25/FOCUS_REPORT1.csv").
    vm_compute. auto 10.
  - destruct (download_failure_captured sampleEnv joinSlash sampleJob "downloads"
                emptyWorld) as (_ & _ & _ & H & _).
    destruct (H "bling" "ocid1.tenancy.oc1..example" "a/b/2025/09/25/FOCUS_REPORT1.csv"
                (mkStream (sampleBody 12345) None)
                "downloads/20250925_FOCUS_REPORT1.csv"
                "downloads/20250925_FOCUS_REPORT1.csv" 12345)
      as (H1 & H2 & H3 & _).
    + vm_compute. auto 10.
    + vm_compute. auto 10.
    + vm_compute. auto 10.
    + auto.
Defined.

(** ** C7: the local file name *)

Lemma appendInt_fourDigits y :
  0 <= y <= 9999 -> time.appendInt y 4 = fourDigits y.
Proof.
  intros Hy.
  assert (Hall : forallb (fun y => String.eqb (time.appendInt y 4) (fourDigits y))
                   (zrange 0 10000) = true) by (vm_compute; reflexivity).
  apply String.eqb_eq.
  apply (forallb_zrange _ 0 10000 y Hall). lia.
Qed.

Lemma appendInt_twoDigits n :
  0 <= n <= 99 -> time.appendInt n 2 = twoDigits n.
Proof.
  intros Hn.
  assert (Hall : forallb (fun n => String.eqb (time.appendInt n 2) (twoDigits n))
                   (zrange 0 100) = true) by (vm_compute; reflexivity).
  apply String.eqb_eq.
  apply (forallb_zrange _ 0 100 n Hall). lia.
Qed.

Lemma validDate_day_le_31 y m d : time.validDate y m d -> 1 <= d <= 31.
Proof.
  intros [Hm Hd]. rewrite daysIn_daysInLeap in Hd.
  pose proof (daysInLeap_le_31 (time.leapYear y) m). lia.
Qed.

(** The prefix of a calendar date of the years 0..9999 is [YYYYMMDD]. *)
Lemma formatDateForFilename_YYYYMMDD y m d :
  0 <= y <= 9999 -> time.validDate y m d ->
  formatDateForFilename (time.Date y m d 0 0 0 0 time.UTC)
  = (fourDigits y +:+ twoDigits m +:+ twoDigits d)%string.
Proof.
  intros Hy Hv. unfold formatDateForFilename, time.FormatCompact.
  rewrite Date_calendar by (auto; unfold time.absoluteZeroYear; lia).
  pose proof (validDate_day_le_31 _ _ _ Hv). destruct Hv as [Hm _].
  rewrite appendInt_fourDigits, !appendInt_twoDigits by lia. reflexivity.
Qed.

(** ** Every instant has a calendar date *)

Lemma absYearDay_range a :
  0 <= snd (time.absYearDay a)
    < 365 + (if time.leapYear (fst (time.absYearDay a)) then 1 else 0).
Proof.
  unfold time.absYearDay. cbn [fst snd].
  unfold time.secondsPerDay, time.daysPer400Years, time.daysPer100Years,
    time.daysPer4Years.
  change (365 * 400 + 97) with 146097.
  change (365 * 100 + 24) with 36524.
  change (365 * 4 + 1) with 1461.
  rewrite !Z.shiftr_div_pow2 by lia. change (2 ^ 2) with 4.
  set (d0 := a / 86400).
  set (n1 := d0 / 146097). set (d1 := d0 - 146097 * n1).
  assert (H1 : 0 <= d1 < 146097) by (unfold d1, n1; lia_div).
  set (n2 := d1 / 36524). set (n2' := n2 - n2 / 4). set (d2 := d1 - 36524 * n2').
  assert (H2 : 0 <= n2' <= 3 /\ 0 <= d2 <= 36524 /\ (d2 = 36524 -> n2' = 3))
    by (unfold d2, n2', n2; lia_div).
  set (n3 := d2 / 1461). set (d3 := d2 - 1461 * n3).
  assert (H3 : 0 <= n3 <= 24 /\ 0 <= d3 < 1461 /\ (n3 = 24 -> d3 = 1460 -> d2 = 36524))
    by (unfold d3, n3; lia_div).
  set (n4 := d3 / 365). set (n4' := n4 - n4 / 4). set (d4 := d3 - 365 * n4').
  assert (H4 : 0 <= n4' <= 3 /\ 0 <= d4 <= 365 /\ (d4 = 365 -> n4' = 3 /\ d3 = 1460))
    by (unfold d4, n4', n4; lia_div).
  set (Y := 400 * n1 + 100 * n2' + 4 * n3 + n4').
  destruct (time.leapYear (Y + time.absoluteZeroYear)) eqn:Hleap; [lia|].
  enough (d4 <> 365) by lia. intros Hd4.
  destruct H4 as (_ & _ & H4). destruct (H4 Hd4) as [Hn4 Hd3].
  assert (Hcase : n3 <> 24 \/ n2' = 3) by lia.
  unfold time.leapYear in Hleap.
  assert (Hm4 : (Y + time.absoluteZeroYear) mod 4 = 0).
  { replace (Y + time.absoluteZeroYear)
      with (0 + (100 * n1 + 25 * n2' + n3 + 1 - 73069255600) * 4)
      by (unfold Y, time.absoluteZeroYear; lia).
    rewrite Z.mod_add by lia. reflexivity. }
  rewrite Hm4 in Hleap. cbn [Z.eqb andb] in Hleap.
  destruct Hcase as [Hn3|Hn2].
  - assert (Hm100 : (Y + time.absoluteZeroYear) mod 100 <> 0).
    { replace (Y + time.absoluteZeroYear)
        with ((4 * n3 + 4) + (4 * n1 + n2' - 2922770224) * 100)
        by (unfold Y, time.absoluteZeroYear; lia).
      rewrite Z.mod_add by lia. rewrite Z.mod_small by lia. lia. }
    destruct (Z.eqb_spec ((Y + time.absoluteZeroYear) mod 100) 0); [contradiction|].
    discriminate.
  - destruct (Z.eq_dec n3 24) as [Hn3|Hn3].
    + assert (Hm400 : (Y + time.absoluteZeroYear) mod 400 = 0).
      { replace (Y + time.absoluteZeroYear)
          with (0 + (n1 + 1 - 730692556) * 400)
          by (unfold Y, time.absoluteZeroYear; lia).
        rewrite Z.mod_add by lia. reflexivity. }
      rewrite Hm400 in Hleap. cbn [Z.eqb] in Hleap.
      rewrite orb_true_r in Hleap. discriminate.
    + assert (Hm100 : (Y + time.absoluteZeroYear) mod 100 <> 0).
      { replace (Y + time.absoluteZeroYear)
          with ((4 * n3 + 4) + (4 * n1 + n2' - 2922770224) * 100)
          by (unfold Y, time.absoluteZeroYear; lia).
        rewrite Z.mod_add by lia. rewrite Z.mod_small by lia. lia. }
      destruct (Z.eqb_spec ((Y + time.absoluteZeroYear) mod 100) 0); [contradiction|].
      discriminate.
Qed.

Lemma monthDayRangeCheck_all (leap : bool) yd :
  0 <= yd < 365 + (if leap then 1 else 0) -> monthDayRangeCheck leap yd = true.
Proof.
  intros H. destruct leap.
  - assert (Hall : forallb (monthDayRangeCheck true) (zrange 0 366) = true)
      by (vm_compute; reflexivity).
    apply (forallb_zrange _ 0 366 yd Hall). lia.
  - assert (Hall : forallb (monthDayRangeCheck false) (zrange 0 365) = true)
      by (vm_compute; reflexivity).
    apply (forallb_zrange _ 0 365 yd Hall). lia.
Qed.

(** The date of every instant is a date of the calendar. *)
Lemma dateOf_valid t y m d :
  time.dateOf t = (y, m, d) -> time.validDate y m d.
Proof.
  unfold time.dateOf. rewrite absDate_monthDayOf.
  pose proof (absYearDay_range (time.abs t)) as Hr.
  destruct (time.absYearDay (time.abs t)) as [y' yd]. cbn [fst snd] in *.
  rewrite isLeap_leapYear.
  pose proof (monthDayRangeCheck_all _ _ Hr) as Hc.
  unfold monthDayRangeCheck in Hc.
  destruct (monthDayOf (time.leapYear y') yd) as [m' d']. cbn [fst snd].
  intros Heq. inversion Heq. subst y' m' d'.
  apply andb_prop in Hc as [Hc H4]. apply andb_prop in Hc as [Hc H3].
  apply andb_prop in Hc as [H1 H2].
  apply Z.leb_le in H1, H2, H3, H4.
  split; [lia|]. rewrite daysIn_daysInLeap. lia.
Qed.

(** [Format("20060102")] of a date of the years 0..9999 is eight
    digits: [YYYYMMDD]. *)
Lemma FormatCompact_YYYYMMDD t y m d :
  time.dateOf t = (y, m, d) -> 0 <= y <= 9999 ->
  time.FormatCompact t = (fourDigits y +:+ twoDigits m +:+ twoDigits d)%string.
Proof.
  intros Hd Hy. pose proof (dateOf_valid t y m d Hd) as Hv.
  pose proof (validDate_day_le_31 _ _ _ Hv). destruct Hv as [Hm _].
  unfold time.FormatCompact. rewrite Hd.
  rewrite appendInt_fourDigits, !appendInt_twoDigits by lia. reflexivity.
Qed.

Lemma FileName_branchResult base br :
  FileName (fst (branchResult base br)) = FileName base.
Proof. destruct br; reflexivity. Qed.

Lemma downloadSingleFile_FileName env Join job folder w :
  FileName (fst (fst (downloadSingleFile env Join job folder w)))
  = prefixedFilenameOf (ObjectName job).
Proof.
  destruct (downloadSingleFile_outcome env Join job folder w) as (br & Hres & _).
  cbv zeta in Hres. rewrite Hres, FileName_branchResult. reflexivity.
Qed.

Lemma branchEvents_paths job filePath br e :
  In e (branchEvents job filePath br) ->
  match e with
  | EvStat p _ | EvCreate p _ | EvCopy p _ _ => p = filePath
  | _ => True
  end.
Proof.
  intros H. destruct br; cbn in H; in_events H; exact I || reflexivity.
Qed.

Lemma sizeEvents_no_path job head e :
  In e (sizeEvents job head) ->
  match e with
  | EvStat _ _ | EvCreate _ _ | EvCopy _ _ _ => False
  | _ => True
  end.
Proof.
  unfold sizeEvents. intros [<-|H]; [exact I|].
  destruct (sizeOfHead (ObjectName job) head); cbn in H; [tauto|].
  destruct H as [<-|[]]. exact I.
Qed.

(** C7, as amended.  The file name a download records depends on the
    object name only: two runs for the same object name, in any two
    states of the world and against any two services, record the same
    name; it is the date formatted by [formatDateForFilename], an
    underscore and the base name when the date can be extracted, and
    [unknown_date_] and the base name when it cannot; when the year
    of the date is in 0..9999, and not for other years, the prefix
    is the eight digits YYYYMMDD.  The path that is checked, created
    and written is always the join of the folder and that name. *)
Theorem local_filename_deterministic env1 env2 Join job1 job2 folder w1 w2 :
  ObjectName job1 = ObjectName job2 ->
  let name := ObjectName job1 in
  let out1 := downloadSingleFile env1 Join job1 folder w1 in
  let out2 := downloadSingleFile env2 Join job2 folder w2 in
  let fileName := FileName (fst (fst out1)) in
  FileName (fst (fst out2)) = fileName /\
  fileName = match parseDateFromName name with
             | Ok date => ((formatDateForFilename date +:+ "_") +:+ path.Base name)%string
             | Err _ => ("unknown_date_" +:+ path.Base name)%string
             end /\
  (forall date y m d,
     parseDateFromName name = Ok date ->
     time.dateOf date = (y, m, d) -> 0 <= y <= 9999 ->
     fileName = (((fourDigits y +:+ twoDigits m +:+ twoDigits d) +:+ "_")
                 +:+ path.Base name)%string) /\
  (forall e, In e (newEvents w1 (snd out1)) \/ In e (newEvents w2 (snd out2)) ->
     match e with
     | EvStat p _ | EvCreate p _ | EvCopy p _ _ => p = Join folder fileName
     | _ => True
     end) /\
  In (EvStat (Join folder fileName) (bool_decide (fileExists w1 (Join folder fileName))))
     (newEvents w1 (snd out1)).
Proof.
  intros Hname name out1 out2 fileName.
  assert (H1 : fileName = prefixedFilenameOf name)
    by apply downloadSingleFile_FileName.
  assert (H2 : FileName (fst (fst out2)) = prefixedFilenameOf name).
  { unfold out2, name. rewrite Hname. apply downloadSingleFile_FileName. }
  split; [congruence|]. split; [exact H1|]. split.
  { intros date y m d Hp Hd Hy. rewrite H1. unfold prefixedFilenameOf. rewrite Hp.
    unfold formatDateForFilename.
    rewrite (FormatCompact_YYYYMMDD date y m d) by assumption. reflexivity. }
  destruct (downloadSingleFile_outcome env1 Join job1 folder w1)
    as (br1 & _ & _ & Hev1 & Hex1 & _).
  destruct (downloadSingleFile_outcome env2 Join job2 folder w2)
    as (br2 & _ & _ & Hev2 & _).
  cbv zeta in Hev1, Hev2, Hex1. fold out1 in Hev1. fold out2 in Hev2.
  rewrite <- Hname in Hev2. fold name in Hev1, Hev2, Hex1.
  rewrite <- H1 in Hev1, Hev2, Hex1.
  rewrite Hev1, Hev2. clear Hev1 Hev2. split.
  - intros e [[<-|He]|[<-|He]]; try exact I;
      (apply in_app_or in He as [He|He];
       [apply sizeEvents_no_path in He; destruct e; tauto
       |apply branchEvents_paths in He; exact He]).
  - right. apply in_or_app. right.
    destruct (bool_decide_reflect (fileExists w1 (Join folder fileName))) as [Hx|Hx].
    + apply Hex1 in Hx. subst br1. left. reflexivity.
    + destruct br1; try (left; reflexivity). exfalso. apply Hx, Hex1. reflexivity.
Qed.

Lemma local_filename_deterministic_witness :
  FileName (fst (fst (downloadSingleFile offlineEnv joinSlash sampleJob "downloads"
                        emptyWorld)))
  = FileName (fst (fst (downloadSingleFile sampleEnv joinSlash sampleJob "downloads"
                          emptyWorld))) /\
  FileName (fst (fst (downloadSingleFile sampleEnv joinSlash sampleJob "downloads"
                        emptyWorld)))
  = "20250925_FOCUS_REPORT1.csv".
Proof.
  destruct (local_filename_deterministic sampleEnv offlineEnv joinSlash sampleJob
              sampleJob "downloads" emptyWorld emptyWorld eq_refl)
    as (H1 & _ & H3 & _).
  split; [exact H1|].
  rewrite (H3 (time.Date 2025 9 25 0 0 0 0 time.UTC) 2025 9 25);
    [reflexivity|reflexivity|vm_compute; reflexivity|lia].
Defined.

(** C7, as stated, fails for dates outside the years 0..9999.  The
    name [x/12345/01/02/FOCUS.csv] has a date, 2 January 12345, and
    the file name every download of it records is
    [123450102_FOCUS.csv]: nine digits before the underscore, which
    no eight characters followed by [_FOCUS.csv] can spell.  For
    [x/-5/01/02/FOCUS.csv] it is [-00050102_FOCUS.csv]. *)
Lemma five_digit_year_filename :
  parseDateFromName (ObjectName farJob) = Ok (time.Date 12345 1 2 0 0 0 0 time.UTC) /\
  time.dateOf (time.Date 12345 1 2 0 0 0 0 time.UTC) = (12345, 1, 2) /\
  path.Base (ObjectName farJob) = "FOCUS.csv"%string /\
  (forall env Join folder w,
     FileName (fst (fst (downloadSingleFile env Join farJob folder w)))
     = "123450102_FOCUS.csv"%string /\
     forall prefix, String.length prefix = 8%nat ->
       FileName (fst (fst (downloadSingleFile env Join farJob folder w)))
       <> (prefix +:+ "_" +:+ path.Base (ObjectName farJob))%string) /\
  time.dateOf (time.Date (-5) 1 2 0 0 0 0 time.UTC) = (-5, 1, 2) /\
  (forall env Join folder w,
     FileName (fst (fst (downloadSingleFile env Join earlyJob folder w)))
     = "-00050102_FOCUS.csv"%string).
Proof.
  split; [vm_compute; reflexivity|]. split; [vm_compute; reflexivity|].
  split; [vm_compute; reflexivity|]. split; [|split; [vm_compute; reflexivity|]].
  - intros env Join folder w. rewrite downloadSingleFile_FileName.
    assert (Hname : prefixedFilenameOf (ObjectName farJob) = "123450102_FOCUS.csv"%string)
      by (vm_compute; reflexivity).
    rewrite Hname. split; [reflexivity|].
    intros prefix Hlen Heq. apply (f_equal (String.get 8)) in Heq.
    pose proof (append_correct2 prefix ("_" +:+ path.Base (ObjectName farJob)) 0) as Hget.
    rewrite Hlen in Hget. cbn [Nat.add] in Hget. rewrite <- Hget in Heq.
    vm_compute in Heq. discriminate.
  - intros env Join folder w. rewrite downloadSingleFile_FileName.
    vm_compute. reflexivity.
Qed.

Example unknown_date_filename :
  let out := downloadSingleFile sampleEnv joinSlash
               (mkJob "weirdfile.csv" "bling" "ocid1.tenancy.oc1..example")
               "downloads" emptyWorld in
  FileName (fst (fst out)) = "unknown_date_weirdfile.csv" /\
  ReportDate (fst (fst out)) = "unknown".
Proof. vm_compute. split; reflexivity. Qed.
(** ** C1: every job is answered exactly once *)

Lemma steps_invariant env Join config (I : Pool -> Prop) p0 :
  I p0 ->
  (forall p q, I p -> step env Join config p q -> I q) ->
  forall p, steps env Join config p0 p -> I p.
Proof.
  intros H0 Hstep p Hsteps. induction Hsteps; eauto.
Qed.

Lemma split_at {A} (l : list A) i x :
  l !! i = Some x -> l = take i l ++ x :: drop (S i) l.
Proof. intros H. symmetry. apply take_drop_middle. exact H. Qed.

Lemma insert_at {A} (l : list A) i x y :
  l !! i = Some x -> <[i := y]> l = take i l ++ y :: drop (S i) l.
Proof.
  intros H. apply insert_take_drop. eapply lookup_lt_Some. exact H.
Qed.

Lemma workerJobs_split ws i s s' :
  ws !! i = Some s ->
  exists A B,
    workerJobs ws = A ++ inFlight s ++ B /\
    workerJobs (<[i := s']> ws) = A ++ inFlight s' ++ B.
Proof.
  intros H. exists (workerJobs (take i ws)), (workerJobs (drop (S i) ws)).
  unfold workerJobs. split.
  - rewrite (split_at ws i s H) at 1.
    rewrite fmap_app, fmap_cons, concat_app, concat_cons. reflexivity.
  - rewrite (insert_at ws i s s' H).
    rewrite fmap_app, fmap_cons, concat_app, concat_cons. reflexivity.
Qed.

Lemma heldResults_split ws i s s' :
  ws !! i = Some s ->
  exists A B,
    heldResults ws = A ++ heldResult s ++ B /\
    heldResults (<[i := s']> ws) = A ++ heldResult s' ++ B.
Proof.
  intros H. exists (heldResults (take i ws)), (heldResults (drop (S i) ws)).
  unfold heldResults. split.
  - rewrite (split_at ws i s H) at 1.
    rewrite fmap_app, fmap_cons, concat_app, concat_cons. reflexivity.
  - rewrite (insert_at ws i s s' H).
    rewrite fmap_app, fmap_cons, concat_app, concat_cons. reflexivity.
Qed.

Lemma workerJobs_same ws i s s' :
  ws !! i = Some s -> inFlight s' = inFlight s ->
  workerJobs (<[i := s']> ws) = workerJobs ws.
Proof.
  intros H Heq. destruct (workerJobs_split ws i s s' H) as (A & B & -> & ->).
  rewrite Heq. reflexivity.
Qed.

Lemma processJob_job env Join folder job w :
  Result_Job (fst (processJob env Join folder job w)) = job.
Proof. rewrite processJob_eq. reflexivity. Qed.

Lemma workerJobs_exited ws :
  Forall (fun s => s = Exited) ws -> workerJobs ws = [].
Proof.
  induction 1 as [|s ws Hs _ IH]; [reflexivity|].
  subst s. unfold workerJobs in *. cbn. exact IH.
Qed.

Lemma heldResults_exited ws :
  Forall (fun s => s = Exited) ws -> heldResults ws = [].
Proof.
  induction 1 as [|s ws Hs _ IH]; [reflexivity|].
  subst s. unfold heldResults in *. cbn. exact IH.
Qed.

Lemma lookup_insert_Exited (ws : list WorkerState) i j s :
  <[i := s]> ws !! j = Some Exited -> s <> Exited -> ws !! j = Some Exited.
Proof.
  intros H Hs. destruct (decide (i = j)) as [->|Hne].
  - destruct (decide (j < length ws)%nat).
    + rewrite list_lookup_insert_eq in H by assumption. congruence.
    + rewrite list_insert_ge in H by lia. exact H.
  - rewrite list_lookup_insert_ne in H by assumption. exact H.
Qed.

Lemma not_all_exited (ws : list WorkerState) i s :
  ws !! i = Some s -> s <> Exited -> ~ Forall (fun s => s = Exited) ws.
Proof.
  intros H Hs Hall. rewrite Forall_forall in Hall.
  apply Hs, Hall. eapply list_elem_of_lookup_2. exact H.
Qed.

Lemma startPool_inv config js w :
  PoolInv js (Z.to_nat (MaxWorkers config)) (startPool config js w).
Proof.
  assert (Hw : forall n, workerJobs (replicate n Idle) = []).
  { induction n; [reflexivity|]. unfold workerJobs in *. cbn. assumption. }
  split; unfold startPool, accounted;
    cbn [toSubmit jobs jobsClosed workers results resultsClosed received
         collectorDone]; try discriminate.
  - rewrite Hw. cbn. rewrite app_nil_r. reflexivity.
  - apply length_replicate.
  - intros i H. apply lookup_replicate in H as [H _]. discriminate.
Qed.

(** Permutations of job lists, settled by counting. *)
Ltac perm_count :=
  apply (Permutation_count_occ Job_eq_dec); intros ?x;
  rewrite ?fmap_app, ?fmap_cons, ?fmap_nil;
  repeat rewrite count_occ_app; cbn [count_occ];
  repeat rewrite count_occ_app; cbn [count_occ];
  repeat match goal with
    | |- context [Job_eq_dec ?a ?b] => destruct (Job_eq_dec a b)
    end; lia.

Lemma step_inv env Join config js n p q :
  PoolInv js n p -> step env Join config p q -> PoolInv js n q.
Proof.
  intros [Hacc Hlen Hclosed Hexited Hrc Hdone] Hstep.
  destruct Hstep; split; cbn [toSubmit jobs jobsClosed workers results resultsClosed
    received collectorDone world setWorker]; unfold accounted in *;
    cbn [toSubmit jobs jobsClosed workers results resultsClosed
    received collectorDone world setWorker];
    rewrite ?length_insert; try assumption; try congruence.
  (* addJob *)
  - rewrite <- Hacc, H. perm_count.
  - intros i Hi. destruct (Hexited i Hi). congruence.
  (* closeJobs *)
  - intros i Hi. destruct (Hexited i Hi). split; [reflexivity|assumption].
  - intros Hr. destruct (Hrc Hr). split; [reflexivity|assumption].
  (* receive *)
  - destruct (workerJobs_split (workers p) i Idle (Holding job) H) as (A & B & HA & HB).
    rewrite <- Hacc, HA, HB, H0. cbn [inFlight]. perm_count.
  - intros j Hj. apply lookup_insert_Exited in Hj; [|discriminate].
    destruct (Hexited j Hj). congruence.
  - intros Hr. destruct (Hrc Hr) as [_ Hall].
    exfalso. eapply not_all_exited; [exact H|discriminate|exact Hall].
  (* download *)
  - rewrite (workerJobs_same _ _ (Holding job)); [assumption|assumption|].
    cbn. f_equal. rewrite <- (processJob_job env Join (DownloadFolder config) job (world p)).
    rewrite H0. reflexivity.
  - intros j Hj. apply lookup_insert_Exited in Hj; [|discriminate].
    exact (Hexited j Hj).
  - intros Hr. destruct (Hrc Hr) as [_ Hall].
    exfalso. eapply not_all_exited; [exact H|discriminate|exact Hall].
  (* send *)
  - destruct (workerJobs_split (workers p) i (Sending r) Idle H) as (A & B & HA & HB).
    rewrite <- Hacc, HA, HB. cbn [inFlight]. perm_count.
  - intros j Hj. apply lookup_insert_Exited in Hj; [|discriminate].
    exact (Hexited j Hj).
  - intros Hr. destruct (Hrc Hr) as [_ Hall].
    exfalso. eapply not_all_exited; [exact H|discriminate|exact Hall].
  - intros Hd. destruct (Hdone Hd) as [Hr _]. destruct (Hrc Hr) as [_ Hall].
    exfalso. eapply not_all_exited; [exact H|discriminate|exact Hall].
  (* exit *)
  - rewrite (workerJobs_same _ _ Idle); [assumption|assumption|reflexivity].
  - intros j Hj. split; assumption.
  - intros Hr. destruct (Hrc Hr) as [_ Hall].
    exfalso. eapply not_all_exited; [exact H|discriminate|exact Hall].
  (* closeResults *)
  - intros _. split; assumption.
  - intros Hd. destruct (Hdone Hd). congruence.
  (* collect *)
  - rewrite <- Hacc, H. perm_count.
  - intros Hd. destruct (Hdone Hd). congruence.
  (* collectorDone *)
  - intros _. split; assumption.
Qed.

Lemma steps_inv env Join config js w p :
  steps env Join config (startPool config js w) p ->
  PoolInv js (Z.to_nat (MaxWorkers config)) p.
Proof.
  apply steps_invariant; [apply startPool_inv|].
  intros p' q Hp Hs. eapply step_inv; eauto.
Qed.

Lemma steps_trans env Join config p q r :
  steps env Join config p q -> steps env Join config q r -> steps env Join config p r.
Proof.
  intros Hpq Hqr. induction Hqr as [q|q r' r'' Hqr IH Hstep]; [assumption|].
  eapply steps_step; [apply IH; exact Hpq|exact Hstep].
Qed.

Lemma steps_inv_from env Join config js n p q :
  PoolInv js n p -> steps env Join config p q -> PoolInv js n q.
Proof.
  intros Hp Hs. induction Hs as [p|p q r Hs IH Hstep]; [assumption|].
  exact (step_inv _ _ _ _ _ _ _ (IH Hp) Hstep).
Qed.

(** Once the collector is done every job has its result. *)
Lemma finished_all_answered js n p :
  PoolInv js n p -> (1 <= n)%nat -> collectorDone p = true ->
  Result_Job <$> received p ≡ₚ js /\ allResults p = received p.
Proof.
  intros [Hacc Hlen Hclosed Hexited Hrc Hdone] Hn Hd.
  destruct (Hdone Hd) as [Hr Hres]. destruct (Hrc Hr) as [Hjc Hall].
  assert (Hjobs : jobs p = []).
  { destruct (workers p) as [|s ws] eqn:Hws; [cbn in Hlen; lia|].
    apply Forall_cons in Hall as [Hs _]. subst s.
    apply (Hexited 0%nat). reflexivity. }
  unfold accounted, allResults in *.
  rewrite (Hclosed Hjc), Hjobs, (workerJobs_exited _ Hall), Hres in Hacc.
  rewrite (heldResults_exited _ Hall), Hres. cbn in *. auto.
Qed.

Lemma sum_weight_insert ws i s s' :
  ws !! i = Some s ->
  (sum_list_with workerWeight (<[i := s']> ws) + workerWeight s
   = sum_list_with workerWeight ws + workerWeight s')%nat.
Proof.
  intros H. rewrite (insert_at ws i s s' H).
  replace (sum_list_with workerWeight ws)
    with (sum_list_with workerWeight (take i ws ++ s :: drop (S i) ws))
    by (rewrite take_drop_middle; auto).
  rewrite !sum_list_with_app. cbn [sum_list_with]. lia.
Qed.

(** Every step uses up some of the bound. *)
Lemma step_decreases env Join config p q :
  step env Join config p q -> (stepsLeft q < stepsLeft p)%nat.
Proof.
  intros Hstep. destruct Hstep; unfold stepsLeft;
    cbn [toSubmit jobs jobsClosed workers results resultsClosed received
         collectorDone setWorker];
    rewrite ?H, ?H0, ?H1, ?H2, ?length_app; cbn [length flagWeight];
    try match goal with
      | Hw : workers ?p !! ?i = Some ?s |- context [<[?i := ?s']> (workers ?p)] =>
          pose proof (sum_weight_insert (workers p) i s s' Hw); cbn [workerWeight] in *
      end;
    try lia.
Qed.

Lemma worker_cases (ws : list WorkerState) :
  (exists i r, ws !! i = Some (Sending r)) \/
  (exists i job, ws !! i = Some (Holding job)) \/
  (exists i, ws !! i = Some Idle) \/
  Forall (fun s => s = Exited) ws.
Proof.
  induction ws as [|s ws IH]; [right; right; right; constructor|].
  destruct s.
  - right. right. left. exists 0%nat. reflexivity.
  - right. left. exists 0%nat, job. reflexivity.
  - left. exists 0%nat, r. reflexivity.
  - destruct IH as [(i & r & H)|[(i & job & H)|[(i & H)|H]]].
    + left. exists (S i), r. exact H.
    + right. left. exists (S i), job. exact H.
    + right. right. left. exists (S i). exact H.
    + right. right. right. constructor; [reflexivity|exact H].
Qed.

(** A pool that is not finished can take a step: nothing is stuck. *)
Lemma pool_progress env Join config js p :
  PoolInv js (Z.to_nat (MaxWorkers config)) p ->
  1 <= MaxWorkers config ->
  collectorDone p = false ->
  exists q, step env Join config p q.
Proof.
  intros [Hacc Hlen Hclosed Hexited Hrc Hdone] Hn Hd.
  assert (Hcap : (2 <= capacity config)%nat) by (unfold capacity; lia).
  destruct (results p) as [|r rest] eqn:Hres.
  2:{ eexists. eapply step_collect. exact Hres. }
  destruct (resultsClosed p) eqn:Hrcl.
  { eexists. apply step_collectorDone; assumption. }
  destruct (worker_cases (workers p)) as [(i & r & H)|[(i & job & H)|[(i & H)|Hall]]].
  - eexists. eapply step_send; [exact H|]. rewrite Hres. cbn. lia.
  - eexists. eapply step_download; [exact H|]. apply surjective_pairing.
  - destruct (jobs p) as [|job rest] eqn:Hjobs.
    + destruct (toSubmit p) as [|job rest] eqn:Hsub.
      * destruct (jobsClosed p) eqn:Hjc.
        -- eexists. eapply step_exit; eassumption.
        -- eexists. apply step_closeJobs; assumption.
      * destruct (jobsClosed p) eqn:Hjc; [specialize (Hclosed eq_refl); discriminate|].
        eexists. eapply step_addJob; [exact Hsub|exact Hjc|]. rewrite Hjobs. cbn. lia.
    + eexists. eapply step_receive; eassumption.
  - assert (Hex : jobsClosed p = true /\ jobs p = []).
    { destruct (workers p) as [|s ws] eqn:Hws; [cbn in Hlen; lia|].
      apply Forall_cons in Hall as [Hs _]. subst s.
      apply (Hexited 0%nat). reflexivity. }
    destruct Hex as [Hjc Hjobs].
    eexists. apply step_closeResults; assumption.
Qed.

(** Hence every pool runs to the end. *)
Lemma pool_terminates env Join config js p :
  PoolInv js (Z.to_nat (MaxWorkers config)) p ->
  1 <= MaxWorkers config ->
  exists q, steps env Join config p q /\ collectorDone q = true.
Proof.
  intros Hinv Hn.
  remember (stepsLeft p) as m eqn:Hm.
  revert p Hinv Hm. induction m as [m IH] using lt_wf_ind. intros p Hinv Hm.
  destruct (collectorDone p) eqn:Hd.
  { exists p. split; [constructor|assumption]. }
  destruct (pool_progress env Join config js p Hinv Hn Hd) as [q Hq].
  pose proof (step_decreases _ _ _ _ _ Hq) as Hlt.
  destruct (IH (stepsLeft q) ltac:(lia) q (step_inv _ _ _ _ _ _ _ Hinv Hq) eq_refl)
    as (q' & Hsteps & Hdone).
  exists q'. split; [|assumption].
  eapply steps_trans; [|exact Hsteps].
  eapply steps_step; [constructor|exact Hq].
Qed.

Lemma heldResults_same ws i s s' :
  ws !! i = Some s -> heldResult s' = heldResult s ->
  heldResults (<[i := s']> ws) = heldResults ws.
Proof.
  intros H Heq. destruct (heldResults_split ws i s s' H) as (A & B & -> & ->).
  rewrite Heq. reflexivity.
Qed.

(** What one step does to the world and to the results. *)
Lemma step_effect env Join config p q :
  step env Join config p q ->
  (exists i job,
     workers p !! i = Some (Holding job) /\
     world q = snd (processJob env Join (DownloadFolder config) job (world p)) /\
     forall r, r ∈ allResults q ->
       r ∈ allResults p \/
       r = fst (processJob env Join (DownloadFolder config) job (world p))) \/
  ((world q = world p \/ exists line, world q = record (EvLog line) (world p)) /\
   forall r, r ∈ allResults q -> r ∈ allResults p).
Proof.
  intros Hstep. destruct Hstep; unfold allResults;
    cbn [toSubmit jobs jobsClosed workers results resultsClosed received
         collectorDone world setWorker].
  - right. split; [left; reflexivity|auto].
  - right. split; [left; reflexivity|auto].
  - right. split; [left; reflexivity|].
    rewrite (heldResults_same _ _ Idle); auto.
  - left. exists i, job. split; [assumption|]. rewrite H0. cbn [fst snd].
    split; [reflexivity|].
    destruct (heldResults_split (workers p) i (Holding job) (Sending r) H)
      as (A & B & -> & ->). cbn [heldResult]. set_solver.
  - right. split; [left; reflexivity|].
    destruct (heldResults_split (workers p) i (Sending r) Idle H)
      as (A & B & -> & ->). cbn [heldResult]. set_solver.
  - right. split; [left; reflexivity|].
    rewrite (heldResults_same _ _ Idle); auto.
  - right. split; [left; reflexivity|auto].
  - right. split.
    + destruct (Result_Error r); [right; eexists; reflexivity|left; reflexivity].
    + rewrite H. set_solver.
  - right. split; [left; reflexivity|auto].
Qed.

Lemma holding_in_jobs js n p i job :
  PoolInv js n p -> workers p !! i = Some (Holding job) -> job ∈ js.
Proof.
  intros [Hacc _ _ _ _ _] H. rewrite <- Hacc. unfold accounted.
  destruct (workerJobs_split (workers p) i (Holding job) Idle H) as (A & B & -> & _).
  cbn [inFlight]. set_solver.
Qed.

(** A property of worlds that every download of a submitted job and
    every log line preserves holds throughout, and so does the
    property it establishes for the results; the latter may refer to
    the world, if later downloads and log lines preserve it. *)
Lemma pool_world_results_invariant env Join config js
    (Pw : World -> Prop) (Pr : Result -> World -> Prop) w0 :
  (forall job w, job ∈ js -> Pw w ->
     Pr (fst (processJob env Join (DownloadFolder config) job w))
        (snd (processJob env Join (DownloadFolder config) job w)) /\
     Pw (snd (processJob env Join (DownloadFolder config) job w))) ->
  (forall r job w, Pr r w ->
     Pr r (snd (processJob env Join (DownloadFolder config) job w))) ->
  (forall w line, Pw w -> Pw (record (EvLog line) w)) ->
  (forall r w line, Pr r w -> Pr r (record (EvLog line) w)) ->
  Pw w0 ->
  forall p, steps env Join config (startPool config js w0) p ->
    Pw (world p) /\ forall r, r ∈ allResults p -> Pr r (world p).
Proof.
  intros Hjob Hmono Hlog Hlogr H0 p Hsteps.
  enough (PoolInv js (Z.to_nat (MaxWorkers config)) p /\
          Pw (world p) /\ forall r, r ∈ allResults p -> Pr r (world p)) by tauto.
  revert p Hsteps. apply steps_invariant.
  - split; [apply startPool_inv|]. split; [exact H0|]. intros r Hr. exfalso.
    assert (Hw : forall n, heldResults (replicate n Idle) = []).
    { induction n; [reflexivity|]. unfold heldResults in *. cbn. assumption. }
    unfold allResults, startPool in Hr.
    cbn [workers results received] in Hr.
    rewrite Hw in Hr. cbn in Hr. set_solver.
  - intros q r (Hinv & IHw & IHr) Hstep.
    split; [eapply step_inv; eassumption|].
    destruct (step_effect _ _ _ _ _ Hstep)
      as [(i & job & Hhold & Hworld & Hres)|[Hworld Hres]].
    + pose proof (holding_in_jobs _ _ _ _ _ Hinv Hhold) as Hin.
      destruct (Hjob job (world q) Hin IHw) as [Hr' Hw'].
      rewrite Hworld. split; [exact Hw'|].
      intros r0 Hr0. destruct (Hres r0 Hr0) as [Hold| ->]; auto.
    + destruct Hworld as [->|[line ->]]; auto.
Qed.

Lemma pool_results_invariant env Join config js
    (Pw : World -> Prop) (Pr : Result -> Prop) w0 :
  (forall job w, job ∈ js -> Pw w ->
     Pr (fst (processJob env Join (DownloadFolder config) job w)) /\
     Pw (snd (processJob env Join (DownloadFolder config) job w))) ->
  (forall w line, Pw w -> Pw (record (EvLog line) w)) ->
  Pw w0 ->
  forall p, steps env Join config (startPool config js w0) p ->
    Pw (world p) /\ forall r, r ∈ allResults p -> Pr r.
Proof.
  intros Hjob Hlog H0.
  apply (pool_world_results_invariant env Join config js Pw (fun r _ => Pr r));
    auto.
Qed.

Lemma branchResult_status base br :
  isStatus (Status (fst (branchResult base br))).
Proof.
  unfold isStatus. destruct br; cbn; auto.
Qed.

Lemma processJob_status env Join folder job w :
  isStatus (Status (Result_Result (fst (processJob env Join folder job w)))).
Proof.
  rewrite processJob_eq. cbn [fst Result_Result].
  destruct (downloadSingleFile_outcome env Join job folder w) as (br & Hres & _).
  cbv zeta in Hres. rewrite Hres. apply branchResult_status.
Qed.

(** C1.  In every state the pool can reach, each submitted job is in
    exactly one place: waiting to be submitted, in the job queue, with
    a worker, or answered by one result (in the result channel or with
    the collector).  Every result that exists is the outcome of one
    run of [downloadSingleFile] on its own job, whichever of the five
    branches that run took, and carries one of the three statuses.  A
    pool that is not finished can always take a step, every step uses
    up a finite bound, and so every execution reaches the state in
    which the collector is done; there the results received correspond
    one to one to the jobs submitted. *)
Theorem every_job_answered_once env Join config js w p :
  1 <= MaxWorkers config ->
  steps env Join config (startPool config js w) p ->
  accounted p ≡ₚ js /\
  (forall r, r ∈ allResults p ->
     Result_Job r ∈ js /\
     (exists w1, r = fst (processJob env Join (DownloadFolder config) (Result_Job r) w1)) /\
     isStatus (Status (Result_Result r))) /\
  (collectorDone p = true ->
     Result_Job <$> received p ≡ₚ js /\
     length (downloadResults p) = length js) /\
  (collectorDone p = false -> exists q, step env Join config p q) /\
  (forall q, step env Join config p q -> (stepsLeft q < stepsLeft p)%nat) /\
  (exists q, steps env Join config p q /\ collectorDone q = true).
Proof.
  intros Hn Hsteps.
  pose proof (steps_inv _ _ _ _ _ _ Hsteps) as Hinv.
  split; [apply Hinv|]. split.
  { apply (pool_results_invariant env Join config js (fun _ => True)
             (fun r => Result_Job r ∈ js /\
                (exists w1, r = fst (processJob env Join (DownloadFolder config)
                                       (Result_Job r) w1)) /\
                isStatus (Status (Result_Result r))) w); auto.
    intros job w1 Hin _. split; [|exact I].
    rewrite processJob_job. split; [exact Hin|].
    split; [exists w1; reflexivity|apply processJob_status]. }
  split.
  { intros Hd.
    destruct (finished_all_answered js _ p Hinv ltac:(lia) Hd) as [Hperm _].
    split; [exact Hperm|].
    unfold downloadResults. rewrite length_fmap.
    rewrite <- (Permutation_length Hperm), length_fmap. reflexivity. }
  split; [intros Hd; eapply pool_progress; eassumption|].
  split; [intros q Hq; eapply step_decreases; exact Hq|].
  eapply pool_terminates; eassumption.
Qed.

Lemma every_job_answered_once_witness :
  exists q,
    steps offlineEnv joinSlash sampleConfig
      (startPool sampleConfig [sampleJob] emptyWorld) q /\
    collectorDone q = true.
Proof.
  apply (every_job_answered_once offlineEnv joinSlash sampleConfig [sampleJob]
           emptyWorld (startPool sampleConfig [sampleJob] emptyWorld)).
  - cbn. lia.
  - constructor.
Defined.

(** ** C3: the skip check and repeated runs *)

Lemma downloadSingleFile_history env Join job folder w :
  history (snd (downloadSingleFile env Join job folder w))
  = history w ++ newEvents w (snd (downloadSingleFile env Join job folder w)).
Proof.
  destruct (downloadSingleFile_branches env Join job folder w) as (br & Heq & _).
  cbv zeta in Heq. rewrite Heq. cbn [snd history].
  erewrite newEvents_app; reflexivity.
Qed.

Lemma branchFiles_mono filePath br fs p :
  is_Some (fs !! p) -> is_Some (branchFiles filePath br fs !! p).
Proof.
  intros H. destruct br; cbn; try assumption;
    (destruct (decide (filePath = p)) as [->|Hne];
     [rewrite lookup_insert_eq; eauto | rewrite lookup_insert_ne by assumption; assumption]).
Qed.

(** A download never removes a file. *)
Lemma downloadSingleFile_files_mono env Join job folder w p :
  fileExists w p -> fileExists (snd (downloadSingleFile env Join job folder w)) p.
Proof.
  destruct (downloadSingleFile_outcome env Join job folder w) as (br & _ & Hf & _).
  cbv zeta in Hf. unfold fileExists. rewrite Hf. apply branchFiles_mono.
Qed.

(** The skip check. *)
Lemma downloadSingleFile_skip env Join job folder w :
  fileExists w (targetPath Join folder job) ->
  let out := downloadSingleFile env Join job folder w in
  Status (fst (fst out)) = "Already exists" /\
  Downloaded (fst (fst out)) = false /\
  snd (fst out) = None /\
  files (snd out) = files w /\
  (forall e, In e (newEvents w (snd out)) -> isTransfer e = false).
Proof.
  intros Hex out.
  destruct (downloadSingleFile_outcome env Join job folder w)
    as (br & Hres & Hfiles & Hevs & Hbr & _).
  cbv zeta in Hres, Hfiles, Hevs, Hbr. fold out in Hres, Hfiles, Hevs.
  apply Hbr in Hex. subst br.
  rewrite Hres, Hfiles, Hevs.
  split; [reflexivity|]. split; [reflexivity|]. split; [reflexivity|].
  split; [reflexivity|].
  intros e He. destruct (isTransfer e) eqn:Ht; [|reflexivity].
  apply transfer_in_branch in He; [|assumption].
  cbn in He. destruct He as [<-|[]]. discriminate.
Qed.

(** A download that does not fail leaves the file in place. *)
Lemma downloadSingleFile_not_failed env Join job folder w :
  Status (fst (fst (downloadSingleFile env Join job folder w))) <> "Failed" ->
  fileExists (snd (downloadSingleFile env Join job folder w)) (targetPath Join folder job).
Proof.
  destruct (downloadSingleFile_outcome env Join job folder w)
    as (br & Hres & Hfiles & _ & Hbr & _).
  cbv zeta in Hres, Hfiles, Hbr. rewrite Hres. unfold fileExists. rewrite Hfiles.
  intros Hst. destruct br; cbn in Hst; try congruence.
  - cbn. apply Hbr. reflexivity.
  - cbn. unfold targetPath. rewrite lookup_insert_eq. eauto.
Qed.

(** The events of a download concern its own object and its own
    file. *)
Lemma downloadSingleFile_transfers env Join job folder w e :
  In e (newEvents w (snd (downloadSingleFile env Join job folder w))) ->
  isTransfer e = true ->
  transfersFor (ObjectName job) (targetPath Join folder job) e.
Proof.
  destruct (downloadSingleFile_outcome env Join job folder w)
    as (br & _ & _ & Hevs & _).
  cbv zeta in Hevs. rewrite Hevs. intros He Ht.
  apply transfer_in_branch in He; [|assumption].
  destruct br; cbn in He; in_events He; cbn in *; try discriminate; reflexivity.
Qed.

Lemma processJob_world env Join folder job w :
  snd (processJob env Join folder job w) = snd (downloadSingleFile env Join job folder w).
Proof. rewrite processJob_eq. reflexivity. Qed.

Lemma processJob_result env Join folder job w :
  Result_Result (fst (processJob env Join folder job w))
  = fst (fst (downloadSingleFile env Join job folder w)) /\
  Result_Error (fst (processJob env Join folder job w))
  = snd (fst (downloadSingleFile env Join job folder w)).
Proof. rewrite processJob_eq. split; reflexivity. Qed.

(** Files only accumulate while the pool runs. *)
Lemma steps_files_mono env Join config js w0 p path :
  steps env Join config (startPool config js w0) p ->
  fileExists w0 path -> fileExists (world p) path.
Proof.
  intros Hsteps Hex.
  apply (pool_results_invariant env Join config js
           (fun w => fileExists w path) (fun _ => True) w0); auto.
  intros job w _ Hw. split; [exact I|].
  rewrite processJob_world. apply downloadSingleFile_files_mono. exact Hw.
Qed.

(** In the first run: the file of a job whose result is not [Failed]
    is in place, and stays. *)
Lemma answered_file_exists env Join config js w0 p r :
  steps env Join config (startPool config js w0) p ->
  r ∈ allResults p ->
  Status (Result_Result r) <> "Failed" ->
  fileExists (world p) (targetPath Join (DownloadFolder config) (Result_Job r)).
Proof.
  intros Hsteps Hr Hst.
  eapply (pool_world_results_invariant env Join config js (fun _ => True)
            (fun r w => Status (Result_Result r) <> "Failed" ->
               fileExists w (targetPath Join (DownloadFolder config) (Result_Job r)))
            w0); eauto.
  - intros job w _ _. split; [|exact I].
    rewrite processJob_job, processJob_world.
    destruct (processJob_result env Join (DownloadFolder config) job w) as [-> _].
    apply downloadSingleFile_not_failed.
  - intros r' job w H Hs. rewrite processJob_world.
    apply downloadSingleFile_files_mono. auto.
Qed.

(** In a run that starts with the file of an object in place, every
    result for that object is [Already exists], and no event of the
    run fetches the object or writes the file. *)
Lemma rerun_skips env Join config js w2 p job :
  fileExists w2 (targetPath Join (DownloadFolder config) job) ->
  steps env Join config (startPool config js w2) p ->
  (forall r, r ∈ allResults p ->
     ObjectName (Result_Job r) = ObjectName job ->
     Status (Result_Result r) = "Already exists" /\
     Downloaded (Result_Result r) = false /\
     Result_Error r = None) /\
  exists evs,
    history (world p) = history w2 ++ evs /\
    forall e, In e evs ->
      ~ transfersFor (ObjectName job) (targetPath Join (DownloadFolder config) job) e.
Proof.
  intros Hex Hsteps.
  set (target := targetPath Join (DownloadFolder config) job).
  destruct (pool_results_invariant env Join config js
    (fun w => fileExists w target /\
       exists evs, history w = history w2 ++ evs /\
         forall e, In e evs -> ~ transfersFor (ObjectName job) target e)
    (fun r => ObjectName (Result_Job r) = ObjectName job ->
       Status (Result_Result r) = "Already exists" /\
       Downloaded (Result_Result r) = false /\
       Result_Error r = None) w2) with (p := p) as [[_ Hev] Hres]; auto.
  - intros job' w _ [Hfile (evs & Hh & Hevs)].
    rewrite processJob_job, processJob_world.
    destruct (processJob_result env Join (DownloadFolder config) job' w) as [-> ->].
    split; [|split].
    + intros Hname.
      assert (Ht : targetPath Join (DownloadFolder config) job' = target)
        by (unfold target, targetPath; rewrite Hname; reflexivity).
      rewrite <- Ht in Hfile.
      destruct (downloadSingleFile_skip env Join job' _ w Hfile) as (H1 & H2 & H3 & _).
      auto.
    + apply downloadSingleFile_files_mono. exact Hfile.
    + exists (evs ++ newEvents w (snd (downloadSingleFile env Join job'
                                          (DownloadFolder config) w))).
      split; [rewrite downloadSingleFile_history, Hh, app_assoc; reflexivity|].
      intros e He. apply in_app_or in He as [He|He]; [auto|].
      destruct (decide (targetPath Join (DownloadFolder config) job' = target))
        as [Ht|Ht].
      * rewrite <- Ht in Hfile.
        destruct (downloadSingleFile_skip env Join job' _ w Hfile) as (_ & _ & _ & _ & Hno).
        apply Hno in He. destruct e; cbn in *; auto; discriminate.
      * intros Htr.
        assert (Hisr : isTransfer e = true) by (destruct e; cbn in *; tauto).
        pose proof (downloadSingleFile_transfers _ _ _ _ _ _ He Hisr) as Hfor.
        destruct e; cbn in *; try tauto; try congruence.
        apply Ht. unfold target, targetPath. congruence.
  - intros w line [Hfile (evs & Hh & Hevs)]. split; [exact Hfile|].
    exists (evs ++ [EvLog line]). cbn. rewrite Hh, app_assoc. split; [reflexivity|].
    intros e He. apply in_app_or in He as [He|[<-|[]]]; [auto|]. cbn. tauto.
  - split; [exact Hex|]. exists []. rewrite app_nil_r. split; [reflexivity|].
    intros e [].
Qed.

(** C3, as amended.  A job whose local path exists when it is
    processed is answered [Already exists] with [Downloaded = false]
    and no error, without any [GetObject], file creation or copy, and
    the files are left as they are.  Hence, for every object that a
    first run answered with a status other than [Failed] (that is
    [Success] or [Already exists]), a second run over the same objects
    and folder, started from a world that still has the files of the
    first, answers [Already exists] and neither fetches the object nor
    writes its file. *)
Theorem skip_if_exists env1 env2 Join config js w0 p1 w2 p2 job :
  (forall env folder w,
     fileExists w (targetPath Join folder job) ->
     let out := downloadSingleFile env Join job folder w in
     Status (fst (fst out)) = "Already exists" /\
     Downloaded (fst (fst out)) = false /\
     snd (fst out) = None /\
     files (snd out) = files w /\
     (forall e, In e (newEvents w (snd out)) -> isTransfer e = false)) /\
  (steps env1 Join config (startPool config js w0) p1 ->
   (exists r, r ∈ allResults p1 /\ Result_Job r = job /\
              Status (Result_Result r) <> "Failed") ->
   (forall filePath, fileExists (world p1) filePath -> fileExists w2 filePath) ->
   steps env2 Join config (startPool config js w2) p2 ->
   (forall r, r ∈ allResults p2 ->
      ObjectName (Result_Job r) = ObjectName job ->
      Status (Result_Result r) = "Already exists" /\
      Downloaded (Result_Result r) = false /\
      Result_Error r = None) /\
   exists evs,
     history (world p2) = history w2 ++ evs /\
     forall e, In e evs ->
       ~ transfersFor (ObjectName job) (targetPath Join (DownloadFolder config) job) e).
Proof.
  split.
  - intros env folder w. apply downloadSingleFile_skip.
  - intros Hrun1 (r & Hr & <- & Hst) Hkept Hrun2.
    apply (rerun_skips env2 Join config js w2 p2 (Result_Job r)); [|exact Hrun2].
    apply Hkept.
    exact (answered_file_exists env1 Join config js w0 p1 r Hrun1 Hr Hst).
Qed.

(** With the sample service every download succeeds or is skipped. *)
Lemma sample_never_fails folder job w :
  Status (fst (fst (downloadSingleFile sampleEnv joinSlash job folder w))) <> "Failed".
Proof.
  destruct (downloadSingleFile_outcome sampleEnv joinSlash job folder w)
    as (br & Hres & _ & _ & _ & Htaken).
  cbv zeta in Hres, Htaken. rewrite Hres.
  destruct br; cbn in Htaken |- *; try discriminate; exfalso.
  - destruct Htaken as [_ H]. destruct (String.eqb _ _) in H; discriminate.
  - destruct Htaken as (_ & _ & H). discriminate.
  - destruct Htaken as (_ & Hget & _ & Hfail).
    destruct (String.eqb _ _) in Hget; inversion Hget; subst content; discriminate.
Qed.

(** With the service that is offline nothing is ever downloaded. *)
Lemma offline_always_fails folder job w :
  files w = ∅ ->
  Status (fst (fst (downloadSingleFile offlineEnv joinSlash job folder w))) = "Failed" /\
  files (snd (downloadSingleFile offlineEnv joinSlash job folder w)) = ∅.
Proof.
  intros Hempty.
  destruct (downloadSingleFile_outcome offlineEnv joinSlash job folder w)
    as (br & Hres & Hfiles & _ & _ & Htaken).
  cbv zeta in Hres, Hfiles, Htaken. rewrite Hres, Hfiles.
  destruct br; cbn in Htaken |- *.
  - exfalso. unfold fileExists in Htaken. rewrite Hempty, lookup_empty in Htaken.
    destruct Htaken as [x Hx]. discriminate.
  - auto.
  - destruct Htaken as (_ & H & _). discriminate.
  - destruct Htaken as (_ & H & _). discriminate.
  - destruct Htaken as (_ & H & _). discriminate.
Qed.

Lemma single_job_result js n p job :
  PoolInv js n p -> (1 <= n)%nat -> collectorDone p = true -> js = [job] ->
  exists r, received p = [r] /\ Result_Job r = job /\ r ∈ allResults p.
Proof.
  intros Hinv Hn Hd ->.
  destruct (finished_all_answered _ _ _ Hinv Hn Hd) as [Hperm Hall].
  symmetry in Hperm. apply Permutation_length_1_inv in Hperm.
  destruct (received p) as [|r [|r' rest]] eqn:Hrec; try discriminate.
  cbn in Hperm. inversion Hperm.
  exists r. split; [reflexivity|]. split; [reflexivity|].
  rewrite Hall. set_solver.
Qed.

Lemma skip_if_exists_witness :
  exists p1 p2,
    steps sampleEnv joinSlash sampleConfig
      (startPool sampleConfig [sampleJob] emptyWorld) p1 /\
    collectorDone p1 = true /\
    steps sampleEnv joinSlash sampleConfig
      (startPool sampleConfig [sampleJob] (world p1)) p2 /\
    collectorDone p2 = true /\
    forall r, r ∈ allResults p2 ->
      ObjectName (Result_Job r) = ObjectName sampleJob ->
      Status (Result_Result r) = "Already exists" /\
      Downloaded (Result_Result r) = false /\
      Result_Error r = None.
Proof.
  assert (Hn : 1 <= MaxWorkers sampleConfig) by (cbn; lia).
  destruct (pool_terminates sampleEnv joinSlash sampleConfig [sampleJob] _
              (startPool_inv sampleConfig [sampleJob] emptyWorld) Hn)
    as (p1 & Hrun1 & Hdone1).
  destruct (pool_terminates sampleEnv joinSlash sampleConfig [sampleJob] _
              (startPool_inv sampleConfig [sampleJob] (world p1)) Hn)
    as (p2 & Hrun2 & Hdone2).
  exists p1, p2. repeat (split; [assumption|]).
  destruct (single_job_result [sampleJob] _ p1 sampleJob
              (steps_inv _ _ _ _ _ _ Hrun1) ltac:(cbn; lia) Hdone1 eq_refl)
    as (r1 & _ & Hjob & Hin).
  apply (skip_if_exists sampleEnv sampleEnv joinSlash sampleConfig [sampleJob]
           emptyWorld p1 (world p1) p2 sampleJob).
  - exact Hrun1.
  - exists r1. split; [exact Hin|]. split; [exact Hjob|].
    apply (pool_results_invariant sampleEnv joinSlash sampleConfig [sampleJob]
             (fun _ => True) (fun r => Status (Result_Result r) <> "Failed")
             emptyWorld) with (p := p1); auto.
    intros job w _ _. split; [|exact I].
    destruct (processJob_result sampleEnv joinSlash (DownloadFolder sampleConfig) job w)
      as [-> _].
    apply sample_never_fails.
  - auto.
  - exact Hrun2.
Defined.

(** C3, as stated, fails: with a service whose [GetObject] fails, the
    first run of the pool on one object answers [Failed] and leaves no
    file, and so does every second run over the same object and
    folder: its result is [Failed], not [Already exists].  Such runs
    exist. *)
Lemma rerun_after_failed_fetch :
  (exists p1 p2,
     steps offlineEnv joinSlash sampleConfig
       (startPool sampleConfig [sampleJob] emptyWorld) p1 /\
     collectorDone p1 = true /\
     steps offlineEnv joinSlash sampleConfig
       (startPool sampleConfig [sampleJob] (world p1)) p2 /\
     collectorDone p2 = true) /\
  (forall p1 p2,
     steps offlineEnv joinSlash sampleConfig
       (startPool sampleConfig [sampleJob] emptyWorld) p1 ->
     collectorDone p1 = true ->
     steps offlineEnv joinSlash sampleConfig
       (startPool sampleConfig [sampleJob] (world p1)) p2 ->
     collectorDone p2 = true ->
     exists r, received p2 = [r] /\ Result_Job r = sampleJob /\
               Status (Result_Result r) = "Failed" /\
               Status (Result_Result r) <> "Already exists").
Proof.
  assert (Hn : 1 <= MaxWorkers sampleConfig) by (cbn; lia).
  assert (Hoff : forall w0 p, files w0 = ∅ ->
            steps offlineEnv joinSlash sampleConfig
              (startPool sampleConfig [sampleJob] w0) p ->
            files (world p) = ∅ /\
            forall r, r ∈ allResults p -> Status (Result_Result r) = "Failed").
  { intros w0 p Hw0.
    apply (pool_results_invariant offlineEnv joinSlash sampleConfig [sampleJob]
             (fun w => files w = ∅) (fun r => Status (Result_Result r) = "Failed")
             w0); auto.
    intros job w _ Hw. rewrite processJob_world.
    destruct (processJob_result offlineEnv joinSlash (DownloadFolder sampleConfig) job w)
      as [-> _].
    apply offline_always_fails. exact Hw. }
  split.
  - destruct (pool_terminates offlineEnv joinSlash sampleConfig [sampleJob] _
                (startPool_inv sampleConfig [sampleJob] emptyWorld) Hn)
      as (p1 & Hrun1 & Hdone1).
    destruct (pool_terminates offlineEnv joinSlash sampleConfig [sampleJob] _
                (startPool_inv sampleConfig [sampleJob] (world p1)) Hn)
      as (p2 & Hrun2 & Hdone2).
    exists p1, p2. auto.
  - intros p1 p2 Hrun1 Hdone1 Hrun2 Hdone2.
    destruct (Hoff emptyWorld p1 eq_refl Hrun1) as [Hfiles1 _].
    destruct (Hoff (world p1) p2 Hfiles1 Hrun2) as [_ Hfailed].
    destruct (single_job_result [sampleJob] _ p2 sampleJob
                (steps_inv _ _ _ _ _ _ Hrun2) ltac:(cbn; lia) Hdone2 eq_refl)
      as (r & Hrec & Hjob & Hin).
    exists r. split; [exact Hrec|]. split; [exact Hjob|].
    rewrite (Hfailed r Hin). split; [reflexivity|discriminate].
Qed.
(** ** C4: the lister *)

Lemma HasPrefix_app s p q :
  strings.HasPrefix s (p +:+ q) = true -> strings.HasPrefix s p = true.
Proof.
  revert s. induction p as [|c p IH]; intros s H; [destruct s; reflexivity|].
  destruct s as [|d s]; [discriminate|].
  cbn in H |- *. apply andb_prop in H as [H1 H2].
  rewrite H1. cbn. apply IH. exact H2.
Qed.

Lemma Contains_app s p q :
  strings.Contains s (p +:+ q) = true -> strings.Contains s p = true.
Proof.
  induction s as [|c s IH]; cbn [strings.Contains]; intros H.
  - apply orb_prop in H as [H|H]; [|discriminate].
    rewrite (HasPrefix_app _ _ _ H). reflexivity.
  - apply orb_prop in H as [H|H].
    + rewrite (HasPrefix_app _ _ _ H). reflexivity.
    + rewrite (IH H). apply orb_true_r.
Qed.

(** The two tests on the name amount to the first. *)
Lemma hasMarker_FOCUS name : hasMarker name = strings.Contains name "FOCUS".
Proof.
  unfold hasMarker.
  destruct (strings.Contains name "FOCUS_REPORT") eqn:H; [|apply orb_false_r].
  change "FOCUS_REPORT" with ("FOCUS" +:+ "_REPORT") in H.
  rewrite (Contains_app _ _ _ H). reflexivity.
Qed.

Lemma scanPage_spec cutoff objs : forall acc w,
  scanPage cutoff objs acc w
  = (acc ++ List.filter (selected cutoff) objs,
     mkWorld (files w) (history w ++ omap skipWarning objs)).
Proof.
  induction objs as [|obj rest IH]; intros acc w.
  - cbn. rewrite !app_nil_r. destruct w; reflexivity.
  - cbn [scanPage List.filter omap list_omap]. unfold selected at 1, skipWarning at 1.
    destruct (Name obj) as [name|]; [|apply IH].
    rewrite hasMarker_FOCUS.
    destruct (strings.Contains name "FOCUS"); cbn [andb]; [|apply IH].
    destruct (parseDateFromName name) as [date|e]; cbn [is_ok negb].
    + destruct (time.After date cutoff); rewrite IH; [|reflexivity].
      rewrite <- app_assoc. reflexivity.
    + unfold mbind, IO_bind, Log. rewrite IH. cbn. rewrite <- app_assoc. reflexivity.
Qed.

Lemma logLines_app l1 l2 : logLines (l1 ++ l2) = logLines l1 ++ logLines l2.
Proof. apply List.filter_app. Qed.

Lemma listResponses_app l1 l2 :
  listResponses (l1 ++ l2) = listResponses l1 ++ listResponses l2.
Proof. apply omap_app. Qed.

Lemma skipWarning_log obj e :
  skipWarning obj = Some e -> exists name, e = EvLog (LogSkipInvalidDate name).
Proof.
  unfold skipWarning. destruct (Name obj) as [name|]; [|discriminate].
  destruct (_ && _); [|discriminate]. intros H. inversion H. eauto.
Qed.

Lemma skipWarnings_are_logs objs :
  logLines (omap skipWarning objs) = omap skipWarning objs /\
  listResponses (omap skipWarning objs) = [].
Proof.
  induction objs as [|obj rest [IH1 IH2]]; [split; reflexivity|].
  cbn [omap list_omap].
  destruct (skipWarning obj) as [e|] eqn:He; [|split; assumption].
  apply skipWarning_log in He as [name ->].
  split; [cbn; f_equal; exact IH1|exact IH2].
Qed.

Lemma pageObjects_cons page pages :
  pageObjects (page :: pages) = Objects page ++ pageObjects pages.
Proof. reflexivity. Qed.

Lemma hasNext_false page :
  match NextStartWith page with
  | None => True
  | Some token => String.eqb token "" = true
  end -> hasNext page = false.
Proof.
  unfold hasNext. destruct (NextStartWith page); [|reflexivity].
  intros ->. reflexivity.
Qed.

(** The paging loop: the files are left alone, and the outcome is
    described by the answers the service gave. *)
Lemma listPages_spec env ns b cutoff fuel : forall start acc w,
  files (snd (listPages env fuel ns b cutoff start acc w)) = files w /\
  exists evs,
    history (snd (listPages env fuel ns b cutoff start acc w)) = history w ++ evs /\
    listingOutcome fuel cutoff acc (fst (listPages env fuel ns b cutoff start acc w)) evs.
Proof.
  induction fuel as [|fuel IH]; intros start acc w.
  { split; [reflexivity|]. exists []. rewrite app_nil_r. split; [reflexivity|].
    exists []. cbn. auto. }
  cbn [listPages]. unfold mbind, mret, IO_bind, IO_ret, ListObjects.
  set (r := env_list env (history w) ns b start).
  set (ev := EvListObjects ns b start r).
  destruct r as [page|e] eqn:Hr.
  2:{ split; [reflexivity|]. exists [ev]. split; [reflexivity|].
      exists []. split; [reflexivity|]. exists e. cbn. auto. }
  rewrite scanPage_spec. cbn [record files history].
  destruct (skipWarnings_are_logs (Objects page)) as [Hlog Hresp].
  assert (Hlast :
    hasNext page = false ->
    listingOutcome (S fuel) cutoff acc
      (Some (Ok (acc ++ List.filter (selected cutoff) (Objects page))))
      (ev :: omap skipWarning (Objects page))).
  { intros Hnext. exists [page]. unfold pageObjects. cbn [fmap list_fmap concat].
    rewrite app_nil_r. split.
    - change (ev :: omap skipWarning (Objects page))
        with ([ev] ++ omap skipWarning (Objects page)).
      rewrite logLines_app, Hlog. reflexivity.
    - split.
      + change (ev :: omap skipWarning (Objects page))
          with ([ev] ++ omap skipWarning (Objects page)).
        rewrite listResponses_app, Hresp. reflexivity.
      + split; [reflexivity|]. split; [cbn; lia|].
        exists [], page. auto. }
  destruct (NextStartWith page) as [token|] eqn:Hnext.
  2:{ split; [reflexivity|].
      exists (ev :: omap skipWarning (Objects page)).
      split; [cbn; rewrite <- app_assoc; reflexivity|].
      apply Hlast. unfold hasNext. rewrite Hnext. reflexivity. }
  destruct (String.eqb token "") eqn:Htok.
  { split; [reflexivity|].
    exists (ev :: omap skipWarning (Objects page)).
    split; [cbn; rewrite <- app_assoc; reflexivity|].
    apply Hlast. unfold hasNext. rewrite Hnext, Htok. reflexivity. }
  assert (Hhas : hasNext page = true) by (unfold hasNext; rewrite Hnext, Htok; reflexivity).
  match goal with
  | |- context [listPages env fuel ns b cutoff ?s ?a ?w'] =>
      destruct (IH s a w') as (Hfiles & evs & Hhist & pages & Hlogs & Hout);
      destruct (listPages env fuel ns b cutoff s a w') as [res w3]
  end.
  cbn [fst snd files history] in *.
  split; [exact Hfiles|].
  exists (ev :: omap skipWarning (Objects page) ++ evs).
  split; [rewrite Hhist, <- !app_assoc; reflexivity|].
  exists (page :: pages). rewrite pageObjects_cons, omap_app. split.
  { change (ev :: omap skipWarning (Objects page) ++ evs)
      with ([ev] ++ omap skipWarning (Objects page) ++ evs).
    rewrite !logLines_app, Hlog, Hlogs. reflexivity. }
  assert (Hresps : listResponses (ev :: omap skipWarning (Objects page) ++ evs)
                   = Ok page :: listResponses evs).
  { change (ev :: omap skipWarning (Objects page) ++ evs)
      with ([ev] ++ omap skipWarning (Objects page) ++ evs).
    rewrite !listResponses_app, Hresp. reflexivity. }
  rewrite Hresps.
  destruct res as [[objs|msg]|].
  - destruct Hout as (Hr' & Hobjs & Hlen & front & final & Hpages & Hfront & Hfinal).
    split; [rewrite Hr'; reflexivity|].
    split; [rewrite Hobjs, List.filter_app, <- app_assoc; reflexivity|].
    split; [cbn; lia|].
    exists (page :: front), final. rewrite Hpages. cbn. rewrite Hhas, Hfront. auto.
  - destruct Hout as (e & Hr' & Hmsg & Hall).
    exists e. rewrite Hr'. cbn. rewrite Hhas, Hall. auto.
  - destruct Hout as (Hr' & Hlen & Hall).
    rewrite Hr'. cbn. rewrite Hhas, Hall, Hlen. auto.
Qed.

Lemma listPages_more_fuel env ns b cutoff fuel : forall start acc w r w',
  listPages env fuel ns b cutoff start acc w = (Some r, w') ->
  forall fuel', (fuel <= fuel')%nat ->
  listPages env fuel' ns b cutoff start acc w = (Some r, w').
Proof.
  induction fuel as [|fuel IH]; intros start acc w r w' H fuel' Hle; [discriminate|].
  destruct fuel' as [|fuel']; [lia|].
  cbn [listPages] in H |- *. unfold mbind, mret, IO_bind, IO_ret, ListObjects in *.
  destruct (env_list env (history w) ns b start) as [page|e]; [|exact H].
  destruct (scanPage cutoff (Objects page) acc _) as [acc' w2].
  destruct (NextStartWith page) as [token|]; [|exact H].
  destruct (String.eqb token ""); [exact H|].
  apply IH; [exact H|lia].
Qed.

(** ** The clock fields of [time.Date] *)

Lemma Date_fields y m d h mi s ns l :
  time.absoluteZeroYear <= y -> time.validDate y m d ->
  0 <= h < 24 -> 0 <= mi < 60 -> 0 <= s < 60 -> 0 <= ns < 1000000000 ->
  time.dateOf (time.Date y m d h mi s ns l) = (y, m, d) /\
  time.clockOf (time.Date y m d h mi s ns l) = (h, mi, s).
Proof.
  intros Hy Hv Hh Hmi Hs Hns. pose proof Hv as [Hm _].
  rewrite Date_in_range by assumption.
  unfold time.dateOf, time.clockOf, time.abs.
  cbn [time.unixSec time.loc].
  match goal with
  | |- time.absDate ?e = _ /\ _ =>
      replace e with ((time.daysSinceEpoch y + yearDayOf (time.isLeap y) m d)
                      * time.secondsPerDay + clockSeconds h mi s)
  end.
  2:{ unfold time.internalToUnix, time.internalToAbsolute. lia. }
  assert (Hc : 0 <= clockSeconds h mi s < time.secondsPerDay)
    by (unfold clockSeconds, time.secondsPerDay; lia).
  split; [apply absDate_yearDay; assumption|].
  replace (((time.daysSinceEpoch y + yearDayOf (time.isLeap y) m d)
            * time.secondsPerDay + clockSeconds h mi s) mod time.secondsPerDay)
    with (clockSeconds h mi s).
  2:{ rewrite Z.add_comm, Z.mod_add by (unfold time.secondsPerDay; lia).
      rewrite Z.mod_small; [reflexivity|assumption]. }
  unfold clockSeconds.
  assert ((h * 3600 + mi * 60 + s) / 3600 = h) as -> by lia_div.
  assert ((h * 3600 + mi * 60 + s) mod 3600 = mi * 60 + s) as -> by lia_div.
  assert ((mi * 60 + s) / 60 = mi) as -> by lia_div.
  assert ((h * 3600 + mi * 60 + s) mod 60 = s) as -> by lia_div.
  reflexivity.
Qed.

(** Going back some days from a calendar date keeps the clock. *)
Lemma AddDate_days y m d h mi s ns l k :
  time.absoluteZeroYear <= y -> time.validDate y m d ->
  0 <= h < 24 -> 0 <= mi < 60 -> 0 <= s < 60 -> 0 <= ns < 1000000000 ->
  time.AddDate (time.Date y m d h mi s ns l) 0 0 k
  = time.Date y m (d + k) h mi s ns l.
Proof.
  intros Hy Hv Hh Hmi Hs Hns.
  destruct (Date_fields y m d h mi s ns l Hy Hv Hh Hmi Hs Hns) as [Hd Hc].
  unfold time.AddDate. rewrite Hd, Hc, !Z.add_0_r.
  rewrite (Date_in_range y m d h mi s ns l) by (destruct Hv; assumption).
  reflexivity.
Qed.

(** Unix time of an instant of September 2025. *)
Lemma unix_september_2025 d h mi s ns l :
  0 <= h < 24 -> 0 <= mi < 60 -> 0 <= s < 60 -> 0 <= ns < 1000000000 ->
  time.Date 2025 9 d h mi s ns l
  = time.mkTime (1756684800 + (d - 1) * 86400 + clockSeconds h mi s - time.zoneOffset l)
      ns l.
Proof.
  intros Hh Hmi Hs Hns. rewrite Date_in_range by (assumption || lia).
  f_equal.
  let v := eval vm_compute in (time.daysSinceEpoch 2025) in
  change (time.daysSinceEpoch 2025) with v.
  let v := eval vm_compute in (yearDayOf (time.isLeap 2025) 9 1) in
  assert (Hyd : yearDayOf (time.isLeap 2025) 9 d = v + (d - 1)).
  { unfold yearDayOf.
    let b := eval vm_compute in (time.isLeap 2025 && (3 <=? 9)) in
    change (time.isLeap 2025 && (3 <=? 9)) with b.
    let t := eval vm_compute in (time.daysBefore (9 - 1)) in
    change (time.daysBefore (9 - 1)) with t. cbv iota. lia. }
  rewrite Hyd.
  unfold time.secondsPerDay, time.absoluteToInternal, time.internalToUnix.
  change time.unixToInternal with 62135596800. lia.
Qed.

Lemma scenario_page now fuel ns b days w :
  fst (listAllFocusReports (scenarioEnv now) (S fuel) ns b days w)
  = Some (Ok (List.filter (selected (time.AddDate now 0 0 (- days)))
                [report1; report2])).
Proof.
  unfold listAllFocusReports, mbind, mret, IO_bind, IO_ret, Now.
  cbn [env_now scenarioEnv listPages]. unfold mbind, mret, IO_bind, IO_ret, ListObjects.
  cbn [env_list scenarioEnv Objects NextStartWith].
  rewrite scanPage_spec. reflexivity.
Qed.

Lemma scenario_selected cutoff :
  selected cutoff report1
  = time.After (time.Date 2025 9 25 0 0 0 0 time.UTC) cutoff /\
  selected cutoff report2
  = time.After (time.Date 2025 9 20 0 0 0 0 time.UTC) cutoff.
Proof.
  unfold selected, report1, report2. cbn [Name].
  assert (H1 : parseDateFromName "a/b/2025/09/25/FOCUS_REPORT1.csv"
               = Ok (time.Date 2025 9 25 0 0 0 0 time.UTC)) by reflexivity.
  assert (H2 : parseDateFromName "a/b/2025/09/20/FOCUS_REPORT2.csv"
               = Ok (time.Date 2025 9 20 0 0 0 0 time.UTC)) by reflexivity.
  rewrite H1, H2. split; reflexivity.
Qed.

(** The scenario, at any time of day on 30 September 2025 and in any
    time zone: going back 7 days gives a cutoff on 23 September, so
    only the report of 25 September is kept; going back 4 days gives
    a cutoff on 26 September, so neither is. *)
Lemma scenario_lookback l h mi s ns fuel nsp b w :
  -86400 < time.zoneOffset l < 86400 ->
  0 <= h < 24 -> 0 <= mi < 60 -> 0 <= s < 60 -> 0 <= ns < 1000000000 ->
  let env := scenarioEnv (time.Date 2025 9 30 h mi s ns l) in
  fst (listAllFocusReports env (S fuel) nsp b 7 w) = Some (Ok [report1]) /\
  fst (listAllFocusReports env (S fuel) nsp b 4 w) = Some (Ok []).
Proof.
  intros Hl Hh Hmi Hs Hns env. unfold env.
  assert (Hv : time.validDate 2025 9 30) by (split; [lia|vm_compute; split; discriminate]).
  assert (Hy : time.absoluteZeroYear <= 2025) by (unfold time.absoluteZeroYear; lia).
  rewrite !scenario_page.
  rewrite !AddDate_days by assumption.
  cbn [List.filter].
  destruct (scenario_selected (time.Date 2025 9 (30 + - (7)) h mi s ns l)) as [-> ->].
  destruct (scenario_selected (time.Date 2025 9 (30 + - (4)) h mi s ns l)) as [-> ->].
  rewrite !unix_september_2025 by (assumption || lia).
  unfold time.After, clockSeconds. cbn [time.unixSec time.nsec time.zoneOffset time.UTC].
  split.
  - destruct (Z.gtb_spec (1756684800 + (25 - 1) * 86400 + (0 * 3600 + 0 * 60 + 0) - 0)
                (1756684800 + (30 + - (7) - 1) * 86400 + (h * 3600 + mi * 60 + s)
                 - time.zoneOffset l)); [|lia].
    destruct (Z.gtb_spec (1756684800 + (20 - 1) * 86400 + (0 * 3600 + 0 * 60 + 0) - 0)
                (1756684800 + (30 + - (7) - 1) * 86400 + (h * 3600 + mi * 60 + s)
                 - time.zoneOffset l)); [lia|].
    destruct (Z.eqb_spec (1756684800 + (20 - 1) * 86400 + (0 * 3600 + 0 * 60 + 0) - 0)
                (1756684800 + (30 + - (7) - 1) * 86400 + (h * 3600 + mi * 60 + s)
                 - time.zoneOffset l)); [lia|].
    reflexivity.
  - destruct (Z.gtb_spec (1756684800 + (25 - 1) * 86400 + (0 * 3600 + 0 * 60 + 0) - 0)
                (1756684800 + (30 + - (4) - 1) * 86400 + (h * 3600 + mi * 60 + s)
                 - time.zoneOffset l)); [lia|].
    destruct (Z.eqb_spec (1756684800 + (25 - 1) * 86400 + (0 * 3600 + 0 * 60 + 0) - 0)
                (1756684800 + (30 + - (4) - 1) * 86400 + (h * 3600 + mi * 60 + s)
                 - time.zoneOffset l)); [lia|].
    destruct (Z.gtb_spec (1756684800 + (20 - 1) * 86400 + (0 * 3600 + 0 * 60 + 0) - 0)
                (1756684800 + (30 + - (4) - 1) * 86400 + (h * 3600 + mi * 60 + s)
                 - time.zoneOffset l)); [lia|].
    destruct (Z.eqb_spec (1756684800 + (20 - 1) * 86400 + (0 * 3600 + 0 * 60 + 0) - 0)
                (1756684800 + (30 + - (4) - 1) * 86400 + (h * 3600 + mi * 60 + s)
                 - time.zoneOffset l)); [lia|].
    reflexivity.
Qed.

(** C4, as amended.  The lister takes the clock once, and with
    [cutoff = now - days] it returns exactly the objects of the pages
    the service answered, in order, that have a name containing the
    marker [FOCUS] and a date strictly after the cutoff.  For every
    listed object with the marker and no extractable date it logs one
    warning and goes on: the only error it returns is a failed
    [ListObjects].  It stops at the first page without continuation
    token; with too little fuel it is still running only if every page
    so far carried a token, and more fuel does not change a result.
    In particular, with today = 2025-09-30 and lookback 7 days only
    the object dated 2025-09-25 is included (2025-09-20 is before the
    cutoff of 23 September), and with lookback 4 days neither object
    is. *)
Theorem lister_selects env namespace bucketName days fuel w :
  let now := env_now env (history w) in
  let cutoff := time.AddDate now 0 0 (- days) in
  let out := listAllFocusReports env fuel namespace bucketName days w in
  files (snd out) = files w /\
  (exists evs,
     newEvents w (snd out) = EvNow now :: evs /\
     listingOutcome fuel cutoff [] (fst out) evs) /\
  (forall result fuel',
     fst out = Some result -> (fuel <= fuel')%nat ->
     listAllFocusReports env fuel' namespace bucketName days w = out) /\
  (forall l h mi s ns,
     -86400 < time.zoneOffset l < 86400 ->
     0 <= h < 24 -> 0 <= mi < 60 -> 0 <= s < 60 -> 0 <= ns < 1000000000 ->
     let today := scenarioEnv (time.Date 2025 9 30 h mi s ns l) in
     fst (listAllFocusReports today (S fuel) namespace bucketName 7 w)
       = Some (Ok [report1]) /\
     fst (listAllFocusReports today (S fuel) namespace bucketName 4 w)
       = Some (Ok [])).
Proof.
  intros now cutoff out.
  assert (Hout : out = listPages env fuel namespace bucketName cutoff None []
                         (record (EvNow now) w)) by reflexivity.
  destruct (listPages_spec env namespace bucketName cutoff fuel None []
              (record (EvNow now) w)) as (Hfiles & evs & Hhist & Hlisting).
  rewrite <- Hout in Hfiles, Hhist, Hlisting.
  split; [exact Hfiles|]. split.
  { exists evs. split; [|exact Hlisting].
    apply newEvents_app. rewrite Hhist. cbn. rewrite <- app_assoc. reflexivity. }
  split.
  { intros result fuel' Hres Hle. rewrite Hout in *.
    unfold listAllFocusReports, mbind, IO_bind, Now. fold now. fold cutoff.
    destruct (listPages env fuel namespace bucketName cutoff None []
                (record (EvNow now) w)) as [r w'] eqn:Hrun.
    cbn in Hres. subst r.
    apply (listPages_more_fuel _ _ _ _ _ _ _ _ _ _ Hrun). exact Hle. }
  intros l h mi s ns Hl Hh Hmi Hs Hns.
  apply scenario_lookback; assumption.
Qed.

Lemma lister_selects_witness :
  fst (listAllFocusReports sampleEnv 1 "bling" "ocid1.tenancy.oc1..example" 7 emptyWorld)
    = Some (Ok [report1]) /\
  fst (listAllFocusReports sampleEnv 1 "bling" "ocid1.tenancy.oc1..example" 4 emptyWorld)
    = Some (Ok []).
Proof.
  destruct (lister_selects sampleEnv "bling" "ocid1.tenancy.oc1..example" 7 0
              emptyWorld) as (_ & _ & _ & H).
  apply (H time.UTC 10 15 30 0); cbn; lia.
Defined.

(** C4, as stated, fails on its scenario: on 2025-09-30 (here at
    10:15:30 UTC) with a lookback of 7 days the lister returns the
    object dated 2025-09-25 only, not the one dated 2025-09-20; with a
    lookback of 4 days it returns neither. *)
Lemma scenario_as_stated_fails :
  let bucket := [report1; report2] in
  env_list sampleEnv [] "bling" "ocid1.tenancy.oc1..example" None
    = Ok (mkListObjects bucket None) /\
  time.dateOf (env_now sampleEnv []) = (2025, 9, 30) /\
  fst (listAllFocusReports sampleEnv 1 "bling" "ocid1.tenancy.oc1..example" 7 emptyWorld)
    = Some (Ok [report1]) /\
  fst (listAllFocusReports sampleEnv 1 "bling" "ocid1.tenancy.oc1..example" 7 emptyWorld)
    <> Some (Ok [report1; report2]) /\
  fst (listAllFocusReports sampleEnv 1 "bling" "ocid1.tenancy.oc1..example" 4 emptyWorld)
    = Some (Ok []) /\
  fst (listAllFocusReports sampleEnv 1 "bling" "ocid1.tenancy.oc1..example" 4 emptyWorld)
    <> Some (Ok [report1]).
Proof.
  cbv zeta. split; [reflexivity|]. split; [vm_compute; reflexivity|].
  assert (H7 : fst (listAllFocusReports sampleEnv 1 "bling"
                      "ocid1.tenancy.oc1..example" 7 emptyWorld)
               = Some (Ok [report1])) by (vm_compute; reflexivity).
  assert (H4 : fst (listAllFocusReports sampleEnv 1 "bling"
                      "ocid1.tenancy.oc1..example" 4 emptyWorld)
               = Some (Ok [])) by (vm_compute; reflexivity).
  rewrite H7, H4. repeat split; discriminate.
Qed.
(** ** The summary report *)

Lemma mergeSortSlice_sorts : sortsSlices mergeSortSlice.
Proof.
  intros less l (Hirr & Htrans & Hneg). unfold mergeSortSlice.
  split; [apply merge_sort_Permutation|].
  apply StronglySorted_merge_sort.
  - intros a b c Hab Hbc. exact (Hneg c b a Hbc Hab).
  - intros a b. unfold inOrder. destruct (less b a) eqn:Hba; [|left; reflexivity].
    right. destruct (less a b) eqn:Hab; [|reflexivity].
    rewrite <- (Hirr a). symmetry. exact (Htrans a b a Hab Hba).
Qed.

(** [After] on the dates is a strict weak order. *)
Lemma laterFirst_strictWeakOrder : strictWeakOrder laterFirst.
Proof.
  unfold strictWeakOrder, laterFirst, time.After. repeat split.
  - intros a.
    destruct (Z.gtb_spec (time.unixSec (Report_Date a)) (time.unixSec (Report_Date a)));
      [lia|].
    destruct (Z.gtb_spec (time.nsec (Report_Date a)) (time.nsec (Report_Date a)));
      [lia|]. rewrite andb_false_r. reflexivity.
  - intros a b c.
    set (sa := time.unixSec (Report_Date a)). set (sb := time.unixSec (Report_Date b)).
    set (sc := time.unixSec (Report_Date c)).
    set (na := time.nsec (Report_Date a)). set (nb := time.nsec (Report_Date b)).
    set (nc := time.nsec (Report_Date c)).
    destruct (Z.gtb_spec sa sb), (Z.eqb_spec sa sb), (Z.gtb_spec na nb),
      (Z.gtb_spec sb sc), (Z.eqb_spec sb sc), (Z.gtb_spec nb nc),
      (Z.gtb_spec sa sc), (Z.eqb_spec sa sc), (Z.gtb_spec na nc);
      cbn; intros; try reflexivity; try discriminate; lia.
  - intros a b c.
    set (sa := time.unixSec (Report_Date a)). set (sb := time.unixSec (Report_Date b)).
    set (sc := time.unixSec (Report_Date c)).
    set (na := time.nsec (Report_Date a)). set (nb := time.nsec (Report_Date b)).
    set (nc := time.nsec (Report_Date c)).
    destruct (Z.gtb_spec sa sb), (Z.eqb_spec sa sb), (Z.gtb_spec na nb),
      (Z.gtb_spec sb sc), (Z.eqb_spec sb sc), (Z.gtb_spec nb nc),
      (Z.gtb_spec sa sc), (Z.eqb_spec sa sc), (Z.gtb_spec na nc);
      cbn; intros; try reflexivity; try discriminate; lia.
Qed.

Lemma getObjectSize_spec env ns b name w :
  getObjectSize env ns b name w
  = (sizeOfHead name (env_head env (history w) ns b name),
     record (EvHeadObject ns b name (env_head env (history w) ns b name)) w).
Proof.
  unfold getObjectSize, mbind, mret, IO_bind, IO_ret, HeadObject, sizeOfHead.
  destruct (env_head env (history w) ns b name) as [[n|]|e]; reflexivity.
Qed.

Lemma collectReports_spec env ns b objects : forall reports w,
  exists heads,
    length heads = length (omap Name objects) /\
    let named := zip (omap Name objects) heads in
    collectReports env ns b objects reports w
    = (reports ++ datedReports named,
       mkWorld (files w) (history w ++ headEvents ns b named)).
Proof.
  induction objects as [|obj rest IH]; intros reports w.
  { exists []. split; [reflexivity|]. cbn. rewrite !app_nil_r. destruct w; reflexivity. }
  cbn [collectReports omap list_omap].
  destruct (Name obj) as [name|]; [|apply IH].
  unfold mbind at 1. unfold IO_bind at 1. unfold mbind at 1. unfold IO_bind at 1.
  rewrite getObjectSize_spec.
  set (head := env_head env (history w) ns b name).
  set (w0 := record (EvHeadObject ns b name head) w).
  set (w1 := match sizeOfHead name head with
             | Ok _ => w0
             | Err err => record (EvLog (LogSizeWarning name err)) w0
             end).
  assert (Hw1 : w1 = mkWorld (files w) (history w ++ sizeEvents (mkJob name ns b) head)).
  { unfold w1, w0, sizeEvents, record. cbn [ObjectName Namespace BucketName].
    destruct (sizeOfHead name head); cbn [files history];
      rewrite <- ?app_assoc; reflexivity. }
  assert (Hrun :
    match sizeOfHead name head with
    | Ok size => mret size
    | Err err => _ ← Log (LogSizeWarning name err); mret 0
    end w0 = (sizeOr0 name head, w1)).
  { unfold w1, sizeOr0. destruct (sizeOfHead name head); reflexivity. }
  rewrite Hrun. clearbody w1. subst w1.
  destruct (parseDateFromName name) as [date|perr] eqn:Hparse.
  - destruct (IH (reports ++ [mkReport name (sizeOr0 name head) date])
                (mkWorld (files w) (history w ++ sizeEvents (mkJob name ns b) head)))
      as (heads & Hlen & Heq).
    exists (head :: heads). split; [cbn; lia|].
    cbv zeta in Heq |- *. rewrite Heq.
    cbn [zip zip_with datedReports omap list_omap headEvents fmap list_fmap concat
         fst snd files history].
    unfold datedReport at 1. rewrite Hparse.
    rewrite <- !app_assoc. reflexivity.
  - destruct (IH reports
                (mkWorld (files w) (history w ++ sizeEvents (mkJob name ns b) head)))
      as (heads & Hlen & Heq).
    exists (head :: heads). split; [cbn; lia|].
    cbv zeta in Heq |- *. rewrite Heq.
    cbn [zip zip_with datedReports omap list_omap headEvents fmap list_fmap concat
         fst snd files history].
    unfold datedReport at 1. rewrite Hparse.
    rewrite <- !app_assoc. reflexivity.
Qed.

Lemma recordsWritten_app l1 l2 :
  recordsWritten (l1 ++ l2) = recordsWritten l1 ++ recordsWritten l2.
Proof. apply omap_app. Qed.

Lemma sizeEvents_no_records job head : recordsWritten (sizeEvents job head) = [].
Proof.
  unfold sizeEvents. destruct (sizeOfHead (ObjectName job) head); reflexivity.
Qed.

Lemma headEvents_no_records ns b named : recordsWritten (headEvents ns b named) = [].
Proof.
  unfold headEvents. induction named as [|nh rest IH]; [reflexivity|].
  cbn [fmap list_fmap concat]. rewrite recordsWritten_app, sizeEvents_no_records. exact IH.
Qed.

Lemma WriteRecord_history env file rec w :
  history (snd (WriteRecord env file rec w))
  = history w ++ [EvWriteRecord file rec (env_writeRecord env (history w) file rec)].
Proof.
  reflexivity.
Qed.

Lemma writeAll_spec env file recs : forall w,
  exists evs,
    history (snd (writeAll env file recs w)) = history w ++ evs /\
    recordsWritten evs = (fun rec => (file, rec)) <$> recs /\
    Forall (fun e => exists rec err, e = EvWriteRecord file rec err) evs.
Proof.
  induction recs as [|rec rest IH]; intros w.
  { exists []. cbn. rewrite app_nil_r. auto. }
  cbn [writeAll]. unfold mbind, IO_bind.
  pose proof (WriteRecord_history env file rec w) as Hh.
  destruct (WriteRecord env file rec w) as [u w1]. cbn [snd] in Hh.
  destruct (IH w1) as (evs & Heq & Hrec & Hall).
  exists (EvWriteRecord file rec (env_writeRecord env (history w) file rec) :: evs).
  split; [|split].
  - rewrite Heq, Hh, <- app_assoc. reflexivity.
  - change (EvWriteRecord file rec (env_writeRecord env (history w) file rec) :: evs)
      with ([EvWriteRecord file rec (env_writeRecord env (history w) file rec)] ++ evs).
    rewrite recordsWritten_app, Hrec. reflexivity.
  - constructor; [eauto|exact Hall].
Qed.

(** The summary phase, by its outcome. *)
Lemma mainSummary_spec env sortSlice ns b objects w :
  exists heads,
    length heads = length (omap Name objects) /\
    let named := zip (omap Name objects) heads in
    let reports := sortSlice laterFirst (datedReports named) in
    let out := mainSummary env sortSlice ns b objects w in
    (exists e,
       fst out = Fatal ("Error creating CSV file: " +:+ e) /\
       newEvents w (snd out) = headEvents ns b named ++ [EvCreate summaryFile (Some e)]) \/
    (fst out = Done /\
     exists writes,
       newEvents w (snd out)
         = headEvents ns b named ++ EvCreate summaryFile None :: writes /\
       recordsWritten writes
         = (summaryFile, summaryHeader) ::
           ((fun r => (summaryFile, summaryRecord b r)) <$> reports) /\
       Forall (fun e => exists rec err, e = EvWriteRecord summaryFile rec err) writes).
Proof.
  destruct (collectReports_spec env ns b objects [] w) as (heads & Hlen & Hcollect).
  exists heads. split; [exact Hlen|]. cbv zeta in Hcollect |- *.
  set (named := zip (omap Name objects) heads) in *.
  set (w1 := mkWorld (files w) (history w ++ headEvents ns b named)) in *.
  set (rows := summaryRecord b <$> sortSlice laterFirst (datedReports named)).
  assert (Hms : mainSummary env sortSlice ns b objects w
    = match env_create env (history w1) summaryFile with
      | Some e => (Fatal ("Error creating CSV file: " +:+ e),
                   record (EvCreate summaryFile (Some e)) w1)
      | None =>
          (Done,
           store summaryFile Csv
             (snd (writeAll env summaryFile (summaryHeader :: rows)
                     (record (EvCreate summaryFile None)
                        (store summaryFile (Bytes "") w1)))))
      end).
  { unfold mainSummary, mbind, mret, IO_bind, IO_ret. rewrite Hcollect. cbn [app].
    unfold Create. fold rows.
    destruct (env_create env (history w1) summaryFile) as [e|]; [reflexivity|].
    cbn [writeAll]. unfold mbind, IO_bind.
    destruct (WriteRecord env summaryFile summaryHeader _) as [u w3].
    destruct (writeAll env summaryFile rows w3) as [u' w4]. reflexivity. }
  rewrite Hms. clear Hms.
  destruct (env_create env (history w1) summaryFile) as [e|] eqn:Hcreate.
  - left. exists e. split; [reflexivity|].
    apply newEvents_app. cbn. rewrite <- app_assoc. reflexivity.
  - right. split; [reflexivity|].
    destruct (writeAll_spec env summaryFile (summaryHeader :: rows)
                (record (EvCreate summaryFile None) (store summaryFile (Bytes "") w1)))
      as (evs & Heq & Hrec & Hall).
    exists evs. split; [|split; [|exact Hall]].
    + apply newEvents_app. cbn [snd]. unfold store at 1. cbn [history].
      rewrite Heq. unfold w1, record, store.
      cbn [history]. rewrite <- !app_assoc. reflexivity.
    + etransitivity; [exact Hrec|]. cbn [fmap list_fmap]. f_equal.
      unfold rows. rewrite <- list_fmap_compose. reflexivity.
Qed.

Lemma datedReports_names named :
  Report_Name <$> datedReports named
  = List.filter (fun n => is_ok (parseDateFromName n)) (fst <$> named).
Proof.
  induction named as [|[name head] rest IH]; [reflexivity|].
  cbn [datedReports omap list_omap fmap list_fmap List.filter fst snd].
  unfold datedReport at 1.
  destruct (parseDateFromName name); cbn [is_ok]; [|exact IH].
  cbn. f_equal. exact IH.
Qed.

Lemma datedReports_dates named r :
  r ∈ datedReports named -> parseDateFromName (Report_Name r) = Ok (Report_Date r).
Proof.
  unfold datedReports. rewrite list_elem_of_omap. intros ([name head] & _ & H).
  unfold datedReport in H. cbn [fst snd] in H.
  destruct (parseDateFromName name) eqn:Hp; [|discriminate].
  inversion H. subst r. exact Hp.
Qed.

Lemma StronglySorted_adjacent {A} (R : A -> A -> Prop) l i a b :
  StronglySorted R l -> l !! i = Some a -> l !! S i = Some b -> R a b.
Proof.
  intros Hs. revert i. induction Hs as [|x l Hs IH Hall]; intros i Ha Hb.
  - discriminate.
  - destruct i as [|i].
    + cbn in Ha, Hb. inversion Ha. subst x.
      rewrite List.Forall_forall in Hall. apply Hall.
      apply list_elem_of_In. eapply list_elem_of_lookup_2. exact Hb.
    + cbn in Ha, Hb. eapply IH; eassumption.
Qed.

(** C6.  When the summary is written: the rows after the header are
    the rows of a list of reports that holds exactly one report per
    listed object with a name from which a date can be extracted
    (objects without a date are left out), each with the date of its
    name, and in which no row's date is after the date of the row
    before it: dates descend. *)
Theorem summary_sorted env sortSlice namespace bucketName objects w :
  sortsSlices sortSlice ->
  let out := mainSummary env sortSlice namespace bucketName objects w in
  fst out = Done ->
  exists reports,
    recordsWritten (newEvents w (snd out))
      = (summaryFile, summaryHeader) ::
        ((fun r => (summaryFile, summaryRecord bucketName r)) <$> reports) /\
    Report_Name <$> reports
      ≡ₚ List.filter (fun n => is_ok (parseDateFromName n)) (omap Name objects) /\
    (forall r, r ∈ reports ->
       parseDateFromName (Report_Name r) = Ok (Report_Date r)) /\
    (forall i r1 r2,
       reports !! i = Some r1 -> reports !! S i = Some r2 ->
       time.After (Report_Date r2) (Report_Date r1) = false).
Proof.
  intros Hsort out Hdone.
  destruct (mainSummary_spec env sortSlice namespace bucketName objects w)
    as (heads & Hlen & Hspec).
  cbv zeta in Hspec. fold out in Hspec.
  destruct Hspec as [(e & Hfatal & _)|(_ & writes & Hevs & Hrec & _)];
    [congruence|].
  set (named := zip (omap Name objects) heads) in *.
  destruct (Hsort laterFirst (datedReports named) laterFirst_strictWeakOrder)
    as [Hperm Hsorted].
  exists (sortSlice laterFirst (datedReports named)).
  split; [|split; [|split]].
  - rewrite Hevs.
    change (headEvents namespace bucketName named ++ EvCreate summaryFile None :: writes)
      with (headEvents namespace bucketName named ++ [EvCreate summaryFile None] ++ writes).
    rewrite !recordsWritten_app, headEvents_no_records. exact Hrec.
  - rewrite Hperm, datedReports_names. unfold named.
    rewrite fst_zip by lia. reflexivity.
  - intros r Hr. rewrite Hperm in Hr. eapply datedReports_dates. exact Hr.
  - intros i r1 r2 H1 H2.
    exact (StronglySorted_adjacent _ _ _ _ _ Hsorted H1 H2).
Qed.

Lemma summary_sorted_witness :
  exists reports,
    recordsWritten
      (newEvents emptyWorld
         (snd (mainSummary sampleEnv mergeSortSlice "bling" "ocid1.tenancy.oc1..example"
                 [report2; report1] emptyWorld)))
      = (summaryFile, summaryHeader) ::
        ((fun r => (summaryFile, summaryRecord "ocid1.tenancy.oc1..example" r))
         <$> reports) /\
    forall i r1 r2,
      reports !! i = Some r1 -> reports !! S i = Some r2 ->
      time.After (Report_Date r2) (Report_Date r1) = false.
Proof.
  destruct (summary_sorted sampleEnv mergeSortSlice "bling" "ocid1.tenancy.oc1..example"
              [report2; report1] emptyWorld mergeSortSlice_sorts)
    as (reports & H1 & _ & _ & H4).
  - vm_compute. reflexivity.
  - exists reports. split; [exact H1|exact H4].
Defined.

Example summary_rows :
  snd <$> recordsWritten
    (newEvents emptyWorld
       (snd (mainSummary sampleEnv mergeSortSlice "bling" "ocid1.tenancy.oc1..example"
               [report2; weirdfile; report1] emptyWorld)))
  = [ summaryHeader;
      ["ocid1.tenancy.oc1..example"; "FOCUS_REPORT1.csv"; "12345"; "2025-09-25";
       "ocid1.tenancy.oc1..example"];
      ["ocid1.tenancy.oc1..example"; "FOCUS_REPORT2.csv"; "500"; "2025-09-20";
       "ocid1.tenancy.oc1..example"] ].
Proof. vm_compute. reflexivity. Qed.

(** ** [main]: what the setup hands on *)

Lemma mainSetup_spec env fuel flags w0 l w1 :
  mainSetup env fuel flags w0 = (Some (Ok l), w1) ->
  exists w tenancy,
    (w = w0 \/ w = record (EvLog LogWorkersLimited) w0) /\
    env_newClient env (history w) = None /\
    env_tenancy env (history w ++ [EvNewClient None]) = Ok tenancy /\
    listedBucketName l = tenancy /\
    listedNamespace l = "bling" /\
    1 <= MaxWorkers (listedConfig l) <= 16 /\
    DownloadFolder (listedConfig l) = DownloadFolder flags /\
    Days (listedConfig l) = Days flags /\
    ReportFile (listedConfig l) = ReportFile flags /\
    exists wl,
      history wl = history w ++ [EvNewClient None; EvTenancyOCID (Ok tenancy)]
                   ++ (if String.eqb (DownloadFolder flags) "" then []
                       else [EvMkdirAll (DownloadFolder flags) None]) /\
      files wl = files w0 /\
      listAllFocusReports env fuel "bling" tenancy (Days flags) wl
      = (Some (Ok (listedObjects l)), w1).
Proof.
  unfold mainSetup. unfold mbind at 1. unfold IO_bind at 1.
  set (config0 := if MaxWorkers flags <? 1 then withMaxWorkers flags 1 else flags).
  assert (H0 : 1 <= MaxWorkers config0 /\ DownloadFolder config0 = DownloadFolder flags /\
               Days config0 = Days flags /\ ReportFile config0 = ReportFile flags).
  { unfold config0. destruct (Z.ltb_spec (MaxWorkers flags) 1); cbn; repeat split; lia. }
  destruct H0 as (Hmin & Hfolder0 & Hdays0 & Hreport0).
  set (clamp := (if MaxWorkers config0 >? 16
                 then _ ← Log LogWorkersLimited; mret (withMaxWorkers config0 16)
                 else mret config0) w0).
  assert (Hclamp : exists config w,
            clamp = (config, w) /\
            (w = w0 \/ w = record (EvLog LogWorkersLimited) w0) /\
            1 <= MaxWorkers config <= 16 /\
            DownloadFolder config = DownloadFolder flags /\
            Days config = Days flags /\ ReportFile config = ReportFile flags).
  { unfold clamp. destruct (Z.gtb_spec (MaxWorkers config0) 16).
    - exists (withMaxWorkers config0 16), (record (EvLog LogWorkersLimited) w0).
      cbn. repeat split; auto; lia.
    - exists config0, w0. repeat split; auto; lia. }
  destruct Hclamp as (config & w & -> & Hw & Hworkers & Hfolder & Hdays & Hreport).
  unfold mbind at 1, IO_bind at 1, NewClient.
  destruct (env_newClient env (history w)) as [e|] eqn:Hclient; [discriminate|].
  unfold mbind at 1, IO_bind at 1, TenancyOCID.
  change (history (record (EvNewClient None) w)) with (history w ++ [EvNewClient None]).
  destruct (env_tenancy env (history w ++ [EvNewClient None])) as [tenancy|e] eqn:Hten;
    [|discriminate].
  unfold mbind at 1, IO_bind at 1.
  rewrite Hfolder, Hdays.
  set (w2 := record (EvTenancyOCID (Ok tenancy)) (record (EvNewClient None) w)).
  set (mk := (if String.eqb (DownloadFolder flags) "" then mret None
              else MkdirAll env (DownloadFolder flags)) w2).
  assert (Hmk : exists made wl,
            mk = (made, wl) /\
            (made = None ->
             history wl = history w ++ [EvNewClient None; EvTenancyOCID (Ok tenancy)]
                          ++ (if String.eqb (DownloadFolder flags) "" then []
                              else [EvMkdirAll (DownloadFolder flags) None]) /\
             files wl = files w)).
  { unfold mk. destruct (String.eqb (DownloadFolder flags) "").
    - exists None, w2. split; [reflexivity|]. intros _. unfold w2, record. cbn.
      rewrite <- !app_assoc. split; reflexivity.
    - unfold MkdirAll. eexists. eexists. split; [reflexivity|]. intros ->.
      unfold w2, record. cbn. rewrite <- !app_assoc. split; reflexivity. }
  destruct Hmk as (made & wl & -> & Hwl).
  destruct made as [e|]; [discriminate|]. destruct (Hwl eq_refl) as [Hhist Hfiles].
  unfold mbind at 1, IO_bind at 1.
  destruct (listAllFocusReports env fuel "bling" tenancy (Days flags) wl)
    as [[[objects|e]|] w3] eqn:Hlist; try discriminate.
  intros H. inversion H. subst l w3. cbn.
  exists w, tenancy. repeat split; auto; try lia.
  exists wl. split; [exact Hhist|]. split; [|exact Hlist].
  rewrite Hfiles. destruct Hw as [->| ->]; reflexivity.
Qed.

Lemma listAllFocusReports_history env fuel ns b days w :
  exists evs,
    history (snd (listAllFocusReports env fuel ns b days w))
    = history w ++ EvNow (env_now env (history w)) :: evs /\
    files (snd (listAllFocusReports env fuel ns b days w)) = files w /\
    listingOutcome fuel (time.AddDate (env_now env (history w)) 0 0 (- days)) []
      (fst (listAllFocusReports env fuel ns b days w)) evs.
Proof.
  unfold listAllFocusReports, mbind, IO_bind, Now.
  destruct (listPages_spec env ns b
              (time.AddDate (env_now env (history w)) 0 0 (- days)) fuel None []
              (record (EvNow (env_now env (history w))) w))
    as (Hfiles & evs & Hhist & Hout).
  exists evs. split; [|split; assumption].
  rewrite Hhist. cbn. rewrite <- app_assoc. reflexivity.
Qed.

Lemma mainSetup_tenancy env fuel flags w0 l w1 :
  mainSetup env fuel flags w0 = (Some (Ok l), w1) ->
  In (EvTenancyOCID (Ok (listedBucketName l))) (newEvents w0 w1).
Proof.
  intros H.
  destruct (mainSetup_spec _ _ _ _ _ _ H)
    as (w & tenancy & Hw & _ & _ & -> & _ & _ & _ & _ & _ & wl & Hwl & _ & Hlist).
  destruct (listAllFocusReports_history env fuel "bling" tenancy (Days flags) wl)
    as (evs & Hhist & _).
  rewrite Hlist in Hhist. cbn [snd] in Hhist.
  assert (Hw0 : exists pre, history w = history w0 ++ pre).
  { destruct Hw as [->| ->]; [exists []; rewrite app_nil_r; reflexivity|].
    eexists. reflexivity. }
  destruct Hw0 as [pre Hpre].
  erewrite newEvents_app.
  2:{ rewrite Hhist, Hwl, Hpre, <- !app_assoc. reflexivity. }
  apply in_or_app. right. cbn. auto.
Qed.

(** The rows of the summary carry the bucket name in the first and
    in the last column. *)
Lemma summary_rows_columns env sortSlice ns b objects w file rec :
  In (file, rec)
     (recordsWritten (newEvents w (snd (mainSummary env sortSlice ns b objects w)))) ->
  file = summaryFile /\
  (rec = summaryHeader \/
   exists name size date, rec = [b; name; size; date; b]).
Proof.
  destruct (mainSummary_spec env sortSlice ns b objects w) as (heads & _ & Hspec).
  cbv zeta in Hspec.
  destruct Hspec as [(e & _ & Hevs)|(_ & writes & Hevs & Hrec & _)]; rewrite Hevs.
  - rewrite recordsWritten_app, headEvents_no_records. intros [].
  - change (headEvents ns b (zip (omap Name objects) heads)
            ++ EvCreate summaryFile None :: writes)
      with (headEvents ns b (zip (omap Name objects) heads)
            ++ [EvCreate summaryFile None] ++ writes).
    rewrite !recordsWritten_app, headEvents_no_records, Hrec. cbn [app recordsWritten omap list_omap].
    intros [H|H].
    + inversion H. auto.
    + apply in_map_iff in H as (r & Heq & _). inversion Heq.
      split; [reflexivity|]. right. unfold summaryRecord. eauto.
Qed.

(** C10.  In every run of [main] that ends normally, the bucket name
    the listing and the summary use is the tenancy OCID read from the
    configuration, and every row of the summary, the header apart,
    has that one value both in the [bucket_name] column and in the
    [tenancy_ocid] column. *)
Theorem bucket_is_tenancy env Join sortSlice fuel flags w0 exit w' :
  mainExec env Join sortSlice fuel flags w0 exit w' ->
  exit = Done ->
  exists l w1 wS,
    mainSetup env fuel flags w0 = (Some (Ok l), w1) /\
    In (EvTenancyOCID (Ok (listedBucketName l))) (newEvents w0 w1) /\
    mainSummary env sortSlice (listedNamespace l) (listedBucketName l)
      (listedObjects l) wS = (Done, w') /\
    forall file rec,
      In (file, rec) (recordsWritten (newEvents wS w')) ->
      file = summaryFile /\
      (rec = summaryHeader \/
       exists name size date,
         rec = [listedBucketName l; name; size; date; listedBucketName l] /\
         nth 0 rec "" = nth 4 rec "").
Proof.
  intros Hexec ->.
  assert (Hcols : forall l wS,
    mainSummary env sortSlice (listedNamespace l) (listedBucketName l)
      (listedObjects l) wS = (Done, w') ->
    forall file rec,
      In (file, rec) (recordsWritten (newEvents wS w')) ->
      file = summaryFile /\
      (rec = summaryHeader \/
       exists name size date,
         rec = [listedBucketName l; name; size; date; listedBucketName l] /\
         nth 0 rec "" = nth 4 rec "")).
  { intros l wS Hsum file rec Hin.
    pose proof (summary_rows_columns env sortSlice (listedNamespace l)
                  (listedBucketName l) (listedObjects l) wS file rec) as H.
    rewrite Hsum in H. cbn [snd] in H.
    destruct (H Hin) as [Hf [Hh|(name & size & date & Hr)]]; split; auto.
    right. exists name, size, date. subst rec. split; reflexivity. }
  inversion Hexec as [msg w1 Hsetup|l w1 exit' w2 Hsetup Hfolder Hsum
                      |l w1 p err w2 exit' w3 Hsetup Hfolder Hsteps Hdone Hwrite Hrest];
    subst.
  - exists l, w1, w1. split; [exact Hsetup|].
    split; [eapply mainSetup_tenancy; exact Hsetup|].
    split; [exact Hsum|]. apply Hcols. exact Hsum.
  - destruct err as [e|]; [destruct Hrest as [Hx _]; discriminate|].
    exists l, w1, w2. split; [exact Hsetup|].
    split; [eapply mainSetup_tenancy; exact Hsetup|].
    split; [exact Hrest|]. apply Hcols. exact Hrest.
Qed.

Lemma bucket_is_tenancy_witness :
  exists w' l wS,
    listedBucketName l = "ocid1.tenancy.oc1..example" /\
    mainSummary sampleEnv mergeSortSlice (listedNamespace l) (listedBucketName l)
      (listedObjects l) wS = (Done, w') /\
    forall file rec,
      In (file, rec) (recordsWritten (newEvents wS w')) ->
      file = summaryFile /\
      (rec = summaryHeader \/
       exists name size date,
         rec = [listedBucketName l; name; size; date; listedBucketName l] /\
         nth 0 rec "" = nth 4 rec "").
Proof.
  assert (Hexec : exists w', mainExec sampleEnv joinSlash mergeSortSlice 1 listingOnly
                               emptyWorld Done w').
  { eexists. eapply main_listing_only.
    - vm_compute. reflexivity.
    - reflexivity.
    - vm_compute. reflexivity. }
  destruct Hexec as [w' Hexec].
  destruct (bucket_is_tenancy sampleEnv joinSlash mergeSortSlice 1 listingOnly
              emptyWorld Done w' Hexec eq_refl)
    as (l & w1 & wS & Hsetup & _ & Hsum & Hrows).
  exists w', l, wS. split; [|split; assumption].
  vm_compute in Hsetup. inversion Hsetup. reflexivity.
Defined.

(** ** C8: a failed size lookup *)

Lemma sizeEvents_head job head ns b o r :
  In (EvHeadObject ns b o r) (sizeEvents job head) ->
  r = head /\ o = ObjectName job /\ ns = Namespace job /\ b = BucketName job.
Proof.
  unfold sizeEvents. intros [H|H].
  - inversion H. auto.
  - destruct (sizeOfHead (ObjectName job) head); cbn in H; [tauto|].
    destruct H as [H|[]]. discriminate.
Qed.

Lemma sizeEvents_warning job head msg :
  sizeOfHead (ObjectName job) head = Err msg ->
  In (EvLog (LogSizeWarning (ObjectName job) msg)) (sizeEvents job head).
Proof. intros H. unfold sizeEvents. rewrite H. cbn. auto. Qed.

Lemma branchEvents_no_head job filePath br ns b o r :
  ~ In (EvHeadObject ns b o r) (branchEvents job filePath br).
Proof. intros H. destruct br; cbn in H; in_events H. Qed.

Lemma headEvents_in ns b named e :
  In e (headEvents ns b named) <->
  exists name head, In (name, head) named /\ In e (sizeEvents (mkJob name ns b) head).
Proof.
  unfold headEvents. rewrite in_concat. split.
  - intros (l & Hl & He). apply list_elem_of_In, list_elem_of_fmap in Hl
      as ([name head] & -> & Hin).
    exists name, head. rewrite <- list_elem_of_In at 1. auto.
  - intros (name & head & Hin & He).
    exists (sizeEvents (mkJob name ns b) head). split; [|exact He].
    apply list_elem_of_In, list_elem_of_fmap. exists (name, head).
    rewrite list_elem_of_In. auto.
Qed.

Lemma datedReports_in named name head date :
  In (name, head) named -> parseDateFromName name = Ok date ->
  mkReport name (sizeOr0 name head) date ∈ datedReports named.
Proof.
  intros Hin Hp. unfold datedReports. apply list_elem_of_omap.
  exists (name, head). rewrite list_elem_of_In. split; [exact Hin|].
  unfold datedReport. cbn [fst snd]. rewrite Hp. reflexivity.
Qed.

Lemma mainSetup_fatal env fuel flags w0 msg w1 :
  mainSetup env fuel flags w0 = (Some (Err msg), w1) -> fatalMessage msg.
Proof.
  unfold mainSetup, fatalMessage. unfold mbind at 1. unfold IO_bind at 1.
  match goal with
  | |- context [(if ?c then ?a else ?b) w0] =>
      destruct ((if c then a else b) w0) as [config w]
  end.
  unfold mbind at 1, IO_bind at 1, NewClient.
  destruct (env_newClient env (history w)) as [e|].
  { intros H. inversion H. left. eauto. }
  unfold mbind at 1, IO_bind at 1, TenancyOCID.
  match goal with
  | |- context [env_tenancy env ?h] => destruct (env_tenancy env h) as [tenancy|e]
  end.
  2:{ intros H. inversion H. right. left. eauto. }
  unfold mbind at 1, IO_bind at 1.
  match goal with
  | |- context [(if ?c then ?a else ?b) ?w2] =>
      destruct ((if c then a else b) w2) as [[e|] wl]
  end.
  { intros H. inversion H. right. right. left. eauto. }
  unfold mbind at 1, IO_bind at 1.
  destruct (listAllFocusReports_history env fuel "bling" tenancy (Days config) wl)
    as (evs & _ & _ & pages & _ & Hout).
  destruct (listAllFocusReports env fuel "bling" tenancy (Days config) wl)
    as [[[objects|e]|] w3]; try discriminate.
  cbn [fst] in Hout. destruct Hout as (e' & _ & -> & _).
  intros H. inversion H. right. right. right. left. eauto.
Qed.

Lemma mainSummary_fatal env sortSlice ns b objects w m :
  fst (mainSummary env sortSlice ns b objects w) = Fatal m -> fatalMessage m.
Proof.
  destruct (mainSummary_spec env sortSlice ns b objects w) as (heads & _ & Hspec).
  cbv zeta in Hspec.
  destruct Hspec as [(e & -> & _)|(-> & _)]; [|discriminate].
  intros H. inversion H. unfold fatalMessage. do 5 right. eauto.
Qed.

Lemma mainExec_fatal env Join sortSlice fuel flags w0 exit w' m :
  mainExec env Join sortSlice fuel flags w0 exit w' -> exit = Fatal m -> fatalMessage m.
Proof.
  intros Hexec ->. inversion Hexec as
    [msg w1 Hsetup|l w1 exit w2 Hsetup Hfolder Hsum
    |l w1 p err w2 exit w3 Hsetup Hfolder Hsteps Hdone Hreport Hexit]; subst.
  - eapply mainSetup_fatal. exact Hsetup.
  - eapply (mainSummary_fatal env sortSlice). rewrite Hsum. reflexivity.
  - destruct err as [e|].
    + destruct Hexit as [Hexit _]. inversion Hexit.
      unfold fatalMessage. do 4 right. left. eauto.
    + eapply (mainSummary_fatal env sortSlice). rewrite Hexit. reflexivity.
Qed.

Lemma mainSummary_heads env sortSlice ns b objects w name r msg :
  sortsSlices sortSlice ->
  let out := mainSummary env sortSlice ns b objects w in
  In (EvHeadObject ns b name r) (newEvents w (snd out)) ->
  sizeOfHead name r = Err msg ->
  In (EvLog (LogSizeWarning name msg)) (newEvents w (snd out)) /\
  forall date,
    parseDateFromName name = Ok date -> fst out = Done ->
    In (summaryFile, [b; path.Base name; "0"; time.FormatISO date; b])
       (recordsWritten (newEvents w (snd out))).
Proof.
  intros Hsort out Hin Hsize.
  destruct (mainSummary_spec env sortSlice ns b objects w) as (heads & _ & Hspec).
  cbv zeta in Hspec. fold out in Hspec.
  set (named := zip (omap Name objects) heads) in *.
  assert (Hhead : In (EvHeadObject ns b name r) (headEvents ns b named)).
  { destruct Hspec as [(e & _ & Hevs)|(_ & writes & Hevs & _ & Hall)];
      rewrite Hevs in Hin; apply in_app_or in Hin as [Hin|Hin]; try exact Hin.
    - in_events Hin.
    - destruct Hin as [Hin|Hin]; [discriminate|].
      rewrite List.Forall_forall in Hall.
      destruct (Hall _ Hin) as (rec & err & Heq). discriminate. }
  apply headEvents_in in Hhead as (name' & head & Hnamed & Hev).
  apply sizeEvents_head in Hev as (-> & -> & _). cbn [ObjectName] in *.
  assert (Hlog : In (EvLog (LogSizeWarning name' msg)) (headEvents ns b named)).
  { apply headEvents_in. exists name', head. split; [exact Hnamed|].
    apply (sizeEvents_warning (mkJob name' ns b)). exact Hsize. }
  split.
  - destruct Hspec as [(e & _ & Hevs)|(_ & writes & Hevs & _)];
      rewrite Hevs; apply in_or_app; left; exact Hlog.
  - intros date Hdate Hdone.
    destruct Hspec as [(e & Hfatal & _)|(_ & writes & Hevs & Hrec & _)]; [congruence|].
    rewrite Hevs.
    change (headEvents ns b named ++ EvCreate summaryFile None :: writes)
      with (headEvents ns b named ++ [EvCreate summaryFile None] ++ writes).
    rewrite !recordsWritten_app, headEvents_no_records, Hrec.
    cbn [app recordsWritten omap list_omap]. right.
    destruct (Hsort laterFirst (datedReports named) laterFirst_strictWeakOrder)
      as [Hperm _].
    apply list_elem_of_In, list_elem_of_fmap.
    exists (mkReport name' (sizeOr0 name' head) date). split.
    + unfold summaryRecord, sizeOr0. rewrite Hsize. reflexivity.
    + rewrite Hperm. apply datedReports_in; assumption.
Qed.

(** C8.  A failed size lookup is replaced by size 0 with a warning,
    and nothing stops.  In a download: the warning is logged, the
    result is that of the branch taken starting from size 0 (only a
    finished copy puts the number of copied bytes in its place), and
    the branch is decided by the file check, the fetch, the creation
    and the copy, as after a successful lookup.  In the summary: the
    warning is logged and, when the name has a date and the summary
    is written, the object's row is there with size 0.  And whenever
    [main] ends through [log.Fatalf], the message is one of those of
    the client, the tenancy, the folder, the listing, the operation
    report or the creation of the summary file. *)
Theorem size_failure_tolerated env Join sortSlice :
  sortsSlices sortSlice ->
  (forall job folder w msg,
     let now := env_now env (history w) in
     let head := env_head env (history w ++ [EvNow now])
                   (Namespace job) (BucketName job) (ObjectName job) in
     let filePath := Join folder (prefixedFilenameOf (ObjectName job)) in
     let out := downloadSingleFile env Join job folder w in
     sizeOfHead (ObjectName job) head = Err msg ->
     In (EvLog (LogSizeWarning (ObjectName job) msg)) (newEvents w (snd out)) /\
     exists br,
       fst out = branchResult
                   (mkOperationResult (prefixedFilenameOf (ObjectName job)) 0
                      (reportDateOf (ObjectName job)) "" false "" now) br /\
       branchTaken env job filePath (fileExists w filePath)
         (history w ++ [EvNow now;
                        EvHeadObject (Namespace job) (BucketName job) (ObjectName job) head;
                        EvLog (LogSizeWarning (ObjectName job) msg);
                        EvStat filePath false]) br /\
       (FileSize (fst (fst out)) = 0 \/
        Status (fst (fst out)) = "Success" /\ Downloaded (fst (fst out)) = true)) /\
  (forall namespace bucketName objects w name r msg,
     let out := mainSummary env sortSlice namespace bucketName objects w in
     In (EvHeadObject namespace bucketName name r) (newEvents w (snd out)) ->
     sizeOfHead name r = Err msg ->
     In (EvLog (LogSizeWarning name msg)) (newEvents w (snd out)) /\
     forall date,
       parseDateFromName name = Ok date -> fst out = Done ->
       In (summaryFile,
           [bucketName; path.Base name; "0"; time.FormatISO date; bucketName])
          (recordsWritten (newEvents w (snd out)))) /\
  (forall fuel flags w0 exit w' m,
     mainExec env Join sortSlice fuel flags w0 exit w' ->
     exit = Fatal m -> fatalMessage m).
Proof.
  intros Hsort. split; [|split].
  - intros job folder w msg now head filePath out Hsize.
    destruct (downloadSingleFile_outcome env Join job folder w)
      as (br & Hres & _ & Hevs & _ & Hbr).
    cbv zeta in Hres, Hevs, Hbr. fold now in Hres, Hevs, Hbr.
    fold head in Hres, Hevs, Hbr. fold filePath in Hbr. fold out in Hres, Hevs.
    split.
    { rewrite Hevs. right. apply in_or_app. left.
      apply sizeEvents_warning. exact Hsize. }
    exists br.
    assert (H0 : sizeOr0 (ObjectName job) head = 0).
    { unfold sizeOr0. rewrite Hsize. reflexivity. }
    rewrite H0 in Hres.
    assert (Hse : sizeEvents job head
                  = [EvHeadObject (Namespace job) (BucketName job) (ObjectName job) head;
                     EvLog (LogSizeWarning (ObjectName job) msg)]).
    { unfold sizeEvents. rewrite Hsize. reflexivity. }
    rewrite Hse in Hbr.
    split; [exact Hres|]. split; [exact Hbr|].
    rewrite Hres. destruct br; cbn; auto.
  - intros ns b objects w name r msg out Hin Hsize.
    exact (mainSummary_heads env sortSlice ns b objects w name r msg Hsort Hin Hsize).
  - intros fuel flags w0 exit w' m Hexec Hexit.
    exact (mainExec_fatal _ _ _ _ _ _ _ _ _ Hexec Hexit).
Qed.

Lemma size_failure_tolerated_witness :
  sortsSlices mergeSortSlice /\
  (let out := downloadSingleFile offlineEnv joinSlash sampleJob "downloads" emptyWorld in
   In (EvLog (LogSizeWarning "a/b/2025/09/25/FOCUS_REPORT1.csv"
                "failed to get object metadata for a/b/2025/09/25/FOCUS_REPORT1.csv: timeout"))
      (newEvents emptyWorld (snd out)) /\
   FileSize (fst (fst out)) = 0) /\
  (let out := mainSummary offlineEnv mergeSortSlice "bling" "ocid1.tenancy.oc1..example"
                [report1] emptyWorld in
   In (summaryFile,
       ["ocid1.tenancy.oc1..example"; "FOCUS_REPORT1.csv"; "0"; "2025-09-25";
        "ocid1.tenancy.oc1..example"])
      (recordsWritten (newEvents emptyWorld (snd out)))).
Proof.
  destruct (size_failure_tolerated offlineEnv joinSlash mergeSortSlice
              mergeSortSlice_sorts) as (Hd & Hs & _).
  split; [exact mergeSortSlice_sorts|]. split.
  - destruct (Hd sampleJob "downloads" emptyWorld
                "failed to get object metadata for a/b/2025/09/25/FOCUS_REPORT1.csv: timeout"
                eq_refl) as (Hlog & br & Hres & Hbr & Hsize).
    split; [exact Hlog|].
    destruct Hsize as [H|[H _]]; [exact H|]. vm_compute in H. discriminate.
  - assert (Hp : parseDateFromName "a/b/2025/09/25/FOCUS_REPORT1.csv"
                 = Ok (time.Date 2025 9 25 0 0 0 0 time.UTC))
      by (vm_compute; reflexivity).
    destruct (Hs "bling" "ocid1.tenancy.oc1..example" [report1] emptyWorld
                "a/b/2025/09/25/FOCUS_REPORT1.csv" (Err "timeout")
                "failed to get object metadata for a/b/2025/09/25/FOCUS_REPORT1.csv: timeout")
      as [_ Hrow].
    + vm_compute. left. reflexivity.
    + reflexivity.
    + pose proof (Hrow _ Hp eq_refl) as H. vm_compute in H |- *. exact H.
Defined.

(** The size 0 gives way to the number of bytes copied when the
    download succeeds. *)
Example size_failure_then_success :
  let out := downloadSingleFile headlessEnv joinSlash sampleJob "downloads" emptyWorld in
  In (EvLog (LogSizeWarning "a/b/2025/09/25/FOCUS_REPORT1.csv"
               "failed to get object metadata for a/b/2025/09/25/FOCUS_REPORT1.csv: timeout"))
     (newEvents emptyWorld (snd out)) /\
  Status (fst (fst out)) = "Success" /\ FileSize (fst (fst out)) = 12345.
Proof. vm_compute. intuition. Qed.

(** ** C9: the jobs of [main] all carry a date *)

Lemma digits_startsNumeric fuel : forall u acc,
  0 <= u -> (fuel <> 0%nat \/ startsNumeric acc = true) ->
  startsNumeric (fmt.digits fuel u acc) = true.
Proof.
  induction fuel as [|fuel IH]; intros u acc Hu Hor.
  { destruct Hor as [H|H]; [congruence|exact H]. }
  cbn [fmt.digits].
  assert (Hd : startsNumeric (String (ascii_of_nat (Z.to_nat (48 + u mod 10))) acc) = true).
  { assert (Hall : forallb (fun d => numeric (ascii_of_nat (Z.to_nat (48 + d))))
                     (zrange 0 10) = true) by (vm_compute; reflexivity).
    apply (forallb_zrange _ 0 10 (u mod 10) Hall).
    pose proof (Z.mod_pos_bound u 10). lia. }
  destruct (u <? 10); [exact Hd|].
  apply IH; [apply Z.div_pos; lia|]. right. exact Hd.
Qed.

Lemma startsNumeric_app s rest :
  startsNumeric s = true -> startsNumeric (s +:+ rest) = true.
Proof. destruct s; [discriminate|]. intros H. exact H. Qed.

Lemma appendInt_startsNumeric x width : startsNumeric (time.appendInt x width) = true.
Proof.
  unfold time.appendInt.
  destruct (x <? 0); [reflexivity|].
  change (("" +:+ ?s)%string) with s.
  assert (Hu : startsNumeric (fmt.utoa (Z.abs x)) = true).
  { apply digits_startsNumeric; [lia|]. left. discriminate. }
  destruct (width - String.length (fmt.utoa (Z.abs x)))%nat; [exact Hu|reflexivity].
Qed.

Lemma startsNumeric_known s :
  startsNumeric s = true ->
  s <> "unknown" /\ strings.HasPrefix s "unknown_date_" = false.
Proof.
  destruct s as [|c s]; [discriminate|]. cbn [startsNumeric]. intros Hc. split.
  - intros H. inversion H. subst c. vm_compute in Hc. discriminate.
  - cbn [strings.HasPrefix]. destruct (Ascii.eqb_spec c "u") as [->|_]; [|reflexivity].
    vm_compute in Hc. discriminate.
Qed.

Lemma FormatISO_startsNumeric t : startsNumeric (time.FormatISO t) = true.
Proof.
  unfold time.FormatISO. destruct (time.dateOf t) as [[y m] d].
  apply startsNumeric_app, appendInt_startsNumeric.
Qed.

Lemma FormatCompact_startsNumeric t : startsNumeric (time.FormatCompact t) = true.
Proof.
  unfold time.FormatCompact. destruct (time.dateOf t) as [[y m] d].
  apply startsNumeric_app, appendInt_startsNumeric.
Qed.

(** [Format("2006-01-02")] of a date of the years 0..9999. *)
Lemma FormatISO_YYYY_MM_DD t y m d :
  time.dateOf t = (y, m, d) -> 0 <= y <= 9999 ->
  time.FormatISO t
  = (fourDigits y +:+ "-" +:+ twoDigits m +:+ "-" +:+ twoDigits d)%string.
Proof.
  intros Hd Hy. pose proof (dateOf_valid t y m d Hd) as Hv.
  pose proof (validDate_day_le_31 _ _ _ Hv). destruct Hv as [Hm _].
  unfold time.FormatISO. rewrite Hd.
  rewrite appendInt_fourDigits, !appendInt_twoDigits by lia. reflexivity.
Qed.

Lemma ReportDate_branchResult base br :
  ReportDate (fst (branchResult base br)) = ReportDate base.
Proof. destruct br; reflexivity. Qed.

Lemma downloadSingleFile_ReportDate env Join job folder w :
  ReportDate (fst (fst (downloadSingleFile env Join job folder w)))
  = reportDateOf (ObjectName job).
Proof.
  destruct (downloadSingleFile_outcome env Join job folder w) as (br & Hres & _).
  cbv zeta in Hres. rewrite Hres, ReportDate_branchResult. reflexivity.
Qed.

Lemma jobsFor_in ns b objects job :
  In job (jobsFor ns b objects) <->
  exists obj, In obj objects /\ Name obj = Some (ObjectName job) /\
              Namespace job = ns /\ BucketName job = b.
Proof.
  unfold jobsFor. rewrite <- list_elem_of_In, list_elem_of_omap. split.
  - intros (obj & Hin & Hjob). exists obj. rewrite <- list_elem_of_In.
    destruct (Name obj) as [name|]; [|discriminate].
    cbn in Hjob. inversion Hjob. auto.
  - intros (obj & Hin & Hname & <- & <-). exists obj.
    rewrite list_elem_of_In. split; [exact Hin|].
    rewrite Hname. destruct job; reflexivity.
Qed.

(** What the setup leaves in the list: objects that passed the filter
    of the lister, for the cutoff taken from the clock reading of that
    listing. *)
Lemma mainSetup_selected env fuel flags w0 l w1 :
  mainSetup env fuel flags w0 = (Some (Ok l), w1) ->
  exists now,
    In (EvNow now) (newEvents w0 w1) /\
    forall obj, In obj (listedObjects l) ->
      selected (time.AddDate now 0 0 (- Days flags)) obj = true.
Proof.
  intros H.
  destruct (mainSetup_spec _ _ _ _ _ _ H)
    as (w & tenancy & Hw & _ & _ & _ & _ & _ & _ & _ & _ & wl & Hwl & _ & Hlist).
  destruct (listAllFocusReports_history env fuel "bling" tenancy (Days flags) wl)
    as (evs & Hhist & _ & Hout).
  rewrite Hlist in Hhist, Hout. cbn [fst snd] in Hhist, Hout.
  remember (env_now env (history wl)) as now eqn:Hnow.
  exists now. split.
  - assert (Hw0 : exists pre, history w = history w0 ++ pre).
    { destruct Hw as [->| ->]; [exists []; rewrite app_nil_r; reflexivity|].
      eexists. reflexivity. }
    destruct Hw0 as [pre Hpre].
    erewrite newEvents_app.
    2:{ rewrite Hhist, Hwl, Hpre, <- !app_assoc. reflexivity. }
    apply in_or_app. right. apply in_or_app. right. apply in_or_app. right.
    left. reflexivity.
  - destruct Hout as (pages & _ & _ & -> & _). cbn [app].
    intros obj Hin. apply filter_In in Hin as [_ Hsel]. exact Hsel.
Qed.

(** C9, as amended.  In the download phase of [main] (the pool is
    started on the jobs made from the objects the setup has listed):
    every job comes from a listed object, which passed the filter of
    the lister for the cutoff of that listing; and in every state the
    pool reaches, every result produced so far belongs to one of
    these jobs, the date of its object name can be extracted, its
    report date is that date in the layout [2006-01-02] and is not
    [unknown], and its file name is the date in the layout
    [20060102], an underscore and the base name, and does not begin
    with [unknown_date_].  For the years 0..9999, and not for other
    years, these are [YYYY-MM-DD] and [YYYYMMDD_] in digits. *)
Theorem unknown_date_unreachable env Join fuel flags w0 l w1 p :
  mainSetup env fuel flags w0 = (Some (Ok l), w1) ->
  let js := jobsFor (listedNamespace l) (listedBucketName l) (listedObjects l) in
  steps env Join (listedConfig l) (startPool (listedConfig l) js w1) p ->
  (exists now,
     In (EvNow now) (newEvents w0 w1) /\
     forall job, In job js ->
       exists obj, In obj (listedObjects l) /\ Name obj = Some (ObjectName job) /\
                   selected (time.AddDate now 0 0 (- Days flags)) obj = true) /\
  forall r, In r (allResults p) ->
    let name := ObjectName (Result_Job r) in
    In (Result_Job r) js /\
    exists date,
      parseDateFromName name = Ok date /\
      ReportDate (Result_Result r) = time.FormatISO date /\
      ReportDate (Result_Result r) <> "unknown" /\
      FileName (Result_Result r)
        = ((formatDateForFilename date +:+ "_") +:+ path.Base name)%string /\
      strings.HasPrefix (FileName (Result_Result r)) "unknown_date_" = false /\
      forall y m d,
        time.dateOf date = (y, m, d) -> 0 <= y <= 9999 ->
        ReportDate (Result_Result r)
          = (fourDigits y +:+ "-" +:+ twoDigits m +:+ "-" +:+ twoDigits d)%string /\
        FileName (Result_Result r)
          = (((fourDigits y +:+ twoDigits m +:+ twoDigits d) +:+ "_")
             +:+ path.Base name)%string.
Proof.
  intros Hsetup js Hsteps.
  destruct (mainSetup_selected _ _ _ _ _ _ Hsetup) as (now & Hnow & Hsel).
  assert (Hjobs : forall job, In job js ->
            exists obj, In obj (listedObjects l) /\ Name obj = Some (ObjectName job) /\
                        selected (time.AddDate now 0 0 (- Days flags)) obj = true).
  { intros job Hjob. apply jobsFor_in in Hjob as (obj & Hin & Hname & _).
    exists obj. auto. }
  split; [exists now; split; assumption|].
  intros r Hr name.
  pose (Pr := fun r : Result =>
          In (Result_Job r) js /\
          FileName (Result_Result r) = prefixedFilenameOf (ObjectName (Result_Job r)) /\
          ReportDate (Result_Result r) = reportDateOf (ObjectName (Result_Job r))).
  assert (HPr : Pr r).
  { refine (proj2 (pool_results_invariant env Join (listedConfig l) js
                     (fun _ => True) Pr w1 _ _ I p Hsteps) r _).
    - intros job w Hjob _. split; [|exact I]. unfold Pr.
      rewrite processJob_job.
      destruct (processJob_result env Join (DownloadFolder (listedConfig l)) job w)
        as [-> _].
      rewrite downloadSingleFile_FileName, downloadSingleFile_ReportDate.
      split; [apply list_elem_of_In; exact Hjob|]. split; reflexivity.
    - intros; exact I.
    - apply list_elem_of_In. exact Hr. }
  destruct HPr as (Hjob & Hfile & Hdate). fold name in Hfile, Hdate.
  split; [exact Hjob|].
  destruct (Hjobs _ Hjob) as (obj & _ & Hname & Hselected).
  unfold selected in Hselected. rewrite Hname in Hselected. fold name in Hselected.
  apply andb_true_iff in Hselected as [_ Hparse].
  unfold prefixedFilenameOf in Hfile. unfold reportDateOf in Hdate.
  destruct (parseDateFromName name) as [date|e]; [|discriminate].
  exists date. split; [reflexivity|]. split; [exact Hdate|].
  split; [rewrite Hdate; apply startsNumeric_known, FormatISO_startsNumeric|].
  split; [exact Hfile|].
  split.
  { rewrite Hfile. apply startsNumeric_known.
    apply startsNumeric_app, startsNumeric_app. apply FormatCompact_startsNumeric. }
  intros y m d Hd Hy. split.
  - rewrite Hdate. apply FormatISO_YYYY_MM_DD; assumption.
  - rewrite Hfile. unfold formatDateForFilename.
    rewrite (FormatCompact_YYYYMMDD date y m d) by assumption. reflexivity.
Qed.

Lemma unknown_date_unreachable_witness :
  let w1 := snd (mainSetup sampleEnv 1 sampleConfig emptyWorld) in
  mainSetup sampleEnv 1 sampleConfig emptyWorld = (Some (Ok sampleListed), w1) /\
  exists p r,
    steps sampleEnv joinSlash sampleConfig (startPool sampleConfig [sampleJob] w1) p /\
    collectorDone p = true /\
    In r (allResults p) /\
    ReportDate (Result_Result r) = "2025-09-25" /\
    FileName (Result_Result r) = "20250925_FOCUS_REPORT1.csv".
Proof.
  intros w1.
  assert (Hsetup : mainSetup sampleEnv 1 sampleConfig emptyWorld
                   = (Some (Ok sampleListed), w1)) by (vm_compute; reflexivity).
  split; [exact Hsetup|].
  assert (Hn : 1 <= MaxWorkers sampleConfig) by (cbn; lia).
  destruct (pool_terminates sampleEnv joinSlash sampleConfig [sampleJob] _
              (startPool_inv sampleConfig [sampleJob] w1) Hn)
    as (p & Hrun & Hdone).
  destruct (single_job_result [sampleJob] _ p sampleJob
              (steps_inv _ _ _ _ _ _ Hrun) ltac:(cbn; lia) Hdone eq_refl)
    as (r & _ & Hjob & Hin).
  apply list_elem_of_In in Hin.
  exists p, r. repeat (split; [assumption|]).
  destruct (unknown_date_unreachable sampleEnv joinSlash 1 sampleConfig emptyWorld
              sampleListed w1 p Hsetup Hrun) as [_ Hres].
  destruct (Hres r Hin) as (_ & date & Hp & Hd & _ & Hf & _).
  rewrite Hjob in Hp, Hf. rewrite Hd, Hf.
  vm_compute in Hp. inversion Hp. split; vm_compute; reflexivity.
Defined.

(** What every result of a pool records about its object. *)
Lemma pool_results_named env Join config js w p :
  steps env Join config (startPool config js w) p ->
  forall r, In r (allResults p) ->
    In (Result_Job r) js /\
    FileName (Result_Result r) = prefixedFilenameOf (ObjectName (Result_Job r)) /\
    ReportDate (Result_Result r) = reportDateOf (ObjectName (Result_Job r)).
Proof.
  intros Hsteps r Hr.
  refine (proj2 (pool_results_invariant env Join config js (fun _ => True)
                   (fun r => In (Result_Job r) js /\
                      FileName (Result_Result r)
                      = prefixedFilenameOf (ObjectName (Result_Job r)) /\
                      ReportDate (Result_Result r)
                      = reportDateOf (ObjectName (Result_Job r)))
                   w _ _ I p Hsteps) r _).
  - intros job w1 Hjob _. split; [|exact I].
    rewrite processJob_job.
    destruct (processJob_result env Join (DownloadFolder config) job w1) as [-> _].
    rewrite downloadSingleFile_FileName, downloadSingleFile_ReportDate.
    split; [apply list_elem_of_In; exact Hjob|]. split; reflexivity.
  - intros; exact I.
  - apply list_elem_of_In. exact Hr.
Qed.

(** C9, as stated, fails for dates outside the years 0..9999.  A
    bucket holds the object [x/12345/01/02/FOCUS.csv]; on 30 September
    2025 with a lookback of 7 days the lister returns it, since 2
    January 12345 is after the cutoff; the pool started on its job
    ends, and the one result has the report date [12345-01-02], of
    eleven characters, and the file name [123450102_FOCUS.csv], whose
    underscore comes after nine digits. *)
Lemma far_year_result :
  let w1 := snd (mainSetup farEnv 1 sampleConfig emptyWorld) in
  mainSetup farEnv 1 sampleConfig emptyWorld = (Some (Ok farListed), w1) /\
  jobsFor (listedNamespace farListed) (listedBucketName farListed)
    (listedObjects farListed) = [farJob] /\
  exists p r,
    steps farEnv joinSlash sampleConfig (startPool sampleConfig [farJob] w1) p /\
    collectorDone p = true /\
    allResults p = [r] /\
    ReportDate (Result_Result r) = "12345-01-02"%string /\
    FileName (Result_Result r) = "123450102_FOCUS.csv"%string.
Proof.
  intros w1.
  split; [vm_compute; reflexivity|]. split; [vm_compute; reflexivity|].
  assert (Hn : 1 <= MaxWorkers sampleConfig) by (cbn; lia).
  destruct (pool_terminates farEnv joinSlash sampleConfig [farJob] _
              (startPool_inv sampleConfig [farJob] w1) Hn)
    as (p & Hrun & Hdone).
  pose proof (steps_inv _ _ _ _ _ _ Hrun) as Hinv.
  destruct (single_job_result [farJob] _ p farJob Hinv ltac:(cbn; lia) Hdone eq_refl)
    as (r & Hrec & Hjob & Hin).
  destruct (finished_all_answered _ _ p Hinv ltac:(cbn; lia) Hdone) as [_ Hall].
  apply list_elem_of_In in Hin.
  exists p, r. split; [exact Hrun|]. split; [exact Hdone|].
  split; [rewrite Hall; exact Hrec|].
  destruct (pool_results_named _ _ _ _ _ _ Hrun r Hin) as (_ & Hf & Hd).
  rewrite Hjob in Hf, Hd. rewrite Hf, Hd. split; vm_compute; reflexivity.
Qed.

(** * Further properties of the code *)

(** ** The worker pool *)

Lemma workerJobs_length ws : (length (workerJobs ws) <= length ws)%nat.
Proof.
  unfold workerJobs. induction ws as [|s ws IH]; [reflexivity|].
  cbn [fmap list_fmap concat]. rewrite length_app.
  destruct s; cbn [inFlight length]; lia.
Qed.

(** X1.  The pool keeps within its bounds: in every state it can
    reach neither channel holds more than [2 * MaxWorkers] elements,
    there are exactly [MaxWorkers] workers, and so at most
    [MaxWorkers] jobs are being downloaded or waiting to be answered
    at any time. *)
Theorem pool_within_capacity env Join config js w p :
  steps env Join config (startPool config js w) p ->
  (length (jobs p) <= capacity config)%nat /\
  (length (results p) <= capacity config)%nat /\
  length (workers p) = Z.to_nat (MaxWorkers config) /\
  (length (workerJobs (workers p)) <= Z.to_nat (MaxWorkers config))%nat.
Proof.
  intros Hsteps.
  pose proof (inv_workers _ _ _ (steps_inv _ _ _ _ _ _ Hsteps)) as Hlen.
  assert (Hq : (length (jobs p) <= capacity config)%nat /\
               (length (results p) <= capacity config)%nat).
  { revert p Hsteps Hlen. intros p Hsteps _. revert p Hsteps.
    apply steps_invariant.
    - cbn. lia.
    - intros p q [Hj Hr] Hstep.
      destruct Hstep; cbn [jobs results setWorker]; rewrite ?length_app; cbn [length];
        try (split; lia).
      + rewrite H0 in Hj. cbn [length] in Hj. split; lia.
      + rewrite H in Hr. cbn [length] in Hr. split; lia. }
  destruct Hq as [Hj Hr]. repeat split; try assumption.
  rewrite <- Hlen. apply workerJobs_length.
Qed.

(** X2.  The channels are closed in order.  In every state the pool
    can reach: once the job channel is closed no job is left to
    submit; a worker has left its loop only if the job channel is
    closed and drained; once the result channel is closed every
    worker has left its loop, so that none is about to send on it;
    and the collector is done only when the result channel is closed
    and drained. *)
Theorem pool_closes_in_order env Join config js w p :
  steps env Join config (startPool config js w) p ->
  (jobsClosed p = true -> toSubmit p = []) /\
  (forall i, workers p !! i = Some Exited -> jobsClosed p = true /\ jobs p = []) /\
  (resultsClosed p = true ->
     jobsClosed p = true /\
     workerJobs (workers p) = [] /\ heldResults (workers p) = [] /\
     forall i s, workers p !! i = Some s -> s = Exited) /\
  (collectorDone p = true -> resultsClosed p = true /\ results p = []).
Proof.
  intros Hsteps.
  destruct (steps_inv _ _ _ _ _ _ Hsteps) as [_ _ Hclosed Hexited Hrc Hdone].
  split; [exact Hclosed|]. split; [exact Hexited|]. split; [|exact Hdone].
  intros H. destruct (Hrc H) as [Hjc Hall].
  split; [exact Hjc|]. split; [apply workerJobs_exited; exact Hall|].
  split; [apply heldResults_exited; exact Hall|].
  intros i s Hi. rewrite Forall_forall in Hall. apply Hall.
  eapply list_elem_of_lookup_2. exact Hi.
Qed.

Lemma single_worker (ws : list WorkerState) i s :
  length ws = 1%nat -> ws !! i = Some s -> i = 0%nat /\ ws = [s].
Proof.
  intros Hlen Hi. destruct ws as [|s0 [|s1 ws]]; try discriminate.
  destruct i as [|i]; [|discriminate]. cbn in Hi. inversion Hi. auto.
Qed.

(** X3.  With one worker the pool keeps the order of the jobs: in
    every state it can reach the jobs, read from the collected
    results back to the jobs not yet submitted, are the submitted
    list; so at the end the results are collected in the order in
    which the jobs were added. *)
Theorem single_worker_in_order env Join config js w p :
  MaxWorkers config = 1 ->
  steps env Join config (startPool config js w) p ->
  pipeline p = js /\
  (collectorDone p = true -> Result_Job <$> received p = js).
Proof.
  intros Hone Hsteps.
  pose proof (steps_inv _ _ _ _ _ _ Hsteps) as Hinv.
  assert (Hpipe : pipeline p = js).
  { revert p Hsteps Hinv. intros p Hsteps _. 
    enough (length (workers p) = 1%nat /\ pipeline p = js) by tauto.
    revert p Hsteps. apply steps_invariant.
    - unfold startPool, pipeline. rewrite Hone. split; reflexivity.
    - intros p q [Hlen Hp] Hstep. unfold pipeline in *.
      destruct Hstep;
        cbn [toSubmit jobs workers results received setWorker];
        rewrite ?length_insert; (split; [exact Hlen|]);
        try (destruct (single_worker _ _ _ Hlen H) as [-> Hws]; rewrite Hws in *;
             cbn [insert list_insert] in *);
        unfold workerJobs in *; cbn [fmap list_fmap concat inFlight app] in *.
      all: try match goal with
             | Hrun : processJob _ _ _ ?job ?w0 = (?r, _) |- _ =>
                 replace r with (fst (processJob env Join (DownloadFolder config) job
                                        w0)) by (rewrite Hrun; reflexivity);
                 cbn [inFlight]; rewrite processJob_job
             end.
      all: repeat match goal with
             | Heq : toSubmit _ = _ |- _ => try rewrite Heq in Hp; try rewrite Heq; clear Heq
             | Heq : jobs _ = _ |- _ => try rewrite Heq in Hp; try rewrite Heq; clear Heq
             | Heq : results _ = _ |- _ => try rewrite Heq in Hp; try rewrite Heq; clear Heq
             end.
      all: rewrite <- Hp, ?fmap_app, <- ?app_assoc; reflexivity. }
  split; [exact Hpipe|].
  intros Hd.
  destruct (finished_all_answered js _ p Hinv ltac:(lia) Hd) as [Hperm _].
  destruct Hinv as [_ _ Hclosed Hexited Hrc Hdone].
  destruct (Hdone Hd) as [Hr Hres]. destruct (Hrc Hr) as [Hjc Hall].
  unfold pipeline in Hpipe.
  rewrite Hres, (workerJobs_exited _ Hall), (Hclosed Hjc) in Hpipe.
  assert (Hjobs : jobs p = []).
  { destruct (workers p) as [|s ws] eqn:Hws.
    - apply Permutation_length in Hperm. rewrite <- Hpipe in Hperm.
      cbn in Hperm. rewrite !length_app in Hperm. cbn in Hperm.
      destruct (jobs p); [reflexivity|]. cbn in Hperm. rewrite length_fmap in Hperm. lia.
    - apply Forall_cons in Hall as [Hs _]. subst s. apply (Hexited 0%nat). reflexivity. }
  rewrite Hjobs in Hpipe. cbn in Hpipe. rewrite !app_nil_r in Hpipe. exact Hpipe.
Qed.

Lemma single_worker_in_order_witness :
  exists p,
    steps sampleEnv joinSlash oneWorker
      (startPool oneWorker [sampleJob; sampleJob2] emptyWorld) p /\
    collectorDone p = true /\
    Result_Job <$> received p = [sampleJob; sampleJob2].
Proof.
  assert (Hn : 1 <= MaxWorkers oneWorker) by (cbn; lia).
  destruct (pool_terminates sampleEnv joinSlash oneWorker [sampleJob; sampleJob2] _
              (startPool_inv oneWorker [sampleJob; sampleJob2] emptyWorld) Hn)
    as (p & Hrun & Hdone).
  exists p. split; [exact Hrun|]. split; [exact Hdone|].
  apply (single_worker_in_order sampleEnv joinSlash oneWorker [sampleJob; sampleJob2]
           emptyWorld p eq_refl Hrun).
  exact Hdone.
Defined.

Lemma processJob_history env Join folder job w :
  exists evs, history (snd (processJob env Join folder job w)) = history w ++ evs.
Proof.
  rewrite processJob_world. eexists. apply downloadSingleFile_history.
Qed.

Lemma processJob_error env Join folder job w err :
  Result_Error (fst (processJob env Join folder job w)) = Some err ->
  Status (Result_Result (fst (processJob env Join folder job w))) = "Failed" /\
  Error (Result_Result (fst (processJob env Join folder job w))) = err.
Proof.
  destruct (processJob_result env Join folder job w) as [-> ->].
  destruct (downloadSingleFile_outcome env Join job folder w) as (br & Hres & _).
  cbv zeta in Hres. rewrite Hres.
  destruct br; cbn; intros H; inversion H; auto.
Qed.

(** X4.  Every failure reaches the log.  In every state the pool can
    reach, a collected result that carries an error has status
    [Failed] and that error's message in its [Error] field, and the
    collector has logged the line [Failed to download] with the
    object name and the error. *)
Theorem failed_downloads_logged env Join config js w p :
  steps env Join config (startPool config js w) p ->
  exists evs,
    history (world p) = history w ++ evs /\
    forall r err, In r (received p) -> Result_Error r = Some err ->
      Status (Result_Result r) = "Failed" /\
      Error (Result_Result r) = err /\
      In (EvLog (LogDownloadFailed (ObjectName (Result_Job r)) err)) evs.
Proof.
  intros Hsteps.
  assert (Hres : forall r err, In r (received p) -> Result_Error r = Some err ->
            Status (Result_Result r) = "Failed" /\ Error (Result_Result r) = err).
  { intros r err Hin Herr.
    refine (proj2 (pool_results_invariant env Join config js (fun _ => True)
                     (fun r => forall err, Result_Error r = Some err ->
                        Status (Result_Result r) = "Failed" /\
                        Error (Result_Result r) = err)
                     w _ _ I p Hsteps) r _ err Herr).
    - intros job w1 _ _. split; [|exact I]. intros e. apply processJob_error.
    - intros; exact I.
    - unfold allResults. rewrite !elem_of_app. right. right.
      apply list_elem_of_In. exact Hin. }
  enough (exists evs, history (world p) = history w ++ evs /\
            forall r err, In r (received p) -> Result_Error r = Some err ->
              In (EvLog (LogDownloadFailed (ObjectName (Result_Job r)) err)) evs)
    as (evs & Hh & Hlog).
  { exists evs. split; [exact Hh|]. intros r err Hin Herr.
    destruct (Hres r err Hin Herr). auto. }
  clear Hres. revert p Hsteps. apply steps_invariant.
  { exists []. cbn. rewrite app_nil_r. split; [reflexivity|]. intros r err []. }
  intros p q (evs & Hh & Hlog) Hstep.
  destruct Hstep; cbn [world received setWorker]; try (exists evs; split; assumption).
  - destruct (processJob_history env Join (DownloadFolder config) job (world p))
      as [new Hnew].
    rewrite H0 in Hnew. cbn [snd] in Hnew.
    exists (evs ++ new). split; [rewrite Hnew, Hh, app_assoc; reflexivity|].
    intros r0 err Hin Herr. apply in_or_app. left. eauto.
  - destruct (Result_Error r) as [e|] eqn:He.
    + exists (evs ++ [EvLog (LogDownloadFailed (ObjectName (Result_Job r)) e)]).
      split; [cbn; rewrite Hh, app_assoc; reflexivity|].
      intros r0 err Hin Herr. apply in_or_app.
      apply in_app_or in Hin as [Hin|[<-|[]]].
      * left. eauto.
      * right. left. congruence.
    + exists evs. split; [exact Hh|].
      intros r0 err Hin Herr.
      apply in_app_or in Hin as [Hin|[<-|[]]]; [eauto|congruence].
Qed.

(** ** The per-job download *)

(** X5.  The fields of a result agree with each other, whichever
    way the download went: the status is one of the three,
    [Downloaded] is set exactly for [Success], an error is returned
    exactly for [Failed] and its message is the [Error] field, which
    is empty otherwise; [LastAttempt] is the time read when the call
    began. *)
Theorem result_fields_consistent env Join job folder w :
  let out := downloadSingleFile env Join job folder w in
  let r := fst (fst out) in
  isStatus (Status r) /\
  (Downloaded r = true <-> Status r = "Success") /\
  (forall err, snd (fst out) = Some err <-> Status r = "Failed" /\ Error r = err) /\
  (Status r <> "Failed" -> Error r = "" /\ snd (fst out) = None) /\
  LastAttempt r = env_now env (history w).
Proof.
  intros out r.
  destruct (downloadSingleFile_outcome env Join job folder w) as (br & Hres & _).
  cbv zeta in Hres. fold out in Hres. unfold r. rewrite Hres. unfold isStatus.
  destruct br; cbn; repeat split; auto; try discriminate; try tauto;
    try (intros H; inversion H; auto; fail);
    try (intros [H1 H2]; congruence).
  all: congruence.
Qed.

Lemma copy_failed_branch env Join job folder w p n e :
  In (EvCopy p n (Some e))
     (newEvents w (snd (downloadSingleFile env Join job folder w))) ->
  exists content,
    p = targetPath Join folder job /\ n = copied content /\
    fst (fst (downloadSingleFile env Join job folder w))
    = fst (branchResult
             (mkOperationResult (prefixedFilenameOf (ObjectName job))
                (sizeOr0 (ObjectName job)
                   (env_head env (history w ++ [EvNow (env_now env (history w))])
                      (Namespace job) (BucketName job) (ObjectName job)))
                (reportDateOf (ObjectName job)) "" false "" (env_now env (history w)))
             (CopyFailed content e)) /\
    files (snd (downloadSingleFile env Join job folder w))
    = <[p := Bytes (body content)]> (files w).
Proof.
  destruct (downloadSingleFile_outcome env Join job folder w)
    as (br & Hres & Hfiles & Hevs & _).
  cbv zeta in Hres, Hfiles, Hevs. rewrite Hevs, Hres, Hfiles. intros Hin.
  apply transfer_in_branch in Hin; [|reflexivity].
  destruct br; cbn in Hin; in_events Hin.
  exists content. repeat split; reflexivity.
Qed.

(** X6.  A copy that breaks off leaves its file behind.  When
    [io.Copy] fails the result is [Failed], but the file that
    [os.Create] made stays at the local path with the bytes copied so
    far; the next download of the same object into the same folder
    then finds it and answers [Already exists], without fetching
    anything, whatever the service would answer. *)
Theorem failed_copy_leaves_file env env' Join job folder w p n e :
  let out := downloadSingleFile env Join job folder w in
  In (EvCopy p n (Some e)) (newEvents w (snd out)) ->
  p = targetPath Join folder job /\
  Status (fst (fst out)) = "Failed" /\
  Error (fst (fst out)) = e /\
  (exists partial, files (snd out) !! p = Some (Bytes partial) /\
                   n = Z.of_nat (String.length partial)) /\
  let again := downloadSingleFile env' Join job folder (snd out) in
  Status (fst (fst again)) = "Already exists" /\
  Downloaded (fst (fst again)) = false /\
  snd (fst again) = None /\
  files (snd again) = files (snd out) /\
  forall e', In e' (newEvents (snd out) (snd again)) -> isTransfer e' = false.
Proof.
  intros out Hin.
  destruct (copy_failed_branch env Join job folder w p n e Hin)
    as (content & Hp & Hn & Hres & Hfiles).
  fold out in Hres, Hfiles.
  split; [exact Hp|]. split; [rewrite Hres; reflexivity|].
  split; [rewrite Hres; reflexivity|].
  split.
  { exists (body content). rewrite Hfiles, lookup_insert_eq. split; [reflexivity|exact Hn]. }
  apply downloadSingleFile_skip.
  unfold fileExists. rewrite Hfiles, <- Hp, lookup_insert_eq. eauto.
Qed.

Lemma failed_copy_leaves_file_witness :
  let out := downloadSingleFile brokenEnv joinSlash sampleJob "downloads" emptyWorld in
  Status (fst (fst out)) = "Failed" /\
  files (snd out) !! "downloads/20250925_FOCUS_REPORT1.csv"
    = Some (Bytes (sampleBody 100)) /\
  Status (fst (fst (downloadSingleFile sampleEnv joinSlash sampleJob "downloads" (snd out))))
    = "Already exists".
Proof.
  intros out.
  assert (Hin : In (EvCopy "downloads/20250925_FOCUS_REPORT1.csv" 100
                      (Some "unexpected EOF")) (newEvents emptyWorld (snd out)))
    by (vm_compute; auto 10).
  destruct (failed_copy_leaves_file brokenEnv sampleEnv joinSlash sampleJob "downloads"
              emptyWorld _ _ _ Hin) as (_ & Hst & _ & _ & Hagain & _).
  split; [exact Hst|]. split; [vm_compute; reflexivity|exact Hagain].
Defined.

(** X7.  A download writes at most one file, the one at its local
    path: every other path keeps what it had, and nothing at all is
    written unless [os.Create] succeeded, which is tried only after
    the fetch was opened; a file that is already there is never
    overwritten. *)
Theorem download_touches_only_target env Join job folder w :
  let out := downloadSingleFile env Join job folder w in
  let target := targetPath Join folder job in
  let evs := newEvents w (snd out) in
  (forall p, p <> target -> files (snd out) !! p = files w !! p) /\
  (~ In (EvCreate target None) evs -> files (snd out) = files w) /\
  (In (EvCreate target None) evs ->
     ~ fileExists w target /\
     exists content,
       In (EvGetObject (Namespace job) (BucketName job) (ObjectName job) (Ok content)) evs /\
       files (snd out) = <[target := Bytes (body content)]> (files w)) /\
  (fileExists w target -> files (snd out) = files w).
Proof.
  intros out target evs.
  destruct (downloadSingleFile_outcome env Join job folder w)
    as (br & _ & Hfiles & Hevs & Hex & Hbr).
  cbv zeta in Hfiles, Hevs, Hex, Hbr. fold out in Hfiles, Hevs.
  fold (targetPath Join folder job) in Hfiles, Hevs, Hex, Hbr.
  fold target in Hfiles, Hevs, Hex, Hbr. fold evs in Hevs.
  assert (Hcreate : In (EvCreate target None) evs ->
            exists content, br = Succeeded content \/ exists e, br = CopyFailed content e).
  { rewrite Hevs. intros Hin. apply transfer_in_branch in Hin; [|reflexivity].
    destruct br; cbn in Hin; in_events Hin; eauto. }
  split; [|split; [|split]].
  - intros p Hp. rewrite Hfiles.
    destruct br; cbn; try reflexivity; apply lookup_insert_ne; congruence.
  - intros Hno. rewrite Hfiles.
    destruct br; cbn; try reflexivity; exfalso; apply Hno; rewrite Hevs;
      right; apply in_or_app; right; cbn; auto.
  - intros Hin. destruct (Hcreate Hin) as (content & Hc).
    assert (Hnot : br <> AlreadyExists)
      by (destruct Hc as [->|[e ->]]; discriminate).
    split; [intros Hx; apply Hnot, Hex, Hx|].
    exists content. rewrite Hfiles, Hevs.
    destruct Hc as [->|[e ->]]; (split; [|reflexivity]);
      right; apply in_or_app; right; cbn; auto.
  - intros Hx. apply Hex in Hx. rewrite Hfiles, Hx. reflexivity.
Qed.

(** X8.  After a [Success] the local file holds the object: the file
    was not there before, the body the service answered was copied
    without error and is now the content of the file at the local
    path, and [FileSize] is its length. *)
Theorem success_stores_body env Join job folder w :
  let out := downloadSingleFile env Join job folder w in
  let target := targetPath Join folder job in
  Status (fst (fst out)) = "Success" ->
  ~ fileExists w target /\
  exists content,
    In (EvGetObject (Namespace job) (BucketName job) (ObjectName job) (Ok content))
       (newEvents w (snd out)) /\
    failure content = None /\
    files (snd out) !! target = Some (Bytes (body content)) /\
    FileSize (fst (fst out)) = Z.of_nat (String.length (body content)).
Proof.
  intros out target Hst.
  destruct (downloadSingleFile_outcome env Join job folder w)
    as (br & Hres & Hfiles & Hevs & Hex & Hbr).
  cbv zeta in Hres, Hfiles, Hevs, Hex, Hbr. fold out in Hres, Hfiles, Hevs.
  fold (targetPath Join folder job) in Hfiles, Hevs, Hex, Hbr.
  fold target in Hfiles, Hevs, Hex, Hbr.
  rewrite Hres in Hst |- *.
  destruct br; cbn in Hst; try discriminate.
  destruct Hbr as (Hnx & _ & _ & Hfail).
  split; [exact Hnx|]. exists content.
  split; [rewrite Hevs; right; apply in_or_app; right; cbn; auto|].
  split; [exact Hfail|].
  split; [rewrite Hfiles; cbn; apply lookup_insert_eq|reflexivity].
Qed.

Lemma success_stores_body_witness :
  let out := downloadSingleFile sampleEnv joinSlash sampleJob "downloads" emptyWorld in
  files (snd out) !! "downloads/20250925_FOCUS_REPORT1.csv"
    = Some (Bytes (sampleBody 12345)) /\
  FileSize (fst (fst out)) = 12345.
Proof.
  intros out.
  destruct (success_stores_body sampleEnv joinSlash sampleJob "downloads" emptyWorld)
    as (_ & content & _ & _ & _ & _); [vm_compute; reflexivity|].
  split; vm_compute; reflexivity.
Defined.

(** X9.  The size is looked up before the file is checked.  When the
    local file is already there the call still asks the service for
    the object's metadata, once, and the size in the [Already exists]
    result is the size the service reported (0 when the lookup
    failed), not the size of the local file; nothing is fetched and
    no file is touched. *)
Theorem skip_reports_remote_size env Join job folder w :
  let out := downloadSingleFile env Join job folder w in
  let now := env_now env (history w) in
  let head := env_head env (history w ++ [EvNow now])
                (Namespace job) (BucketName job) (ObjectName job) in
  fileExists w (targetPath Join folder job) ->
  newEvents w (snd out)
    = EvNow now :: sizeEvents job head ++ [EvStat (targetPath Join folder job) true] /\
  Status (fst (fst out)) = "Already exists" /\
  FileSize (fst (fst out)) = sizeOr0 (ObjectName job) head /\
  files (snd out) = files w.
Proof.
  intros out now head Hx.
  destruct (downloadSingleFile_outcome env Join job folder w)
    as (br & Hres & Hfiles & Hevs & Hex & _).
  cbv zeta in Hres, Hfiles, Hevs, Hex. fold out in Hres, Hfiles, Hevs.
  fold now in Hres, Hevs. fold head in Hres, Hevs.
  apply Hex in Hx. subst br.
  rewrite Hres, Hfiles, Hevs. repeat split; reflexivity.
Qed.

Lemma skip_reports_remote_size_witness :
  let out := downloadSingleFile sampleEnv joinSlash sampleJob "downloads" downloadedWorld in
  Status (fst (fst out)) = "Already exists" /\
  FileSize (fst (fst out)) = 12345 /\
  files (snd out) !! "downloads/20250925_FOCUS_REPORT1.csv" = Some (Bytes "old").
Proof.
  intros out.
  destruct (skip_reports_remote_size sampleEnv joinSlash sampleJob "downloads"
              downloadedWorld) as (_ & Hst & Hsize & Hfiles).
  { unfold fileExists. vm_compute. eauto. }
  fold out in Hst, Hsize, Hfiles.
  split; [exact Hst|]. split; [rewrite Hsize; vm_compute; reflexivity|].
  rewrite Hfiles. vm_compute. reflexivity.
Defined.

(** ** The operation report *)

Lemma WriteRecord_eq env file rec w :
  WriteRecord env file rec w
  = (env_writeRecord env (history w) file rec,
     mkWorld (<[file := Csv]> (files w))
       (history w ++ [EvWriteRecord file rec (env_writeRecord env (history w) file rec)])).
Proof. reflexivity. Qed.

(** The loop that hands records to the writer and stops at the first
    error. *)
Lemma writeRecords_spec env file : forall recs w,
  let out := writeRecords env file recs w in
  exists done tail,
    history (snd out) = history w ++ (written file <$> done) ++ tail /\
    files (snd out)
    = match recs with
      | [] => files w
      | _ => <[file := Csv]> (files w)
      end /\
    match fst out with
    | None => done = recs /\ tail = []
    | Some e => exists failed rest,
        recs = done ++ failed :: rest /\ tail = [EvWriteRecord file failed (Some e)]
    end.
Proof.
  induction recs as [|rec recs IH]; intros w out.
  { exists [], []. cbn. rewrite app_nil_r. auto. }
  unfold out. cbn [writeRecords]. unfold mbind, IO_bind.
  rewrite WriteRecord_eq.
  destruct (env_writeRecord env (history w) file rec) as [e|].
  { exists [], [EvWriteRecord file rec (Some e)].
    cbn. split; [reflexivity|]. split; [reflexivity|]. exists rec, recs. auto. }
  set (w1 := mkWorld _ _).
  destruct (IH w1) as (done & tail & Hh & Hf & Hout).
  exists (rec :: done), tail. cbv zeta in Hh, Hf, Hout.
  split; [rewrite Hh; unfold w1; cbn; rewrite <- !app_assoc; reflexivity|].
  split.
  - rewrite Hf. unfold w1. cbn [files].
    destruct recs as [|r recs]; [reflexivity|]. apply insert_insert_eq.
  - destruct (fst (writeRecords env file recs w1)) as [e|].
    + destruct Hout as (failed & rest & -> & ->). exists failed, rest. auto.
    + destruct Hout as [-> ->]. auto.
Qed.

Lemma writeOperationReport_eq env results filename w :
  writeOperationReport env results filename w
  = match env_create env (history w) filename with
    | Some e => (Some e, record (EvCreate filename (Some e)) w)
    | None =>
        let out :=
          writeRecords env filename (operationHeader :: (operationRecord <$> results))
            (record (EvCreate filename None) (store filename (Bytes "") w)) in
        (fst out, store filename Csv (snd out))
    end.
Proof.
  unfold writeOperationReport, mbind, IO_bind, Create.
  destruct (env_create env (history w) filename); [reflexivity|].
  cbv zeta. cbn [writeRecords]. unfold mbind, IO_bind.
  destruct (WriteRecord env filename operationHeader _) as [[e|] w1]; [reflexivity|].
  destruct (writeRecords env filename (operationRecord <$> results) w1) as [r w2].
  reflexivity.
Qed.

(** What a [writeOperationReport] that returns no error has done. *)
Lemma writeOperationReport_ok env results filename w :
  let out := writeOperationReport env results filename w in
  let recs := operationHeader :: (operationRecord <$> results) in
  fst out = None ->
  newEvents w (snd out) = EvCreate filename None :: (written filename <$> recs) /\
  files (snd out) = <[filename := Csv]> (files w) /\
  Forall (fun rec => length rec = 7%nat) recs /\
  length recs = S (length results).
Proof.
  intros out recs Hnone. unfold out, recs in *. clear out recs.
  rewrite writeOperationReport_eq in *.
  destruct (env_create env (history w) filename) as [e|]; [discriminate|].
  set (w1 := record (EvCreate filename None) (store filename (Bytes "") w)) in *.
  set (recs := operationHeader :: (operationRecord <$> results)) in *.
  destruct (writeRecords_spec env filename recs w1) as (done & tail & Hh & Hf & Hout).
  cbv zeta in Hh, Hf, Hout, Hnone |- *. cbn [fst snd] in Hnone |- *.
  rewrite Hnone in Hout. destruct Hout as [-> ->].
  split; [|split; [|split]].
  - apply newEvents_app. cbn [history store]. rewrite Hh. unfold w1. cbn.
    rewrite app_nil_r, <- app_assoc. reflexivity.
  - cbn [files store]. rewrite Hf. unfold recs at 1. unfold w1. cbn [files record store].
    rewrite !insert_insert_eq. reflexivity.
  - unfold recs. constructor; [reflexivity|].
    apply Forall_fmap. apply Forall_forall. intros r _. reflexivity.
  - unfold recs. cbn. rewrite length_fmap. reflexivity.
Qed.

(** X10.  A report that ended without error was handed over in full.
    When [writeOperationReport] returns no error it has created the
    file and called [Write], in this order and each call returning
    no error, with the header and with one record per result in the
    order of the results; every record has the seven columns of the
    header; and no file other than the report is changed.  The
    records are then with the writer: what has reached the file is
    left open, since the deferred [Flush] reports nothing. *)
Theorem operation_report_complete env results filename w :
  let out := writeOperationReport env results filename w in
  let recs := operationHeader :: (operationRecord <$> results) in
  fst out = None ->
  newEvents w (snd out) = EvCreate filename None :: (written filename <$> recs) /\
  (forall p, p <> filename -> files (snd out) !! p = files w !! p) /\
  Forall (fun rec => length rec = 7%nat) recs /\
  length recs = S (length results).
Proof.
  intros out recs Hnone.
  destruct (writeOperationReport_ok env results filename w Hnone) as (Hev & Hf & Hcols & Hlen).
  split; [exact Hev|]. split; [|split; assumption].
  intros p Hp. fold out in Hf. rewrite Hf. apply lookup_insert_ne. congruence.
Qed.

Lemma operation_report_complete_witness :
  let out := writeOperationReport sampleEnv [sampleResult] "download_report.csv"
               emptyWorld in
  recordsWritten (newEvents emptyWorld (snd out))
  = [("download_report.csv",
      ["file_name"; "file_size"; "report_date"; "status"; "downloaded"; "error";
       "last_attempt"]);
     ("download_report.csv",
      ["20250925_FOCUS_REPORT1.csv"; "12345"; "2025-09-25"; "Success"; "true"; "";
       "2025-09-30T10:15:30Z"])].
Proof.
  intros out.
  destruct (operation_report_complete sampleEnv [sampleResult] "download_report.csv"
              emptyWorld) as (Hev & _); [reflexivity|].
  fold out in Hev. rewrite Hev. vm_compute. reflexivity.
Defined.

(** X11.  A report that failed stops where it failed.  When
    [writeOperationReport] returns an error, either the file could
    not be created, and then [Write] was never called and no file
    has changed; or the file was created and a call of [Write]
    returned the error: the records before that one were handed to
    the writer in order, each without error, none after it was
    tried, and no file other than the report is changed. *)
Theorem operation_report_stops_at_error env results filename w e :
  let out := writeOperationReport env results filename w in
  let recs := operationHeader :: (operationRecord <$> results) in
  fst out = Some e ->
  (newEvents w (snd out) = [EvCreate filename (Some e)] /\ files (snd out) = files w) \/
  (exists done failed rest,
     recs = done ++ failed :: rest /\
     newEvents w (snd out)
     = EvCreate filename None :: (written filename <$> done) ++
       [EvWriteRecord filename failed (Some e)] /\
     (forall p, p <> filename -> files (snd out) !! p = files w !! p)).
Proof.
  intros out recs Herr. unfold out, recs in *. clear out recs.
  rewrite writeOperationReport_eq in *.
  destruct (env_create env (history w) filename) as [e0|].
  { left. cbn in Herr. inversion Herr. subst e0. split; [|reflexivity].
    apply newEvents_app. reflexivity. }
  right.
  set (w1 := record (EvCreate filename None) (store filename (Bytes "") w)) in *.
  set (recs := operationHeader :: (operationRecord <$> results)) in *.
  destruct (writeRecords_spec env filename recs w1) as (done & tail & Hh & Hf & Hout).
  cbv zeta in Hh, Hf, Hout, Herr |- *. cbn [fst snd] in Herr |- *.
  rewrite Herr in Hout.
  destruct Hout as (failed & rest & Hrecs & ->).
  exists done, failed, rest. split; [exact Hrecs|]. split.
  - apply newEvents_app. cbn [history store]. rewrite Hh. unfold w1. cbn.
    rewrite <- app_assoc. reflexivity.
  - intros p Hp. cbn [files store]. rewrite Hf. unfold recs at 1. unfold w1.
    cbn [files record store]. rewrite !lookup_insert_ne by congruence. reflexivity.
Qed.

Lemma operation_report_stops_at_error_witness :
  let out := writeOperationReport readOnlyEnv [sampleResult] "download_report.csv"
               downloadedWorld in
  fst out = Some "read-only file system" /\
  recordsWritten (newEvents downloadedWorld (snd out)) = [] /\
  files (snd out) = files downloadedWorld.
Proof.
  intros out.
  assert (Herr : fst out = Some "read-only file system") by (vm_compute; reflexivity).
  split; [exact Herr|].
  destruct (operation_report_stops_at_error readOnlyEnv [sampleResult]
              "download_report.csv" downloadedWorld _ Herr)
    as [[Hev Hf]|(done & failed & rest & Hrecs & Hev & Hf)].
  - fold out in Hev, Hf. rewrite Hev. split; [reflexivity|exact Hf].
  - fold out in Hev. vm_compute in Hev. discriminate.
Defined.

(** ** The lister *)

Lemma listPages_eq env ns b cutoff fuel : forall start acc w,
  listPages env fuel ns b cutoff start acc w
  = (listingResult cutoff acc (answersOf env fuel ns b start (history w)),
     mkWorld (files w)
       (history w ++ listingTrace ns b start (answersOf env fuel ns b start (history w)))).
Proof.
  induction fuel as [|fuel IH]; intros start acc w.
  { cbn. rewrite app_nil_r. destruct w; reflexivity. }
  cbn [listPages answersOf]. unfold mbind, mret, IO_bind, IO_ret, ListObjects.
  destruct (env_list env (history w) ns b start) as [page|e] eqn:Hr.
  2:{ reflexivity. }
  rewrite scanPage_spec. cbn [record files history listingResult listingTrace].
  unfold hasNext at 1 2 3.
  destruct (NextStartWith page) as [token|] eqn:Hnext.
  2:{ cbn. rewrite app_nil_r, <- app_assoc. reflexivity. }
  destruct (String.eqb token "") eqn:Htok; cbn [negb].
  { cbn. rewrite app_nil_r, <- app_assoc. reflexivity. }
  rewrite IH. cbn [files history]. rewrite <- !app_assoc. reflexivity.
Qed.

Lemma answersOf_wellPaged env ns b fuel : forall start h,
  wellPaged (answersOf env fuel ns b start h) = true /\
  (length (answersOf env fuel ns b start h) <= fuel)%nat.
Proof.
  induction fuel as [|fuel IH]; intros start h; [split; reflexivity|].
  cbn [answersOf].
  destruct (env_list env h ns b start) as [page|e]; [|split; cbn; [reflexivity|lia]].
  destruct (hasNext page) eqn:Hnext; [|split; cbn; [reflexivity|lia]].
  match goal with
  | |- context [answersOf env fuel ns b ?s ?h'] =>
      destruct (IH s h') as [Hw Hl]; destruct (answersOf env fuel ns b s h') as [|a rest]
  end.
  - split; cbn; [reflexivity|lia].
  - split; [|cbn in *; lia].
    change (wellPaged (Ok page :: a :: rest)) with (hasNext page && wellPaged (a :: rest)).
    rewrite Hnext, Hw. reflexivity.
Qed.

(** X12.  The lister pages through the bucket by the tokens of the
    service.  After reading the clock, its interactions are exactly
    these, in order: a request without token for the given namespace
    and bucket; after each page, the warnings for the objects of that
    page that carry the marker and have no date; then, if the page
    carried a token that is not empty, a request with exactly that
    token.  It stops at the first answer that is an error or a page
    without such a token, and it never asks again after an error. *)
Theorem listing_follows_tokens env fuel ns b days w :
  let out := listAllFocusReports env fuel ns b days w in
  let now := env_now env (history w) in
  exists answers,
    newEvents w (snd out) = EvNow now :: listingTrace ns b None answers /\
    listResponses (newEvents w (snd out)) = answers /\
    wellPaged answers = true /\
    (length answers <= fuel)%nat /\
    fst out = listingResult (time.AddDate now 0 0 (- days)) [] answers.
Proof.
  intros out now. unfold out, listAllFocusReports, mbind, IO_bind, Now.
  fold now. rewrite listPages_eq. cbn [fst snd record history files].
  set (answers := answersOf env fuel ns b None (history w ++ [EvNow now])).
  exists answers.
  assert (Hev : newEvents w
            (mkWorld (files w) ((history w ++ [EvNow now]) ++ listingTrace ns b None answers))
          = EvNow now :: listingTrace ns b None answers).
  { apply newEvents_app. cbn. rewrite <- app_assoc. reflexivity. }
  rewrite Hev.
  destruct (answersOf_wellPaged env ns b fuel None (history w ++ [EvNow now]))
    as [Hw Hl].
  split; [reflexivity|]. split; [|split; [exact Hw|split; [exact Hl|reflexivity]]].
  cbn [listResponses omap list_omap].
  generalize (@None string). clearbody answers. clear.
  induction answers as [|[page|e] rest IH]; intros start; [reflexivity| |].
  - cbn [listingTrace]. 
    change (EvListObjects ns b start (Ok page) ::
            omap skipWarning (Objects page) ++ listingTrace ns b (NextStartWith page) rest)
      with ([EvListObjects ns b start (Ok page)] ++
            omap skipWarning (Objects page) ++ listingTrace ns b (NextStartWith page) rest).
    fold (listResponses ([EvListObjects ns b start (Ok page)] ++
            omap skipWarning (Objects page) ++ listingTrace ns b (NextStartWith page) rest)).
    rewrite !listResponses_app.
    destruct (skipWarnings_are_logs (Objects page)) as [_ ->].
    unfold listResponses at 2. rewrite IH. reflexivity.
  - cbn [listingTrace omap list_omap]. rewrite IH. reflexivity.
Qed.

(** *** The cutoff *)

(** The days up to a year and the day within the year add up to the
    day count they were taken from. *)
Lemma daysSinceEpoch_absYearDay a :
  time.daysSinceEpoch (fst (time.absYearDay a)) + snd (time.absYearDay a)
  = a / time.secondsPerDay.
Proof.
  unfold time.absYearDay. cbn [fst snd].
  unfold time.daysSinceEpoch.
  unfold time.secondsPerDay, time.daysPer400Years, time.daysPer100Years,
    time.daysPer4Years.
  change (365 * 400 + 97) with 146097.
  change (365 * 100 + 24) with 36524.
  change (365 * 4 + 1) with 1461.
  rewrite !Z.shiftr_div_pow2 by lia. change (2 ^ 2) with 4.
  set (d0 := a / 86400).
  set (n1 := d0 / 146097). set (d1 := d0 - 146097 * n1).
  assert (H1 : 0 <= d1 < 146097) by (unfold d1, n1; lia_div).
  set (n2 := d1 / 36524). set (n2' := n2 - n2 / 4). set (d2 := d1 - 36524 * n2').
  assert (H2 : 0 <= n2' <= 3 /\ 0 <= d2 <= 36524)
    by (unfold d2, n2', n2; lia_div).
  set (n3 := d2 / 1461). set (d3 := d2 - 1461 * n3).
  assert (H3 : 0 <= n3 <= 24 /\ 0 <= d3 < 1461)
    by (unfold d3, n3; lia_div).
  set (n4 := d3 / 365). set (n4' := n4 - n4 / 4). set (d4 := d3 - 365 * n4').
  assert (H4 : 0 <= n4' <= 3) by (unfold n4', n4; lia_div).
  replace (400 * n1 + 100 * n2' + 4 * n3 + n4' + time.absoluteZeroYear
           - time.absoluteZeroYear)
    with (400 * n1 + 100 * n2' + 4 * n3 + n4') by lia.
  set (Y := 400 * n1 + 100 * n2' + 4 * n3 + n4').
  assert (Ha : Y / 400 = n1) by (unfold Y; lia_div).
  rewrite Ha.
  assert (Hb : (Y - 400 * n1) / 100 = n2') by (unfold Y; lia_div).
  rewrite Hb.
  assert (Hc : (Y - 400 * n1 - 100 * n2') / 4 = n3) by (unfold Y; lia_div).
  rewrite Hc.
  unfold d4, d3, d2, d1, Y. lia.
Qed.

Lemma yearDayCheck_all (leap : bool) yd :
  0 <= yd < 365 + (if leap then 1 else 0) -> yearDayCheck leap yd = true.
Proof.
  intros H. destruct leap.
  - assert (Hall : forallb (yearDayCheck true) (zrange 0 366) = true)
      by (vm_compute; reflexivity).
    apply (forallb_zrange _ 0 366 yd Hall). lia.
  - assert (Hall : forallb (yearDayCheck false) (zrange 0 365) = true)
      by (vm_compute; reflexivity).
    apply (forallb_zrange _ 0 365 yd Hall). lia.
Qed.

(** Going back [k] days is going back [k] times 86400 seconds. *)
Lemma AddDate_back t k :
  0 <= time.nsec t < 1000000000 ->
  time.AddDate t 0 0 (- k)
  = time.mkTime (time.unixSec t - 86400 * k) (time.nsec t) (time.loc t).
Proof.
  intros Hns. unfold time.AddDate.
  destruct (time.dateOf t) as [[y m] d] eqn:Hd.
  pose proof (dateOf_valid t y m d Hd) as [Hm Hday].
  unfold time.dateOf in Hd. rewrite absDate_monthDayOf in Hd.
  pose proof (absYearDay_range (time.abs t)) as Hr.
  pose proof (daysSinceEpoch_absYearDay (time.abs t)) as Hsum.
  destruct (time.absYearDay (time.abs t)) as [y' yd]. cbn [fst snd] in *.
  rewrite <- isLeap_leapYear in Hr.
  pose proof (yearDayCheck_all _ _ Hr) as Hc. unfold yearDayCheck in Hc.
  destruct (monthDayOf (time.isLeap y') yd) as [m' d']. cbn [fst snd] in Hd.
  inversion Hd. subst y' m' d'. apply Z.eqb_eq in Hc.
  unfold time.clockOf.
  set (s := time.abs t mod time.secondsPerDay).
  assert (Hs : 0 <= s < 86400) by (unfold s, time.secondsPerDay; lia_div).
  rewrite !Z.add_0_r.
  rewrite Date_in_range; try assumption; try lia_div.
  f_equal.
  assert (Hyd : yearDayOf (time.isLeap y) m (d + - k) = yd - k).
  { rewrite <- Hc. unfold yearDayOf. lia. }
  rewrite Hyd.
  assert (Hclock : clockSeconds (s / 3600) (s mod 3600 / 60) (s mod 60) = s)
    by (unfold clockSeconds; lia_div).
  rewrite Hclock.
  assert (Habs : time.abs t = (time.daysSinceEpoch y + yd) * 86400 + s).
  { rewrite Hsum. unfold s, time.secondsPerDay. lia_div. }
  unfold time.abs in Habs.
  unfold time.secondsPerDay, time.internalToUnix, time.internalToAbsolute in *.
  lia.
Qed.

Lemma Date_midnight_nsec y m d : time.nsec (time.Date y m d 0 0 0 0 time.UTC) = 0.
Proof.
  unfold time.Date.
  destruct (time.norm y (m - 1) 12) as [y' m'].
  rewrite !(norm_in_range 0 0) by lia.
  destruct (time.norm d 0 24) as [d' h]. reflexivity.
Qed.

(** The filter of the lister, with the cutoff in seconds. *)
Lemma selected_window now days obj :
  0 <= time.nsec now < 1000000000 ->
  selected (time.AddDate now 0 0 (- days)) obj = true <->
  exists name date,
    Name obj = Some name /\ strings.Contains name "FOCUS" = true /\
    parseDateFromName name = Ok date /\
    time.unixSec now - 86400 * days < time.unixSec date.
Proof.
  intros Hns. rewrite AddDate_back by assumption. unfold selected.
  assert (Hafter : forall name date, parseDateFromName name = Ok date ->
            time.After date
              (time.mkTime (time.unixSec now - 86400 * days) (time.nsec now) (time.loc now))
            = true <-> time.unixSec now - 86400 * days < time.unixSec date).
  { intros name date Hp. apply parseDateFromName_Ok in Hp as (_ & y & m & d & _ & _ & _ & ->).
    unfold time.After. cbn [time.unixSec time.nsec]. rewrite Date_midnight_nsec.
    rewrite orb_true_iff, andb_true_iff. rewrite !Z.gtb_ltb, !Z.ltb_lt, Z.eqb_eq. lia. }
  split.
  - destruct (Name obj) as [name|]; [|discriminate].
    intros H. apply andb_true_iff in H as [Hc H].
    destruct (parseDateFromName name) as [date|e] eqn:Hp; [|discriminate].
    exists name, date. repeat split; try assumption.
    apply (Hafter name date Hp). exact H.
  - intros (name & date & -> & Hc & Hp & Hlt).
    rewrite Hc, Hp. cbn [andb]. apply (Hafter name date Hp). exact Hlt.
Qed.

(** The seconds of a reading in a plain year, moved by a plain
    number of days, fit their 64-bit words. *)
Lemma AddDate_back_fits64 now days :
  utcReading now -> plainDays days ->
  time.fits64
    (time.mkTime (time.unixSec now - 86400 * days) (time.nsec now) (time.loc now)).
Proof.
  intros (Hloc & Hy & _) Hdays. unfold time.Year, time.dateOf in Hy.
  rewrite absDate_monthDayOf in Hy. cbn [fst] in Hy.
  pose proof (absYearDay_range (time.abs now)) as Hr.
  pose proof (daysSinceEpoch_absYearDay (time.abs now)) as Hsum.
  destruct (time.absYearDay (time.abs now)) as [y yd]. cbn [fst snd] in *.
  assert (Hyd : 0 <= yd < 366) by (destruct (time.leapYear y); lia).
  clear Hr. unfold time.plainYear in Hy. unfold plainDays in Hdays.
  destruct (daysSinceEpoch_bounds y) as [Hlo Hhi];
    [unfold time.absoluteZeroYear; lia|].
  unfold time.fits64, time.abs in *.
  cbn [time.unixSec time.loc time.zoneOffset] in *. rewrite Hloc in *.
  cbn [time.zoneOffset time.UTC] in *.
  unfold time.secondsPerDay, time.internalToAbsolute, time.unixToInternal,
    time.absoluteToInternal, time.secondsPerDay, time.absoluteZeroYear in *.
  change (1969 / 4) with 492 in *. change (1969 / 100) with 19 in *.
  change (1969 / 400) with 4 in *.
  change (2 ^ 63) with 9223372036854775808.
  change (2 ^ 64) with 18446744073709551616.
  lia_div.
Qed.

(** X13.  The lookback window in seconds.  On a machine whose local
    zone is UTC, for a clock reading [now] in a plain year and a
    lookback of at most a billion days: the cutoff is [now] moved
    back by [days] times 86400 seconds, its seconds fit their 64-bit
    words, and an object passes the filter of the lister exactly when
    it has a name that contains [FOCUS] and yields a date, and that
    date is later than the cutoff. *)
Theorem lookback_window now days obj :
  utcReading now -> plainDays days ->
  let cutoff := time.AddDate now 0 0 (- days) in
  cutoff = time.mkTime (time.unixSec now - 86400 * days) (time.nsec now) time.UTC /\
  time.fits64 cutoff /\
  (selected cutoff obj = true <->
   exists name date,
     Name obj = Some name /\ strings.Contains name "FOCUS" = true /\
     parseDateFromName name = Ok date /\
     time.unixSec cutoff < time.unixSec date).
Proof.
  intros Hnow Hdays cutoff. pose proof Hnow as (Hloc & _ & Hns).
  assert (Hcut : cutoff = time.mkTime (time.unixSec now - 86400 * days) (time.nsec now)
                            (time.loc now))
    by (apply AddDate_back; exact Hns).
  split; [rewrite Hcut, Hloc; reflexivity|].
  split; [rewrite Hcut; apply AddDate_back_fits64; assumption|].
  unfold cutoff at 1. rewrite (selected_window now days obj Hns).
  rewrite Hcut. cbn [time.unixSec]. reflexivity.
Qed.

Lemma lookback_window_witness :
  selected (time.AddDate sampleNow 0 0 (- 7)) report1 = true /\
  selected (time.AddDate sampleNow 0 0 (- 7)) report2 = false /\
  time.AddDate sampleNow 0 0 (- 7) = time.Date 2025 9 23 10 15 30 0 time.UTC.
Proof.
  assert (Hnow : utcReading sampleNow).
  { split; [reflexivity|]. split; [vm_compute; split; discriminate|].
    replace (time.nsec sampleNow) with 0 by (vm_compute; reflexivity). lia. }
  assert (Hdays : plainDays 7) by (unfold plainDays; lia).
  split; [|split].
  - apply (proj2 (proj2 (proj2 (lookback_window sampleNow 7 report1 Hnow Hdays)))).
    exists "a/b/2025/09/25/FOCUS_REPORT1.csv"%string,
      (time.Date 2025 9 25 0 0 0 0 time.UTC).
    repeat split; vm_compute; reflexivity.
  - destruct (selected (time.AddDate sampleNow 0 0 (- 7)) report2) eqn:Hsel; [|reflexivity].
    apply (proj1 (proj2 (proj2 (lookback_window sampleNow 7 report2 Hnow Hdays)))) in Hsel
      as (name & date & Hname & _ & Hp & Hlt).
    inversion Hname. subst name. vm_compute in Hp. inversion Hp. subst date.
    vm_compute in Hlt. discriminate.
  - etransitivity; [exact (proj1 (lookback_window sampleNow 7 report1 Hnow Hdays))|].
    vm_compute. reflexivity.
Defined.

Lemma filter_sublist {A} (f g : A -> bool) (l : list A) :
  (forall x, f x = true -> g x = true) ->
  sublist (List.filter f l) (List.filter g l).
Proof.
  intros Hfg. induction l as [|x l IH]; [constructor|].
  cbn [List.filter]. destruct (f x) eqn:Hf.
  - rewrite (Hfg x Hf). constructor. exact IH.
  - destruct (g x); [constructor|]; exact IH.
Qed.

Lemma listingResult_sublist c1 c2 answers :
  (forall obj, selected c1 obj = true -> selected c2 obj = true) ->
  forall acc1 acc2, sublist acc1 acc2 ->
    match listingResult c1 acc1 answers, listingResult c2 acc2 answers with
    | Some (Ok objs1), Some (Ok objs2) => sublist objs1 objs2
    | r1, r2 => r1 = r2
    end.
Proof.
  intros Hsel. induction answers as [|[page|e] rest IH]; intros acc1 acc2 Hacc;
    [reflexivity| |reflexivity].
  cbn [listingResult].
  assert (Hnext : sublist (acc1 ++ List.filter (selected c1) (Objects page))
                          (acc2 ++ List.filter (selected c2) (Objects page))).
  { apply sublist_app; [exact Hacc|]. apply filter_sublist. exact Hsel. }
  destruct (hasNext page); [apply IH; exact Hnext|exact Hnext].
Qed.

(** X14.  A wider window never loses a report.  On a machine whose
    local zone is UTC, two listings that start in the same state of
    the world, in a plain year, with lookbacks [days1 <= days2] of at
    most a billion days, have the same interactions with the service
    and the log, end alike (both with the same error, or both still
    running), and when they return objects, those of the narrower
    window are among those of the wider one, in the same order. *)
Theorem wider_window_more_reports env fuel ns b days1 days2 w :
  let now := env_now env (history w) in
  let out1 := listAllFocusReports env fuel ns b days1 w in
  let out2 := listAllFocusReports env fuel ns b days2 w in
  utcReading now -> plainDays days1 -> plainDays days2 ->
  days1 <= days2 ->
  snd out1 = snd out2 /\
  match fst out1, fst out2 with
  | Some (Ok objs1), Some (Ok objs2) => sublist objs1 objs2
  | r1, r2 => r1 = r2
  end.
Proof.
  intros now out1 out2 (_ & _ & Hns) _ _ Hdays.
  unfold out1, out2, listAllFocusReports, mbind, IO_bind, Now. fold now.
  rewrite !listPages_eq. cbn [fst snd].
  split; [reflexivity|].
  apply listingResult_sublist; [|constructor].
  intros obj H1. apply (selected_window now days1 obj Hns) in H1
    as (name & date & Hname & Hc & Hp & Hlt).
  apply (selected_window now days2 obj Hns).
  exists name, date. repeat split; try assumption. lia.
Qed.

Lemma wider_window_more_reports_witness :
  let out1 := listAllFocusReports sampleEnv 1 "bling" "ocid1.tenancy.oc1..example" 4
                emptyWorld in
  let out2 := listAllFocusReports sampleEnv 1 "bling" "ocid1.tenancy.oc1..example" 7
                emptyWorld in
  snd out1 = snd out2 /\ fst out1 = Some (Ok []) /\ fst out2 = Some (Ok [report1]).
Proof.
  intros out1 out2.
  destruct (wider_window_more_reports sampleEnv 1 "bling" "ocid1.tenancy.oc1..example"
              4 7 emptyWorld) as [Heq _].
  - split; [reflexivity|]. split; [vm_compute; split; discriminate|].
    replace (time.nsec (env_now sampleEnv (history emptyWorld))) with 0
      by (vm_compute; reflexivity). lia.
  - unfold plainDays. lia.
  - unfold plainDays. lia.
  - lia.
  - split; [exact Heq|]. split; vm_compute; reflexivity.
Defined.

(** ** [main] *)

Lemma world_eq w files' history' :
  files w = files' -> history w = history' -> w = mkWorld files' history'.
Proof. destruct w. cbn. intros -> ->. reflexivity. Qed.

Lemma clampWorkers_warning flags :
  (MaxWorkers (if MaxWorkers flags <? 1 then withMaxWorkers flags 1 else flags) >? 16)
  = (MaxWorkers flags >? 16).
Proof.
  destruct (Z.ltb_spec (MaxWorkers flags) 1); [|reflexivity].
  cbn [withMaxWorkers MaxWorkers].
  rewrite !Z.gtb_ltb. destruct (Z.ltb_spec 16 (MaxWorkers flags)); [lia|reflexivity].
Qed.

(** The setup of [main], by its outcome. *)
Lemma mainSetup_outcome env fuel flags w0 r w1 :
  mainSetup env fuel flags w0 = (r, w1) -> SetupOutcome env fuel flags w0 r w1.
Proof.
  unfold mainSetup. unfold mbind at 1. unfold IO_bind at 1.
  set (config0 := if MaxWorkers flags <? 1 then withMaxWorkers flags 1 else flags).
  assert (Hclamp :
    (if MaxWorkers config0 >? 16
     then _ ← Log LogWorkersLimited; mret (withMaxWorkers config0 16)
     else mret config0) w0
    = (clampWorkers flags, mkWorld (files w0) (history w0 ++ limitWarning flags))).
  { unfold clampWorkers, limitWarning. fold config0.
    rewrite <- (clampWorkers_warning flags). fold config0.
    destruct (MaxWorkers config0 >? 16); cbn.
    - reflexivity.
    - rewrite app_nil_r. destruct w0; reflexivity. }
  rewrite Hclamp. clear Hclamp.
  set (w := mkWorld (files w0) (history w0 ++ limitWarning flags)).
  assert (Hfolder : DownloadFolder (clampWorkers flags) = DownloadFolder flags /\
                    Days (clampWorkers flags) = Days flags).
  { unfold clampWorkers. fold config0.
    assert (DownloadFolder config0 = DownloadFolder flags /\ Days config0 = Days flags)
      by (unfold config0; destruct (MaxWorkers flags <? 1); split; reflexivity).
    destruct (MaxWorkers config0 >? 16); cbn; tauto. }
  destruct Hfolder as [Hfolder Hdays].
  unfold mbind at 1, IO_bind at 1, NewClient.
  destruct (env_newClient env (history w)) as [e|] eqn:Hclient.
  { intros H. inversion H. subst r w1. apply setup_noClient; [|reflexivity].
    unfold w. cbn. rewrite <- app_assoc. reflexivity. }
  unfold mbind at 1, IO_bind at 1, TenancyOCID.
  destruct (env_tenancy env (history (record (EvNewClient None) w))) as [tenancy|e]
    eqn:Hten.
  2:{ intros H. inversion H. subst r w1. apply setup_noTenancy; [|reflexivity].
      unfold w. cbn. rewrite <- !app_assoc. reflexivity. }
  unfold mbind at 1, IO_bind at 1.
  rewrite Hfolder, Hdays.
  set (w2 := record (EvTenancyOCID (Ok tenancy)) (record (EvNewClient None) w)).
  assert (Hlist : forall w3,
            w3 = mkWorld (files w0) (history w0 ++ setupEvents flags tenancy) ->
            (objects ← listAllFocusReports env fuel "bling" tenancy (Days flags);
             match objects with
             | Some (Ok objects0) =>
                 mret (Some (Ok (mkListed (clampWorkers flags) "bling" tenancy objects0)))
             | Some (Err e) =>
                 mret (Some (Err ("Failed to list FOCUS reports: " +:+ e)))
             | None => mret None
             end) w3 = (r, w1) ->
            SetupOutcome env fuel flags w0 r w1).
  { intros w3 ->. unfold mbind, IO_bind.
    pose proof (setup_listed env fuel flags w0 tenancy) as H. cbv zeta in H.
    destruct (listAllFocusReports env fuel "bling" tenancy (Days flags)
                (mkWorld (files w0) (history w0 ++ setupEvents flags tenancy)))
      as [[[objects|e]|] w4]; intros Heq; inversion Heq; subst r w1; exact H. }
  unfold setupEvents in Hlist.
  destruct (String.eqb_spec (DownloadFolder flags) "") as [Hempty|Hfull].
  { apply Hlist. unfold w2, w, record. cbn.
    rewrite <- !app_assoc. reflexivity. }
  unfold MkdirAll at 1.
  destruct (env_mkdirAll env (history w2) (DownloadFolder flags)) as [e|] eqn:Hmk.
  { intros H. inversion H. subst r w1.
    apply (setup_noFolder env fuel flags w0 tenancy e); [exact Hfull| |reflexivity].
    unfold w2, w, record. cbn. rewrite <- !app_assoc. reflexivity. }
  apply Hlist. unfold w2, w, record. cbn. rewrite <- !app_assoc. reflexivity.
Qed.

Lemma listAllFocusReports_eq env fuel ns b days w :
  let now := env_now env (history w) in
  let answers := answersOf env fuel ns b None (history w ++ [EvNow now]) in
  listAllFocusReports env fuel ns b days w
  = (listingResult (time.AddDate now 0 0 (- days)) [] answers,
     mkWorld (files w) (history w ++ EvNow now :: listingTrace ns b None answers)).
Proof.
  intros now answers. unfold listAllFocusReports, mbind, IO_bind, Now. fold now.
  rewrite listPages_eq. cbn [record files history]. fold answers.
  rewrite <- app_assoc. reflexivity.
Qed.

Lemma listingTrace_setup ns b answers : forall start,
  forallb isSetupEvent (listingTrace ns b start answers) = true.
Proof.
  induction answers as [|[page|e] rest IH]; intros start; [reflexivity| |].
  - cbn [listingTrace forallb isSetupEvent andb]. rewrite forallb_app, IH, andb_true_r.
    apply forallb_forall. intros ev Hin.
    apply list_elem_of_In, list_elem_of_omap in Hin as (obj & _ & Hw).
    apply skipWarning_log in Hw as [name ->]. reflexivity.
  - cbn [listingTrace forallb isSetupEvent andb]. apply IH.
Qed.

Lemma listingResult_error cutoff answers : forall acc msg,
  listingResult cutoff acc answers = Some (Err msg) ->
  exists e, In (Err e) answers /\ msg = ("error listing objects: " +:+ e)%string.
Proof.
  induction answers as [|[page|e] rest IH]; intros acc msg H; [discriminate| |].
  - cbn [listingResult] in H. destruct (hasNext page); [|discriminate].
    destruct (IH _ _ H) as (e & Hin & ->). exists e. split; [right; exact Hin|reflexivity].
  - cbn in H. inversion H. exists e. split; [left; reflexivity|reflexivity].
Qed.

(** The setup leaves the local files alone, and after the warning
    about the worker limit its interactions are with the service, the
    clock and the log only. *)
Lemma mainSetup_events env fuel flags w0 r w1 :
  mainSetup env fuel flags w0 = (r, w1) ->
  files w1 = files w0 /\
  exists evs,
    newEvents w0 w1 = limitWarning flags ++ evs /\ forallb isSetupEvent evs = true.
Proof.
  intros H. apply mainSetup_outcome in H.
  destruct H as [e w1 Hh Hf|e w1 Hh Hf|tenancy e w1 Hne Hh Hf|tenancy].
  - split; [exact Hf|]. eexists. split; [apply newEvents_app; exact Hh|reflexivity].
  - split; [exact Hf|]. eexists. split; [apply newEvents_app; exact Hh|reflexivity].
  - split; [exact Hf|]. eexists. split; [apply newEvents_app; exact Hh|reflexivity].
  - subst wl. rewrite listAllFocusReports_eq. cbn [fst snd files history].
    split; [reflexivity|].
    match goal with
    | |- context [EvNow ?now :: listingTrace ?ns ?b ?s ?answers] =>
        exists ([EvNewClient None; EvTenancyOCID (Ok tenancy)] ++
                (if String.eqb (DownloadFolder flags) "" then []
                 else [EvMkdirAll (DownloadFolder flags) None]) ++
                EvNow now :: listingTrace ns b s answers)
    end.
    split.
    + apply newEvents_app. cbn [history]. unfold setupEvents.
      rewrite <- ?app_assoc. reflexivity.
    + rewrite !forallb_app. cbn [forallb isSetupEvent andb].
      rewrite listingTrace_setup.
      destruct (String.eqb (DownloadFolder flags) ""); reflexivity.
Qed.

(** X15.  The worker count is brought into 1..16.  When the setup
    succeeds the pool is configured with the requested number of
    workers, raised to 1 if it was lower and cut to 16 if it was
    higher; the other settings are the ones given; and the warning
    about the limit is logged exactly when more than 16 were
    requested. *)
Theorem workers_clamped env fuel flags w0 l w1 :
  mainSetup env fuel flags w0 = (Some (Ok l), w1) ->
  MaxWorkers (listedConfig l) = Z.max 1 (Z.min 16 (MaxWorkers flags)) /\
  Days (listedConfig l) = Days flags /\
  DownloadFolder (listedConfig l) = DownloadFolder flags /\
  ReportFile (listedConfig l) = ReportFile flags /\
  (In (EvLog LogWorkersLimited) (newEvents w0 w1) <-> 16 < MaxWorkers flags) /\
  forall js w,
    length (workers (startPool (listedConfig l) js w))
    = Z.to_nat (Z.max 1 (Z.min 16 (MaxWorkers flags))).
Proof.
  intros H.
  destruct (mainSetup_events _ _ _ _ _ _ H) as (_ & evs & Hevs & Hkinds).
  assert (Hconfig : listedConfig l = clampWorkers flags).
  { apply mainSetup_outcome in H.
    inversion H.
    match goal with
    | Hx : listedOf _ _ ?r = Some (Ok l) |- _ =>
        destruct r as [[objs|e]|]; cbn in Hx; inversion Hx; reflexivity
    end. }
  assert (Hmax : MaxWorkers (clampWorkers flags) = Z.max 1 (Z.min 16 (MaxWorkers flags))).
  { unfold clampWorkers.
    destruct (Z.ltb_spec (MaxWorkers flags) 1); cbn [withMaxWorkers MaxWorkers].
    - rewrite Z.gtb_ltb. destruct (Z.ltb_spec 16 1); [lia|]. cbn. lia.
    - rewrite Z.gtb_ltb. destruct (Z.ltb_spec 16 (MaxWorkers flags)); cbn; lia. }
  assert (Hrest : Days (clampWorkers flags) = Days flags /\
                  DownloadFolder (clampWorkers flags) = DownloadFolder flags /\
                  ReportFile (clampWorkers flags) = ReportFile flags).
  { unfold clampWorkers.
    destruct (MaxWorkers flags <? 1); cbn [withMaxWorkers MaxWorkers];
      match goal with |- context [if ?c then _ else _] => destruct c end;
      repeat split; reflexivity. }
  rewrite Hconfig. destruct Hrest as (Hd & Hf & Hr).
  repeat (split; [assumption|]). split.
  - rewrite Hevs. unfold limitWarning. rewrite Z.gtb_ltb.
    destruct (Z.ltb_spec 16 (MaxWorkers flags)) as [Hgt|Hle].
    + split; [intros _; exact Hgt|intros _; left; reflexivity].
    + split; [|lia]. cbn [app]. intros Hin.
      rewrite forallb_forall in Hkinds. apply Hkinds in Hin. discriminate.
  - intros js w. cbn. rewrite length_replicate, Hmax. reflexivity.
Qed.

Lemma workers_clamped_witness :
  exists l w1,
    mainSetup sampleEnv 1 greedyFlags emptyWorld = (Some (Ok l), w1) /\
    MaxWorkers (listedConfig l) = 16 /\
    In (EvLog LogWorkersLimited) (newEvents emptyWorld w1).
Proof.
  assert (Hsetup : exists l w1,
            mainSetup sampleEnv 1 greedyFlags emptyWorld = (Some (Ok l), w1)).
  { eexists. eexists. vm_compute. reflexivity. }
  destruct Hsetup as (l & w1 & Hsetup). exists l, w1.
  destruct (workers_clamped _ _ _ _ _ _ Hsetup) as (Hmax & _ & _ & _ & Hlog & _).
  split; [exact Hsetup|]. split; [rewrite Hmax; reflexivity|].
  apply Hlog. cbn. lia.
Defined.

(** X16.  The setup stops at the first thing that fails.  When the
    setup ends with a fatal message, no local file has changed, and
    what was done is, after the possible warning about the worker
    limit: the attempt to create the client only, when that failed;
    else, with it, the reading of the tenancy, when that failed; else,
    with both, the attempt to create the download folder, when one
    was given and could not be made; else, all of these, the clock
    reading and the requests of the listing, one of which failed.
    Nothing is ever listed without a client and a tenancy. *)
Theorem setup_stops_at_first_failure env fuel flags w0 msg w1 :
  mainSetup env fuel flags w0 = (Some (Err msg), w1) ->
  files w1 = files w0 /\
  exists evs,
    newEvents w0 w1 = limitWarning flags ++ evs /\
    ((exists e, msg = ("Error creating Object Storage client: " +:+ e)%string /\
                evs = [EvNewClient (Some e)]) \/
     (exists e, msg = ("Failed to read tenancy OCID from config: " +:+ e)%string /\
                evs = [EvNewClient None; EvTenancyOCID (Err e)]) \/
     (exists tenancy e,
        DownloadFolder flags <> "" /\
        msg = ("Failed to create download folder " +:+ DownloadFolder flags +:+
               ": " +:+ e)%string /\
        evs = [EvNewClient None; EvTenancyOCID (Ok tenancy);
               EvMkdirAll (DownloadFolder flags) (Some e)]) \/
     (exists tenancy now answers e,
        msg = ("Failed to list FOCUS reports: " +:+ "error listing objects: " +:+ e)%string /\
        In (Err e) answers /\
        evs = [EvNewClient None; EvTenancyOCID (Ok tenancy)] ++
              (if String.eqb (DownloadFolder flags) "" then []
               else [EvMkdirAll (DownloadFolder flags) None]) ++
              EvNow now :: listingTrace "bling" tenancy None answers)).
Proof.
  intros H. apply mainSetup_outcome in H.
  inversion H as [e w1' Hh Hf|e w1' Hh Hf|tenancy e w1' Hne Hh Hf|tenancy wl Hr Hw];
    subst.
  - split; [exact Hf|]. eexists. split; [apply newEvents_app; exact Hh|].
    left. eauto.
  - split; [exact Hf|]. eexists. split; [apply newEvents_app; exact Hh|].
    right. left. eauto.
  - split; [exact Hf|]. eexists. split; [apply newEvents_app; exact Hh|].
    right. right. left. exists tenancy, e. auto.
  - subst wl. rewrite listAllFocusReports_eq in *. cbn [fst snd files history] in *.
    split; [reflexivity|].
    match goal with
    | Hx : listedOf _ _ (listingResult ?c [] ?answers) = Some (Err msg) |- _ =>
        destruct (listingResult c [] answers) as [[objs|m]|] eqn:Hres;
          cbn in Hx; inversion Hx; subst msg;
          destruct (listingResult_error _ _ _ _ Hres) as (e & Hin & ->)
    end.
    match goal with
    | |- context [EvNow ?now :: listingTrace ?ns ?b ?s ?answers] =>
        exists ([EvNewClient None; EvTenancyOCID (Ok tenancy)] ++
                (if String.eqb (DownloadFolder flags) "" then []
                 else [EvMkdirAll (DownloadFolder flags) None]) ++
                EvNow now :: listingTrace ns b s answers);
        split; [|right; right; right; exists tenancy, now, answers, e; auto]
    end.
    apply newEvents_app. cbn [history]. unfold setupEvents.
    rewrite <- ?app_assoc. reflexivity.
Qed.

Lemma setup_stops_at_first_failure_witness :
  exists w1,
    mainSetup noCredentialsEnv 1 sampleConfig emptyWorld
    = (Some (Err "Error creating Object Storage client: did not find a proper configuration"),
       w1) /\
    newEvents emptyWorld w1 = [EvNewClient (Some "did not find a proper configuration")] /\
    files w1 = files emptyWorld.
Proof.
  assert (Hsetup : exists w1,
            mainSetup noCredentialsEnv 1 sampleConfig emptyWorld
            = (Some (Err "Error creating Object Storage client: did not find a proper configuration"),
               w1)).
  { eexists. vm_compute. reflexivity. }
  destruct Hsetup as (w1 & Hsetup). exists w1. split; [exact Hsetup|].
  destruct (setup_stops_at_first_failure _ _ _ _ _ _ Hsetup) as (Hf & evs & Hevs & Hcase).
  split; [|exact Hf].
  rewrite Hevs. change (limitWarning sampleConfig) with (@nil Event). cbn [app].
  destruct Hcase as [(e & Hm & ->)|[(e & Hm & ->)|[(t & e & _ & Hm & ->)|(t & now & a & e & Hm & _)]]];
    vm_compute in Hm; inversion Hm; subst; reflexivity.
Defined.

(** *** The summary phase and the local files *)

Lemma WriteRecord_files env file rec w p :
  (p <> file ->
   files (snd (WriteRecord env file rec w)) !! p = files w !! p) /\
  (fileExists w p -> fileExists (snd (WriteRecord env file rec w)) p).
Proof.
  unfold WriteRecord, fileExists. cbn [snd record store files]. split; intros H.
  - apply lookup_insert_ne. congruence.
  - destruct (decide (file = p)) as [->|Hne];
      [rewrite lookup_insert_eq; eauto|rewrite lookup_insert_ne by assumption; exact H].
Qed.

Lemma writeAll_files env file recs p : forall w,
  (p <> file -> files (snd (writeAll env file recs w)) !! p = files w !! p) /\
  (fileExists w p -> fileExists (snd (writeAll env file recs w)) p).
Proof.
  induction recs as [|rec rest IH]; intros w; [split; auto|].
  cbn [writeAll]. unfold mbind, IO_bind.
  destruct (WriteRecord_files env file rec w p) as [H1 H2].
  destruct (WriteRecord env file rec w) as [u w1]. cbn [snd] in H1, H2.
  destruct (IH w1) as [H3 H4]. split.
  - intros Hp. rewrite H3, H1 by assumption. reflexivity.
  - intros Hx. apply H4, H2, Hx.
Qed.

Lemma mainSummary_eq env sortSlice ns b objects w :
  exists heads,
    length heads = length (omap Name objects) /\
    let named := zip (omap Name objects) heads in
    let w1 := mkWorld (files w) (history w ++ headEvents ns b named) in
    let rows := summaryRecord b <$> sortSlice laterFirst (datedReports named) in
    mainSummary env sortSlice ns b objects w
    = match env_create env (history w1) summaryFile with
      | Some e => (Fatal ("Error creating CSV file: " +:+ e),
                   record (EvCreate summaryFile (Some e)) w1)
      | None =>
          (Done,
           store summaryFile Csv
             (snd (writeAll env summaryFile (summaryHeader :: rows)
                     (record (EvCreate summaryFile None)
                        (store summaryFile (Bytes "") w1)))))
      end.
Proof.
  destruct (collectReports_spec env ns b objects [] w) as (heads & Hlen & Hcollect).
  exists heads. split; [exact Hlen|]. cbv zeta in Hcollect |- *.
  set (named := zip (omap Name objects) heads) in *.
  set (w1 := mkWorld (files w) (history w ++ headEvents ns b named)) in *.
  set (rows := summaryRecord b <$> sortSlice laterFirst (datedReports named)).
  unfold mainSummary, mbind, mret, IO_bind, IO_ret. rewrite Hcollect. cbn [app].
  unfold Create. fold rows.
  destruct (env_create env (history w1) summaryFile) as [e|]; [reflexivity|].
  cbn [writeAll]. unfold mbind, IO_bind.
  destruct (WriteRecord env summaryFile summaryHeader _) as [u w3].
  destruct (writeAll env summaryFile rows w3) as [u' w4]. reflexivity.
Qed.

Lemma mainSummary_files env sortSlice ns b objects w p :
  (p <> summaryFile ->
   files (snd (mainSummary env sortSlice ns b objects w)) !! p = files w !! p) /\
  (fileExists w p -> fileExists (snd (mainSummary env sortSlice ns b objects w)) p).
Proof.
  destruct (mainSummary_eq env sortSlice ns b objects w) as (heads & _ & Heq).
  cbv zeta in Heq. rewrite Heq. clear Heq.
  match goal with |- context [env_create env ?h summaryFile] =>
    destruct (env_create env h summaryFile) as [e|] end.
  { cbn. split; auto. }
  cbn [snd].
  match goal with |- context [writeAll env summaryFile ?recs ?w0] =>
    destruct (writeAll_files env summaryFile recs p w0) as [H1 H2] end.
  unfold fileExists in *. cbn [files store]. split.
  - intros Hp. rewrite lookup_insert_ne by congruence. rewrite H1 by assumption.
    cbn. apply lookup_insert_ne. congruence.
  - intros Hx. destruct (decide (summaryFile = p)) as [->|Hne];
      [rewrite lookup_insert_eq; eauto|].
    rewrite lookup_insert_ne by assumption. apply H2. cbn.
    rewrite lookup_insert_ne by assumption. exact Hx.
Qed.

Lemma sizeEvents_summary job head :
  forallb isSummaryWrite (sizeEvents job head) = true /\
  headRequests (sizeEvents job head) = [ObjectName job].
Proof.
  unfold sizeEvents. destruct (sizeOfHead (ObjectName job) head); split; reflexivity.
Qed.

Lemma headEvents_summary ns b named :
  forallb isSummaryWrite (headEvents ns b named) = true /\
  headRequests (headEvents ns b named) = fst <$> named.
Proof.
  unfold headEvents. induction named as [|[name head] rest [IH1 IH2]]; [split; reflexivity|].
  cbn [fmap list_fmap concat fst snd].
  destruct (sizeEvents_summary (mkJob name ns b) head) as [H1 H2].
  split.
  - rewrite forallb_app, H1. exact IH1.
  - unfold headRequests in *. rewrite omap_app, H2, IH2. reflexivity.
Qed.

Lemma writes_summary (writes : list Event) :
  Forall (fun e => exists rec err, e = EvWriteRecord summaryFile rec err) writes ->
  forallb isSummaryWrite writes = true /\ headRequests writes = [].
Proof.
  induction 1 as [|e writes (rec & err & ->) _ [IH1 IH2]]; [split; reflexivity|].
  split; [exact IH1|exact IH2].
Qed.

(** X17.  The summary asks for every size, and only the creation of
    its file can stop it.  The summary phase requests the metadata of
    each listed object that has a name, once and in the order of the
    list, and touches no file but [oci_focus_reports.csv].  It ends
    normally exactly when that file could be created: errors of the
    writes that follow are not looked at, and a failed lookup of a
    size does not stop it either. *)
Theorem summary_only_create_is_fatal env sortSlice ns b objects w :
  let out := mainSummary env sortSlice ns b objects w in
  let evs := newEvents w (snd out) in
  headRequests evs = omap Name objects /\
  forallb isSummaryWrite evs = true /\
  (fst out = Done <-> In (EvCreate summaryFile None) evs) /\
  (forall rec e, In (EvWriteRecord summaryFile rec (Some e)) evs -> fst out = Done) /\
  (forall p, p <> summaryFile -> files (snd out) !! p = files w !! p).
Proof.
  intros out evs.
  destruct (mainSummary_spec env sortSlice ns b objects w) as (heads & Hlen & Hspec).
  cbv zeta in Hspec. fold out in Hspec. fold evs in Hspec.
  set (named := zip (omap Name objects) heads) in *.
  destruct (headEvents_summary ns b named) as [Hk Hreq].
  assert (Hnames : fst <$> named = omap Name objects)
    by (unfold named; apply fst_zip; lia).
  assert (Hnocreate : forall r, ~ In (EvCreate summaryFile r) (headEvents ns b named)).
  { intros r Hin. rewrite forallb_forall in Hk.
    apply headEvents_in in Hin as (name & head & _ & Hin).
    unfold sizeEvents in Hin. destruct Hin as [Hin|Hin]; [discriminate|].
    destruct (sizeOfHead _ _); cbn in Hin; [tauto|]. destruct Hin as [Hin|[]]. discriminate. }
  split; [|split; [|split; [|split]]].
  - destruct Hspec as [(e & _ & Hevs)|(_ & writes & Hevs & _ & Hall)]; rewrite Hevs.
    + unfold headRequests in *. rewrite omap_app, Hreq, Hnames. cbn. apply app_nil_r.
    + destruct (writes_summary writes Hall) as [_ Hw].
      change (headEvents ns b named ++ EvCreate summaryFile None :: writes)
        with (headEvents ns b named ++ [EvCreate summaryFile None] ++ writes).
      unfold headRequests in *. rewrite !omap_app, Hreq, Hw, Hnames. cbn.
      apply app_nil_r.
  - destruct Hspec as [(e & _ & Hevs)|(_ & writes & Hevs & _ & Hall)]; rewrite Hevs.
    + rewrite forallb_app, Hk. reflexivity.
    + destruct (writes_summary writes Hall) as [Hw _].
      rewrite forallb_app, Hk. cbn [forallb isSummaryWrite]. rewrite Hw. reflexivity.
  - destruct Hspec as [(e & Hfatal & Hevs)|(Hdone & writes & Hevs & _ & Hall)];
      rewrite Hevs.
    + rewrite Hfatal. split; [discriminate|]. intros Hin.
      apply in_app_or in Hin as [Hin|Hin]; [destruct (Hnocreate _ Hin)|].
      destruct Hin as [Hin|[]]. discriminate.
    + split; [|intros _; exact Hdone]. intros _. apply in_or_app. right. left. reflexivity.
  - intros rec e Hin.
    destruct Hspec as [(e' & Hfatal & Hevs)|(Hdone & _)]; [|exact Hdone].
    rewrite Hevs in Hin. exfalso.
    apply in_app_or in Hin as [Hin|Hin].
    + apply headEvents_in in Hin as (name & head & _ & Hin).
      unfold sizeEvents in Hin. destruct Hin as [Hin|Hin]; [discriminate|].
      destruct (sizeOfHead _ _); cbn in Hin; [tauto|]. destruct Hin as [Hin|[]]. discriminate.
    + destruct Hin as [Hin|[]]. discriminate.
  - intros p Hp. apply mainSummary_files. exact Hp.
Qed.

(** *** Whole runs *)

Lemma writeOperationReport_files env results filename w p :
  (p <> filename ->
   files (snd (writeOperationReport env results filename w)) !! p = files w !! p) /\
  (fileExists w p -> fileExists (snd (writeOperationReport env results filename w)) p).
Proof.
  rewrite writeOperationReport_eq.
  destruct (env_create env (history w) filename) as [e|]; [cbn; split; auto|].
  set (w1 := record (EvCreate filename None) (store filename (Bytes "") w)).
  destruct (writeRecords_spec env filename
              (operationHeader :: (operationRecord <$> results)) w1)
    as (done & tail & _ & Hf & _).
  cbv zeta in Hf |- *. unfold fileExists. cbn [snd files store]. rewrite !Hf. subst w1.
  cbn [files record store]. split.
  - intros Hp. rewrite !lookup_insert_ne by congruence. reflexivity.
  - intros Hx. destruct (decide (filename = p)) as [->|Hne].
    + rewrite lookup_insert_eq. eauto.
    + rewrite !lookup_insert_ne by assumption. exact Hx.
Qed.

(** Whenever the listing ends, [main] has a run. *)
Lemma mainExec_exists env Join sortSlice fuel flags w0 :
  fst (mainSetup env fuel flags w0) <> None ->
  exists exit w', mainExec env Join sortSlice fuel flags w0 exit w'.
Proof.
  intros Hsome.
  destruct (mainSetup env fuel flags w0) as [[[l|msg]|] w1] eqn:Hsetup;
    [| |cbn in Hsome; congruence].
  2:{ exists (Fatal msg), w1. apply main_fatal_setup. exact Hsetup. }
  destruct (String.eqb_spec (DownloadFolder (listedConfig l)) "") as [Hempty|Hfull].
  { destruct (mainSummary env sortSlice (listedNamespace l) (listedBucketName l)
                (listedObjects l) w1) as [exit w2] eqn:Hsum.
    exists exit, w2. eapply main_listing_only; eassumption. }
  destruct (mainSetup_spec _ _ _ _ _ _ Hsetup)
    as (w & tenancy & _ & _ & _ & _ & _ & Hworkers & _).
  set (js := jobsFor (listedNamespace l) (listedBucketName l) (listedObjects l)).
  destruct (pool_terminates env Join (listedConfig l) js _
              (startPool_inv (listedConfig l) js w1) ltac:(lia))
    as (p & Hrun & Hdone).
  destruct (writeOperationReport env (downloadResults p) (ReportFile (listedConfig l))
              (world p)) as [[e|] w2] eqn:Hreport.
  - exists (Fatal ("Failed to write operation report: " +:+ e)), w2.
    eapply main_download; try eassumption. cbn. auto.
  - destruct (mainSummary env sortSlice (listedNamespace l) (listedBucketName l)
                (listedObjects l) w2) as [exit w3] eqn:Hsum.
    exists exit, w3. eapply main_download; try eassumption.
Qed.

(** X18.  [main] comes to an end.  Whenever the listing does (the
    service stops handing out tokens before the fuel is used up),
    there is a run of [main] from any state of the world, with any
    settings and any behaviour of the service and the system: the
    pool cannot block, since its workers and its collector always
    reach the point where the collector is done.  The run ends
    normally or with one of the six fatal messages. *)
Theorem main_terminates env Join sortSlice fuel flags w0 :
  fst (mainSetup env fuel flags w0) <> None ->
  exists exit w',
    mainExec env Join sortSlice fuel flags w0 exit w' /\
    (exit = Done \/ exists msg, exit = Fatal msg /\ fatalMessage msg).
Proof.
  intros Hsome.
  destruct (mainExec_exists env Join sortSlice fuel flags w0 Hsome) as (exit & w' & Hexec).
  exists exit, w'. split; [exact Hexec|].
  destruct exit as [msg|]; [right|left; reflexivity].
  exists msg. split; [reflexivity|].
  eapply mainExec_fatal; [exact Hexec|reflexivity].
Qed.

Lemma main_terminates_witness :
  exists exit w', mainExec sampleEnv joinSlash mergeSortSlice 1 sampleConfig emptyWorld
                    exit w'.
Proof.
  destruct (main_terminates sampleEnv joinSlash mergeSortSlice 1 sampleConfig emptyWorld)
    as (exit & w' & Hexec & _).
  - vm_compute. discriminate.
  - exists exit, w'. exact Hexec.
Defined.

(** X19.  [main] removes nothing.  Every local file that exists
    when a run starts still exists when it ends, however it ends:
    files are only created or rewritten. *)
Theorem main_keeps_files env Join sortSlice fuel flags w0 exit w' p :
  mainExec env Join sortSlice fuel flags w0 exit w' ->
  fileExists w0 p -> fileExists w' p.
Proof.
  intros Hexec Hx.
  assert (Hset : forall r w1, mainSetup env fuel flags w0 = (r, w1) -> fileExists w1 p).
  { intros r w1 H. destruct (mainSetup_events _ _ _ _ _ _ H) as [Hf _].
    unfold fileExists in *. rewrite Hf. exact Hx. }
  inversion Hexec as
    [msg w1 Hsetup|l w1 exit' w2 Hsetup Hfolder Hsum
    |l w1 pl err w2 exit' w3 Hsetup Hfolder Hsteps Hdone Hreport Hexit]; subst.
  - eapply Hset. exact Hsetup.
  - replace w' with (snd (mainSummary env sortSlice (listedNamespace l)
                            (listedBucketName l) (listedObjects l) w1))
      by (rewrite Hsum; reflexivity).
    apply mainSummary_files. eapply Hset. exact Hsetup.
  - assert (Hp : fileExists (world pl) p).
    { eapply steps_files_mono; [exact Hsteps|]. eapply Hset. exact Hsetup. }
    assert (H2 : fileExists w2 p).
    { replace w2 with (snd (writeOperationReport env (downloadResults pl)
                              (ReportFile (listedConfig l)) (world pl)))
        by (rewrite Hreport; reflexivity).
      apply writeOperationReport_files. exact Hp. }
    destruct err as [e|].
    + destruct Hexit as [_ ->]. exact H2.
    + replace w' with (snd (mainSummary env sortSlice (listedNamespace l)
                              (listedBucketName l) (listedObjects l) w2))
        by (rewrite Hexit; reflexivity).
      apply mainSummary_files. exact H2.
Qed.

Lemma main_keeps_files_witness :
  exists exit w',
    mainExec sampleEnv joinSlash mergeSortSlice 1 sampleConfig downloadedWorld exit w' /\
    fileExists w' "downloads/20250925_FOCUS_REPORT1.csv".
Proof.
  destruct (mainExec_exists sampleEnv joinSlash mergeSortSlice 1 sampleConfig
              downloadedWorld) as (exit & w' & Hexec).
  { vm_compute. discriminate. }
  exists exit, w'. split; [exact Hexec|].
  apply (main_keeps_files _ _ _ _ _ _ _ _ _ Hexec).
  unfold fileExists. vm_compute. eauto.
Defined.

Lemma listingTrace_listing_only ns b answers : forall start,
  forallb isListingOnlyEvent (listingTrace ns b start answers) = true.
Proof.
  induction answers as [|[page|e] rest IH]; intros start; [reflexivity| |].
  - cbn [listingTrace forallb isListingOnlyEvent andb]. rewrite forallb_app, IH, andb_true_r.
    apply forallb_forall. intros ev Hin.
    apply list_elem_of_In, list_elem_of_omap in Hin as (obj & _ & Hw).
    apply skipWarning_log in Hw as [name ->]. reflexivity.
  - cbn [listingTrace forallb isListingOnlyEvent andb]. apply IH.
Qed.

Lemma limitWarning_listing_only flags :
  forallb isListingOnlyEvent (limitWarning flags) = true.
Proof. unfold limitWarning. destruct (MaxWorkers flags >? 16); reflexivity. Qed.

Lemma mainSetup_listing_only env fuel flags w0 r w1 :
  DownloadFolder flags = "" ->
  mainSetup env fuel flags w0 = (r, w1) ->
  files w1 = files w0 /\
  exists evs, history w1 = history w0 ++ evs /\ forallb isListingOnlyEvent evs = true.
Proof.
  intros Hfolder H. apply mainSetup_outcome in H.
  destruct H as [e w1 Hh Hf|e w1 Hh Hf|tenancy e w1 Hne Hh Hf|tenancy].
  - split; [exact Hf|]. eexists. split; [exact Hh|].
    rewrite forallb_app, limitWarning_listing_only. reflexivity.
  - split; [exact Hf|]. eexists. split; [exact Hh|].
    rewrite forallb_app, limitWarning_listing_only. reflexivity.
  - contradiction.
  - subst wl. rewrite listAllFocusReports_eq. cbn [fst snd files history].
    split; [reflexivity|]. rewrite <- app_assoc. eexists. split; [reflexivity|].
    unfold setupEvents. rewrite Hfolder. cbn [String.eqb app].
    rewrite !forallb_app, limitWarning_listing_only.
    cbn [forallb isListingOnlyEvent andb]. apply listingTrace_listing_only.
Qed.

Lemma isSummaryWrite_listing_only e :
  isSummaryWrite e = true -> isListingOnlyEvent e = true.
Proof. destruct e; cbn; try discriminate; auto. Qed.

Lemma mainSummary_history env sortSlice ns b objects w :
  exists evs,
    history (snd (mainSummary env sortSlice ns b objects w)) = history w ++ evs /\
    forallb isSummaryWrite evs = true.
Proof.
  destruct (mainSummary_eq env sortSlice ns b objects w) as (heads & _ & Heq).
  cbv zeta in Heq. rewrite Heq. clear Heq.
  set (named := zip (omap Name objects) heads).
  destruct (headEvents_summary ns b named) as [Hk _].
  match goal with |- context [env_create env ?h summaryFile] =>
    destruct (env_create env h summaryFile) as [e|] end.
  { cbn. rewrite <- app_assoc. eexists. split; [reflexivity|].
    rewrite forallb_app, Hk. reflexivity. }
  cbn [snd].
  match goal with |- context [writeAll env summaryFile ?recs ?w0] =>
    destruct (writeAll_spec env summaryFile recs w0) as (evs & Hh & _ & Hall) end.
  unfold store at 1. cbn [history]. rewrite Hh. cbn. rewrite <- !app_assoc. eexists. split; [reflexivity|].
  destruct (writes_summary evs Hall) as [Hw _].
  rewrite forallb_app, Hk. cbn [app forallb isSummaryWrite]. rewrite Hw. reflexivity.
Qed.

(** X20.  Without a download folder nothing is downloaded.  In a run
    of [main] with no folder given, whatever its end: no directory is
    made, no object body is requested, no local file is checked or
    copied to, the only file created or written is
    [oci_focus_reports.csv], and every other local file is left as it
    was. *)
Theorem listing_only_fetches_nothing env Join sortSlice fuel flags w0 exit w' :
  DownloadFolder flags = "" ->
  mainExec env Join sortSlice fuel flags w0 exit w' ->
  (forall e, In e (newEvents w0 w') -> isListingOnlyEvent e = true) /\
  (forall p, p <> summaryFile -> files w' !! p = files w0 !! p).
Proof.
  intros Hfolder Hexec.
  inversion Hexec as
    [msg w1 Hsetup|l w1 exit' w2 Hsetup Hf Hsum
    |l w1 pl err w2 exit' w3 Hsetup Hf Hsteps Hdone Hreport Hexit]; subst.
  - destruct (mainSetup_listing_only _ _ _ _ _ _ Hfolder Hsetup) as (Hfiles & evs & Hh & Hk).
    split; [|intros p _; rewrite Hfiles; reflexivity].
    rewrite (newEvents_app _ _ _ Hh). apply forallb_forall. exact Hk.
  - destruct (mainSetup_listing_only _ _ _ _ _ _ Hfolder Hsetup) as (Hfiles & evs & Hh & Hk).
    destruct (mainSummary_history env sortSlice (listedNamespace l) (listedBucketName l)
                (listedObjects l) w1) as (evs2 & Hh2 & Hk2).
    pose proof (mainSummary_files env sortSlice (listedNamespace l) (listedBucketName l)
                  (listedObjects l) w1) as Hfs.
    rewrite Hsum in Hh2, Hfs. cbn [snd] in Hh2, Hfs.
    split.
    + assert (Hall : history w' = history w0 ++ (evs ++ evs2))
        by (rewrite Hh2, Hh, app_assoc; reflexivity).
      rewrite (newEvents_app _ _ _ Hall). intros e Hin.
      apply in_app_or in Hin as [Hin|Hin].
      * rewrite forallb_forall in Hk. auto.
      * rewrite forallb_forall in Hk2. apply isSummaryWrite_listing_only. auto.
    + intros p Hp. rewrite (proj1 (Hfs p) Hp), Hfiles. reflexivity.
  - exfalso. apply Hf.
    destruct (mainSetup_spec _ _ _ _ _ _ Hsetup)
      as (w & tenancy & _ & _ & _ & _ & _ & _ & Hdf & _).
    rewrite Hdf. exact Hfolder.
Qed.

Lemma listing_only_fetches_nothing_witness :
  exists w',
    mainExec sampleEnv joinSlash mergeSortSlice 1 listingOnly emptyWorld Done w' /\
    forall p, p <> summaryFile -> files w' !! p = None.
Proof.
  assert (Hexec : exists w', mainExec sampleEnv joinSlash mergeSortSlice 1 listingOnly
                               emptyWorld Done w').
  { eexists. eapply main_listing_only.
    - vm_compute. reflexivity.
    - reflexivity.
    - vm_compute. reflexivity. }
  destruct Hexec as [w' Hexec]. exists w'. split; [exact Hexec|].
  destruct (listing_only_fetches_nothing sampleEnv joinSlash mergeSortSlice 1 listingOnly
              emptyWorld Done w' eq_refl Hexec) as [_ Hfiles].
  intros p Hp. rewrite (Hfiles p Hp). reflexivity.
Defined.

(** X21.  The operation report accounts for every job.  When the
    pool has finished and [writeOperationReport] returns no error,
    the records it has handed to the writer, after creating the
    file, are the header followed by exactly one row per job, each
    handed over without error; the file names in the first column
    are, up to order, the local names of the jobs' objects, and the
    status column of every row is one of the three statuses. *)
Theorem operation_report_covers_jobs env Join config js w p filename :
  1 <= MaxWorkers config ->
  steps env Join config (startPool config js w) p ->
  collectorDone p = true ->
  let out := writeOperationReport env (downloadResults p) filename (world p) in
  fst out = None ->
  exists rows,
    newEvents (world p) (snd out)
    = EvCreate filename None :: (written filename <$> operationHeader :: rows) /\
    length rows = length js /\
    (fun row => nth 0 row "") <$> rows
      ≡ₚ (fun job => prefixedFilenameOf (ObjectName job)) <$> js /\
    Forall (fun row => isStatus (nth 3 row "")) rows.
Proof.
  intros Hn Hsteps Hdone out Hnone.
  exists (operationRecord <$> downloadResults p).
  pose proof (steps_inv _ _ _ _ _ _ Hsteps) as Hinv.
  destruct (finished_all_answered js _ p Hinv ltac:(lia) Hdone) as [Hperm Hall].
  assert (Hres : forall r, r ∈ received p ->
            FileName (Result_Result r) = prefixedFilenameOf (ObjectName (Result_Job r)) /\
            isStatus (Status (Result_Result r))).
  { intros r Hr.
    refine (proj2 (pool_results_invariant env Join config js (fun _ => True)
                     (fun r => FileName (Result_Result r)
                               = prefixedFilenameOf (ObjectName (Result_Job r)) /\
                               isStatus (Status (Result_Result r)))
                     w _ _ I p Hsteps) r _).
    - intros job w1 _ _. split; [|exact I]. split; [|apply processJob_status].
      rewrite processJob_job.
      destruct (processJob_result env Join (DownloadFolder config) job w1) as [-> _].
      apply downloadSingleFile_FileName.
    - intros; exact I.
    - rewrite Hall. exact Hr. }
  split; [|split; [|split]].
  - destruct (writeOperationReport_ok env (downloadResults p) filename (world p) Hnone)
      as (Hev & _).
    exact Hev.
  - unfold downloadResults. rewrite !length_fmap.
    rewrite <- (Permutation_length Hperm), length_fmap. reflexivity.
  - rewrite <- Hperm. unfold downloadResults. rewrite <- !list_fmap_compose.
    erewrite (list_fmap_ext _ (fun r => prefixedFilenameOf (ObjectName (Result_Job r))));
      [reflexivity|].
    intros i r Hr. cbn. apply Hres. eapply list_elem_of_lookup_2. exact Hr.
  - unfold downloadResults. rewrite <- list_fmap_compose. apply Forall_fmap.
    apply Forall_forall. intros r Hr. cbn. apply Hres. exact Hr.
Qed.

Lemma recordsWritten_report file recs :
  recordsWritten (EvCreate file None :: (written file <$> recs))
  = (fun rec => (file, rec)) <$> recs.
Proof.
  unfold recordsWritten. cbn [omap list_omap].
  induction recs as [|rec recs IH]; [reflexivity|].
  cbn [fmap list_fmap omap list_omap written]. f_equal. exact IH.
Qed.

Lemma sample_report_written results filename w :
  fst (writeOperationReport sampleEnv results filename w) = None.
Proof.
  rewrite writeOperationReport_eq. cbn [sampleEnv scenarioEnv env_create].
  cbv zeta. cbn [fst].
  generalize (operationHeader :: (operationRecord <$> results)).
  generalize (record (EvCreate filename None) (store filename (Bytes "") w)).
  intros w1 recs. revert w1.
  induction recs as [|rec recs IH]; intros w1; [reflexivity|].
  cbn [writeRecords]. unfold mbind, IO_bind, WriteRecord.
  cbn [sampleEnv scenarioEnv env_writeRecord].
  match goal with |- context [writeRecords ?env ?f recs ?w2] =>
    specialize (IH w2); destruct (writeRecords env f recs w2) end.
  exact IH.
Qed.

Lemma operation_report_covers_jobs_witness :
  exists p rows,
    steps sampleEnv joinSlash sampleConfig
      (startPool sampleConfig [sampleJob] emptyWorld) p /\
    recordsWritten
      (newEvents (world p)
         (snd (writeOperationReport sampleEnv (downloadResults p) "download_report.csv"
                 (world p))))
    = (fun rec => ("download_report.csv", rec)) <$> operationHeader :: rows /\
    (fun row => nth 0 row "") <$> rows = ["20250925_FOCUS_REPORT1.csv"].
Proof.
  assert (Hn : 1 <= MaxWorkers sampleConfig) by (cbn; lia).
  destruct (pool_terminates sampleEnv joinSlash sampleConfig [sampleJob] _
              (startPool_inv sampleConfig [sampleJob] emptyWorld) Hn)
    as (p & Hrun & Hdone).
  destruct (operation_report_covers_jobs sampleEnv joinSlash sampleConfig [sampleJob]
              emptyWorld p "download_report.csv" Hn Hrun Hdone
              (sample_report_written _ _ _))
    as (rows & Hev & _ & Hperm & _).
  exists p, rows. split; [exact Hrun|]. split.
  - rewrite Hev. apply recordsWritten_report.
  - cbn in Hperm. apply Permutation_singleton_r in Hperm. exact Hperm.
Defined.

(** ** Names and dates *)

Lemma Split_nonempty s sep : strings.Split s sep <> [].
Proof.
  destruct s as [|c s]; cbn [strings.Split]; [discriminate|].
  destruct (Ascii.eqb c sep); [discriminate|].
  destruct (strings.Split s sep); discriminate.
Qed.

Lemma Split_app a b :
  strings.Split (a +:+ String "/" b) "/" = strings.Split a "/" ++ strings.Split b "/".
Proof.
  induction a as [|c a IH].
  - cbn. reflexivity.
  - change (String c a +:+ String "/" b) with (String c (a +:+ String "/" b)).
    cbn [strings.Split]. rewrite IH.
    destruct (Ascii.eqb c "/"); [reflexivity|].
    pose proof (Split_nonempty a "/") as Hne.
    destruct (strings.Split a "/") as [|piece pieces]; [contradiction|]. reflexivity.
Qed.

Lemma Split_slash a b :
  strings.Split (a +:+ "/" +:+ b) "/" = strings.Split a "/" ++ strings.Split b "/".
Proof. exact (Split_app a b). Qed.

Lemma Split_noSlash s : noSlash s = true -> strings.Split s "/" = [s].
Proof.
  unfold noSlash. induction s as [|c s IH]; [reflexivity|].
  cbn [list_ascii_of_string forallb strings.Split]. intros H.
  apply andb_true_iff in H as [Hc Hs].
  destruct (Ascii.eqb c "/"); [discriminate|]. rewrite (IH Hs). reflexivity.
Qed.

Lemma fourDigitsCheck_all y : 0 <= y <= 9999 -> fourDigitsCheck y = true.
Proof.
  intros Hy.
  assert (Hall : forallb fourDigitsCheck (zrange 0 10000) = true)
    by (vm_compute; reflexivity).
  apply (forallb_zrange _ 0 10000 y Hall). lia.
Qed.

Lemma twoDigitsCheck_all n : 0 <= n <= 99 -> twoDigitsCheck n = true.
Proof.
  intros Hn.
  assert (Hall : forallb twoDigitsCheck (zrange 0 100) = true)
    by (vm_compute; reflexivity).
  apply (forallb_zrange _ 0 100 n Hall). lia.
Qed.

Lemma fourDigits_field y :
  0 <= y <= 9999 ->
  noSlash (fourDigits y) = true /\ strconv.Atoi (fourDigits y) = Ok y.
Proof.
  intros Hy. pose proof (fourDigitsCheck_all y Hy) as H. unfold fourDigitsCheck in H.
  apply andb_true_iff in H as [H1 H2]. split; [exact H1|].
  destruct (strconv.Atoi (fourDigits y)) as [n|e]; [|discriminate].
  apply Z.eqb_eq in H2. congruence.
Qed.

Lemma twoDigits_field n :
  0 <= n <= 99 ->
  noSlash (twoDigits n) = true /\ strconv.Atoi (twoDigits n) = Ok n.
Proof.
  intros Hn. pose proof (twoDigitsCheck_all n Hn) as H. unfold twoDigitsCheck in H.
  apply andb_true_iff in H as [H1 H2]. split; [exact H1|].
  destruct (strconv.Atoi (twoDigits n)) as [k|e]; [|discriminate].
  apply Z.eqb_eq in H2. congruence.
Qed.

Lemma datedName_Split dir y m d file :
  0 <= y <= 9999 -> 0 <= m <= 99 -> 0 <= d <= 99 -> noSlash file = true ->
  strings.Split (datedName dir y m d file) "/"
  = strings.Split dir "/" ++ [fourDigits y; twoDigits m; twoDigits d; file].
Proof.
  intros Hy Hm Hd Hfile. unfold datedName.
  rewrite !Split_slash.
  rewrite (Split_noSlash _ (proj1 (fourDigits_field y Hy))).
  rewrite (Split_noSlash _ (proj1 (twoDigits_field m Hm))).
  rewrite (Split_noSlash _ (proj1 (twoDigits_field d Hd))).
  rewrite (Split_noSlash _ Hfile). reflexivity.
Qed.

Lemma fromEnd_tail (pre : list string) a b c e :
  fromEnd (pre ++ [a; b; c; e]) 4 = a /\
  fromEnd (pre ++ [a; b; c; e]) 3 = b /\
  fromEnd (pre ++ [a; b; c; e]) 2 = c.
Proof.
  unfold fromEnd. rewrite length_app. cbn [length].
  replace (length pre + 4 - 4)%nat with (length pre + 0)%nat by lia.
  replace (length pre + 4 - 3)%nat with (length pre + 1)%nat by lia.
  replace (length pre + 4 - 2)%nat with (length pre + 2)%nat by lia.
  rewrite !app_nth2_plus. repeat split; reflexivity.
Qed.

Lemma string_app_assoc (a b c : string) :
  ((a +:+ b) +:+ c = a +:+ (b +:+ c))%string.
Proof.
  induction a as [|x a IH]; [reflexivity|].
  change ((String x a +:+ b) +:+ c)%string with (String x ((a +:+ b) +:+ c)).
  rewrite IH. reflexivity.
Qed.

Lemma list_ascii_of_string_app a b :
  list_ascii_of_string (a +:+ b) = list_ascii_of_string a ++ list_ascii_of_string b.
Proof.
  induction a as [|c a IH]; [reflexivity|].
  change (String c a +:+ b)%string with (String c (a +:+ b)).
  cbn [list_ascii_of_string app]. rewrite IH. reflexivity.
Qed.

Lemma untilSlash_app l rest :
  forallb (fun c => negb (Ascii.eqb c "/")) l = true ->
  path.untilSlash (l ++ "/"%char :: rest) = l.
Proof.
  induction l as [|c l IH]; intros H; [reflexivity|].
  cbn [forallb] in H. apply andb_true_iff in H as [Hc Hl].
  cbn [app path.untilSlash]. destruct (Ascii.eqb c "/"); [discriminate|].
  rewrite (IH Hl). reflexivity.
Qed.

(** The base name of [a/file] is [file], for a file name without
    slash that is not empty. *)
Lemma Base_app a file :
  file <> "" -> noSlash file = true -> path.Base (a +:+ String "/" file) = file.
Proof.
  intros Hne Hfile. unfold path.Base.
  assert (Hchars : rev (list_ascii_of_string (a +:+ String "/" file))
                   = rev (list_ascii_of_string file) ++
                     "/"%char :: rev (list_ascii_of_string a)).
  { rewrite list_ascii_of_string_app. cbn [list_ascii_of_string].
    rewrite rev_app_distr. cbn [rev]. rewrite <- app_assoc. reflexivity. }
  assert (Hrev : forallb (fun c => negb (Ascii.eqb c "/"))
                   (rev (list_ascii_of_string file)) = true).
  { unfold noSlash in Hfile. rewrite forallb_forall in *. intros c Hc.
    apply Hfile. apply in_rev. exact Hc. }
  assert (Hlast : exists c l, rev (list_ascii_of_string file) = c :: l).
  { destruct (rev (list_ascii_of_string file)) as [|c l] eqn:Hr; [|eauto].
    exfalso. apply Hne. apply (f_equal (@rev ascii)) in Hr. rewrite rev_involutive in Hr.
    rewrite <- (string_of_list_ascii_of_string file), Hr. reflexivity. }
  destruct (a +:+ String "/" file) as [|c0 s0] eqn:Hp.
  { destruct a; discriminate. }
  rewrite Hchars.
  destruct Hlast as (c & l & Hcl).
  assert (Hdrop : path.dropSlashes (rev (list_ascii_of_string file) ++
                                    "/"%char :: rev (list_ascii_of_string a))
                  = rev (list_ascii_of_string file) ++
                    "/"%char :: rev (list_ascii_of_string a)).
  { rewrite Hcl in *. cbn [app path.dropSlashes].
    cbn [forallb] in Hrev. apply andb_true_iff in Hrev as [Hc _].
    destruct (Ascii.eqb c "/"); [discriminate|reflexivity]. }
  rewrite Hdrop, (untilSlash_app _ _ Hrev), rev_involutive.
  destruct (list_ascii_of_string file) as [|c1 l1] eqn:Hf.
  { rewrite <- (string_of_list_ascii_of_string file), Hf in Hne. contradiction. }
  rewrite <- Hf. apply string_of_list_ascii_of_string.
Qed.

(** What is read from a name built from a date. *)
Lemma datedName_fields dir y m d file :
  0 <= y <= 9999 -> time.validDate y m d ->
  file <> "" -> noSlash file = true ->
  let name := datedName dir y m d file in
  parseDateFromName name = Ok (time.Date y m d 0 0 0 0 time.UTC) /\
  time.dateOf (time.Date y m d 0 0 0 0 time.UTC) = (y, m, d) /\
  reportDateOf name = (fourDigits y +:+ "-" +:+ twoDigits m +:+ "-" +:+ twoDigits d)%string /\
  prefixedFilenameOf name
  = (((fourDigits y +:+ twoDigits m +:+ twoDigits d) +:+ "_") +:+ file)%string.
Proof.
  intros Hy Hv Hne Hfile name.
  pose proof (validDate_day_le_31 _ _ _ Hv) as Hd. pose proof Hv as [Hm _].
  assert (Hdate : time.dateOf (time.Date y m d 0 0 0 0 time.UTC) = (y, m, d))
    by (apply Date_calendar; [unfold time.absoluteZeroYear; lia|exact Hv]).
  assert (Hparse : parseDateFromName name = Ok (time.Date y m d 0 0 0 0 time.UTC)).
  { apply parseDateFromName_Ok. unfold name.
    rewrite datedName_Split by (assumption || lia).
    destruct (fromEnd_tail (strings.Split dir "/") (fourDigits y) (twoDigits m)
                (twoDigits d) file) as (-> & -> & ->).
    split; [rewrite length_app; cbn; lia|].
    exists y, m, d.
    rewrite (proj2 (fourDigits_field y Hy)).
    rewrite (proj2 (twoDigits_field m ltac:(lia))).
    rewrite (proj2 (twoDigits_field d ltac:(lia))). auto. }
  assert (Hbase : path.Base name = file).
  { replace name
      with ((dir +:+ "/" +:+ fourDigits y +:+ "/" +:+ twoDigits m +:+ "/" +:+ twoDigits d)
            +:+ String "/" file)%string
      by (unfold name, datedName; rewrite !string_app_assoc; reflexivity).
    apply Base_app; assumption. }
  split; [exact Hparse|]. split; [exact Hdate|]. split.
  - unfold reportDateOf. rewrite Hparse. apply FormatISO_YYYY_MM_DD; assumption.
  - unfold prefixedFilenameOf. rewrite Hparse, Hbase. unfold formatDateForFilename.
    rewrite (FormatCompact_YYYYMMDD _ y m d) by assumption. reflexivity.
Qed.

(** X22.  Names built from a date are read back.  For a calendar
    date of the years 0..9999 and a file name without slash that is
    not empty, the object name [dir/YYYY/MM/DD/file], with any
    directory part, yields exactly that date; the report date
    recorded for it is [YYYY-MM-DD] and its local file name is
    [YYYYMMDD_file]. *)
Theorem dated_name_round_trip dir y m d file :
  0 <= y <= 9999 -> time.validDate y m d ->
  file <> "" -> noSlash file = true ->
  let name := datedName dir y m d file in
  parseDateFromName name = Ok (time.Date y m d 0 0 0 0 time.UTC) /\
  time.dateOf (time.Date y m d 0 0 0 0 time.UTC) = (y, m, d) /\
  reportDateOf name = (fourDigits y +:+ "-" +:+ twoDigits m +:+ "-" +:+ twoDigits d)%string /\
  prefixedFilenameOf name
  = (((fourDigits y +:+ twoDigits m +:+ twoDigits d) +:+ "_") +:+ file)%string.
Proof.
  intros Hy Hv Hne Hfile name. apply datedName_fields; assumption.
Qed.

Lemma dated_name_round_trip_witness :
  parseDateFromName "a/b/2025/09/25/FOCUS_REPORT1.csv"
    = Ok (time.Date 2025 9 25 0 0 0 0 time.UTC) /\
  prefixedFilenameOf "a/b/2025/09/25/FOCUS_REPORT1.csv" = "20250925_FOCUS_REPORT1.csv".
Proof.
  destruct (dated_name_round_trip "a/b" 2025 9 25 "FOCUS_REPORT1.csv")
    as (Hp & _ & _ & Hf).
  - lia.
  - split; [lia|]. vm_compute. split; discriminate.
  - discriminate.
  - reflexivity.
  - split; [exact Hp|exact Hf].
Defined.

(** X23.  The marker test has one effective clause.  The lister
    tests a name for [FOCUS] or [FOCUS_REPORT]; every name with the
    second contains the first, so the test is the test for [FOCUS]
    alone: names are selected by that substring, wherever it stands
    and whatever surrounds it. *)
Theorem marker_is_FOCUS name :
  hasMarker name = strings.Contains name "FOCUS" /\
  (strings.Contains name "FOCUS_REPORT" = true -> strings.Contains name "FOCUS" = true) /\
  (forall before after, hasMarker (before +:+ "FOCUS" +:+ after) = true).
Proof.
  split; [apply hasMarker_FOCUS|]. split.
  - intros H. rewrite <- hasMarker_FOCUS. unfold hasMarker. rewrite H. apply orb_true_r.
  - intros before after. rewrite hasMarker_FOCUS.
    induction before as [|c before IH].
    + destruct after; vm_compute; reflexivity.
    + change (String c before +:+ "FOCUS" +:+ after)%string
        with (String c (before +:+ "FOCUS" +:+ after)).
      cbn [strings.Contains]. rewrite IH. apply orb_true_r.
Qed.

(** X24.  The local name forgets the directory.  Two objects whose
    names end in the same date and file name, in whatever
    directories, get the same local file name; so once one of them
    has been downloaded or was found already there, the download of
    the other into the same folder answers [Already exists] and
    fetches nothing: the second object is never stored. *)
Theorem same_date_and_file_collide env env' Join folder ns b dir1 dir2 y m d file w :
  0 <= y <= 9999 -> time.validDate y m d ->
  file <> "" -> noSlash file = true ->
  let job1 := mkJob (datedName dir1 y m d file) ns b in
  let job2 := mkJob (datedName dir2 y m d file) ns b in
  let out1 := downloadSingleFile env Join job1 folder w in
  let out2 := downloadSingleFile env' Join job2 folder (snd out1) in
  FileName (fst (fst out1)) = FileName (fst (fst out2)) /\
  (Status (fst (fst out1)) <> "Failed" ->
   Status (fst (fst out2)) = "Already exists" /\
   Downloaded (fst (fst out2)) = false /\
   files (snd out2) = files (snd out1) /\
   forall e, In e (newEvents (snd out1) (snd out2)) -> isTransfer e = false).
Proof.
  intros Hy Hv Hne Hfile job1 job2 out1 out2.
  destruct (datedName_fields dir1 y m d file Hy Hv Hne Hfile) as (_ & _ & _ & Hf1).
  destruct (datedName_fields dir2 y m d file Hy Hv Hne Hfile) as (_ & _ & _ & Hf2).
  cbv zeta in Hf1, Hf2.
  assert (Hsame : targetPath Join folder job1 = targetPath Join folder job2).
  { unfold targetPath, job1, job2. cbn [ObjectName]. rewrite Hf1, Hf2. reflexivity. }
  split.
  - unfold out1, out2. rewrite !downloadSingleFile_FileName.
    unfold job1, job2. cbn [ObjectName]. rewrite Hf1, Hf2. reflexivity.
  - intros Hst.
    pose proof (downloadSingleFile_not_failed env Join job1 folder w Hst) as Hx.
    fold out1 in Hx. rewrite Hsame in Hx.
    destruct (downloadSingleFile_skip env' Join job2 folder (snd out1) Hx)
      as (H1 & H2 & _ & H4 & H5).
    fold out2 in H1, H2, H4, H5. auto.
Qed.

Lemma same_date_and_file_collide_witness :
  let job1 := mkJob "a/2025/09/25/FOCUS_REPORT1.csv" "bling" "bucket" in
  let job2 := mkJob "b/2025/09/25/FOCUS_REPORT1.csv" "bling" "bucket" in
  let out1 := downloadSingleFile sampleEnv joinSlash job1 "downloads" emptyWorld in
  let out2 := downloadSingleFile sampleEnv joinSlash job2 "downloads" (snd out1) in
  Status (fst (fst out1)) = "Success" /\ Status (fst (fst out2)) = "Already exists".
Proof.
  intros job1 job2 out1 out2.
  assert (Hst : Status (fst (fst out1)) = "Success") by (vm_compute; reflexivity).
  split; [exact Hst|].
  destruct (same_date_and_file_collide sampleEnv sampleEnv joinSlash "downloads" "bling"
              "bucket" "a" "b" 2025 9 25 "FOCUS_REPORT1.csv" emptyWorld) as [_ H].
  - lia.
  - split; [lia|]. vm_compute. split; discriminate.
  - discriminate.
  - reflexivity.
  - apply H. change (Status (fst (fst out1)) <> "Failed"). rewrite Hst. discriminate.
Defined.

(** *** Runs of the pool, to apply the statements to *)

Lemma pool_within_capacity_witness :
  exists p,
    steps sampleEnv joinSlash sampleConfig
      (startPool sampleConfig [sampleJob; sampleJob2] emptyWorld) p /\
    collectorDone p = true /\
    (length (jobs p) <= 8)%nat /\ (length (results p) <= 8)%nat /\
    length (workers p) = 4%nat.
Proof.
  assert (Hn : 1 <= MaxWorkers sampleConfig) by (cbn; lia).
  destruct (pool_terminates sampleEnv joinSlash sampleConfig [sampleJob; sampleJob2] _
              (startPool_inv sampleConfig [sampleJob; sampleJob2] emptyWorld) Hn)
    as (p & Hrun & Hdone).
  exists p. split; [exact Hrun|]. split; [exact Hdone|].
  destruct (pool_within_capacity _ _ _ _ _ _ Hrun) as (Hj & Hr & Hw & _).
  repeat split; assumption.
Defined.

Lemma pool_closes_in_order_witness :
  exists p,
    steps sampleEnv joinSlash sampleConfig
      (startPool sampleConfig [sampleJob; sampleJob2] emptyWorld) p /\
    collectorDone p = true /\
    resultsClosed p = true /\ jobsClosed p = true /\
    toSubmit p = [] /\ results p = [] /\ workerJobs (workers p) = [].
Proof.
  assert (Hn : 1 <= MaxWorkers sampleConfig) by (cbn; lia).
  destruct (pool_terminates sampleEnv joinSlash sampleConfig [sampleJob; sampleJob2] _
              (startPool_inv sampleConfig [sampleJob; sampleJob2] emptyWorld) Hn)
    as (p & Hrun & Hdone).
  exists p. split; [exact Hrun|]. split; [exact Hdone|].
  destruct (pool_closes_in_order _ _ _ _ _ _ Hrun) as (H1 & _ & H3 & H4).
  destruct (H4 Hdone) as [Hrc Hres]. destruct (H3 Hrc) as (Hjc & Hwj & _).
  repeat split; auto.
Defined.

Lemma failed_downloads_logged_witness :
  exists p r,
    steps offlineEnv joinSlash sampleConfig
      (startPool sampleConfig [sampleJob] emptyWorld) p /\
    received p = [r] /\
    Status (Result_Result r) = "Failed" /\
    In (EvLog (LogDownloadFailed "a/b/2025/09/25/FOCUS_REPORT1.csv" "connection reset"))
       (history (world p)).
Proof.
  assert (Hn : 1 <= MaxWorkers sampleConfig) by (cbn; lia).
  destruct (pool_terminates offlineEnv joinSlash sampleConfig [sampleJob] _
              (startPool_inv sampleConfig [sampleJob] emptyWorld) Hn)
    as (p & Hrun & Hdone).
  destruct (single_job_result [sampleJob] _ p sampleJob
              (steps_inv _ _ _ _ _ _ Hrun) ltac:(cbn; lia) Hdone eq_refl)
    as (r & Hrec & Hjob & Hin).
  exists p, r. split; [exact Hrun|]. split; [exact Hrec|].
  destruct (failed_downloads_logged _ _ _ _ _ _ Hrun) as (evs & Hh & Hlog).
  assert (Herr : Result_Error r = Some "connection reset").
  { refine (proj2 (pool_results_invariant offlineEnv joinSlash sampleConfig [sampleJob]
                     (fun w => files w = ∅)
                     (fun r => Result_Error r = Some "connection reset")
                     emptyWorld _ _ eq_refl p Hrun) r Hin).
    - intros job w _ Hempty.
      destruct (offline_always_fails (DownloadFolder sampleConfig) job w Hempty)
        as [_ Hfiles].
      rewrite processJob_world. split; [|exact Hfiles].
      destruct (processJob_result offlineEnv joinSlash (DownloadFolder sampleConfig) job w)
        as [_ ->].
      destruct (downloadSingleFile_outcome offlineEnv joinSlash job
                  (DownloadFolder sampleConfig) w) as (br & Hres & _ & _ & _ & Hbr).
      cbv zeta in Hres, Hbr. rewrite Hres.
      destruct br; cbn in Hbr |- *.
      + exfalso. unfold fileExists in Hbr. rewrite Hempty in Hbr.
        destruct Hbr as [x Hx]. discriminate.
      + destruct Hbr as [_ Hget]. inversion Hget. reflexivity.
      + destruct Hbr as (_ & Hget & _). discriminate.
      + destruct Hbr as (_ & Hget & _). discriminate.
      + destruct Hbr as (_ & Hget & _). discriminate.
    - intros w line Hw. exact Hw. }
  destruct (Hlog r _ ltac:(rewrite Hrec; left; reflexivity) Herr) as (Hst & _ & Hline).
  split; [exact Hst|]. rewrite Hh, Hjob in *. apply in_or_app. right. exact Hline.
Defined.

Lemma fourDigits_inj y1 y2 :
  0 <= y1 <= 9999 -> 0 <= y2 <= 9999 -> fourDigits y1 = fourDigits y2 -> y1 = y2.
Proof.
  intros H1 H2 Heq.
  pose proof (proj2 (fourDigits_field y1 H1)) as A1.
  pose proof (proj2 (fourDigits_field y2 H2)) as A2.
  rewrite Heq in A1. congruence.
Qed.

Lemma twoDigits_inj n1 n2 :
  0 <= n1 <= 99 -> 0 <= n2 <= 99 -> twoDigits n1 = twoDigits n2 -> n1 = n2.
Proof.
  intros H1 H2 Heq.
  pose proof (proj2 (twoDigits_field n1 H1)) as A1.
  pose proof (proj2 (twoDigits_field n2 H2)) as A2.
  rewrite Heq in A1. congruence.
Qed.

(** X25.  Local names collide for no other reason.  Two object
    names with dates of the years 0..9999 get the same local file
    name only if their dates are the same day and their base names
    are equal; and the local name of an object without date never is
    the local name of an object with one. *)
Theorem local_names_tell_dates_apart name1 name2 date1 :
  parseDateFromName name1 = Ok date1 ->
  prefixedFilenameOf name1 = prefixedFilenameOf name2 ->
  exists date2,
    parseDateFromName name2 = Ok date2 /\
    forall y1 m1 d1 y2 m2 d2,
      time.dateOf date1 = (y1, m1, d1) -> time.dateOf date2 = (y2, m2, d2) ->
      0 <= y1 <= 9999 -> 0 <= y2 <= 9999 ->
      (y1, m1, d1) = (y2, m2, d2) /\ path.Base name1 = path.Base name2.
Proof.
  intros Hp1 Heq. unfold prefixedFilenameOf in Heq. rewrite Hp1 in Heq.
  destruct (parseDateFromName name2) as [date2|e] eqn:Hp2.
  2:{ exfalso.
      assert (Hs : startsNumeric
                ((formatDateForFilename date1 +:+ "_") +:+ path.Base name1) = true)
        by (apply startsNumeric_app, startsNumeric_app, FormatCompact_startsNumeric).
      rewrite Heq in Hs. vm_compute in Hs. discriminate. }
  exists date2. split; [reflexivity|].
  intros y1 m1 d1 y2 m2 d2 Hd1 Hd2 Hy1 Hy2.
  pose proof (dateOf_valid _ _ _ _ Hd1) as Hv1.
  pose proof (dateOf_valid _ _ _ _ Hd2) as Hv2.
  pose proof (validDate_day_le_31 _ _ _ Hv1). pose proof (validDate_day_le_31 _ _ _ Hv2).
  destruct Hv1 as [Hm1 _]. destruct Hv2 as [Hm2 _].
  unfold formatDateForFilename in Heq.
  rewrite (FormatCompact_YYYYMMDD _ _ _ _ Hd1 Hy1),
          (FormatCompact_YYYYMMDD _ _ _ _ Hd2 Hy2) in Heq.
  assert (Hparts : fourDigits y1 = fourDigits y2 /\ twoDigits m1 = twoDigits m2 /\
                   twoDigits d1 = twoDigits d2 /\ path.Base name1 = path.Base name2).
  { unfold fourDigits, twoDigits in *.
    cbv [String.append] in Heq. inversion Heq. repeat split; congruence. }
  destruct Hparts as (Hy & Hm & Hd & Hb).
  apply fourDigits_inj in Hy; [|assumption..].
  apply twoDigits_inj in Hm; [|lia..].
  apply twoDigits_inj in Hd; [|lia..].
  subst. auto.
Qed.

Lemma local_names_tell_dates_apart_witness :
  prefixedFilenameOf "a/2025/09/25/FOCUS_REPORT1.csv"
  = prefixedFilenameOf "b/c/2025/9/25/FOCUS_REPORT1.csv" /\
  parseDateFromName "b/c/2025/9/25/FOCUS_REPORT1.csv"
  = Ok (time.Date 2025 9 25 0 0 0 0 time.UTC).
Proof.
  assert (Heq : prefixedFilenameOf "a/2025/09/25/FOCUS_REPORT1.csv"
                = prefixedFilenameOf "b/c/2025/9/25/FOCUS_REPORT1.csv")
    by (vm_compute; reflexivity).
  split; [exact Heq|].
  destruct (local_names_tell_dates_apart "a/2025/09/25/FOCUS_REPORT1.csv"
              "b/c/2025/9/25/FOCUS_REPORT1.csv" (time.Date 2025 9 25 0 0 0 0 time.UTC)
              ltac:(vm_compute; reflexivity) Heq) as (date2 & Hp & _).
  rewrite Hp. f_equal. vm_compute in Hp. inversion Hp. vm_compute. reflexivity.
Defined.
